(** * roumon: the goroutine dump parser of [internal/model/model.go]

    A shallow embedding of the Go package [model] and of the parts of the Go
    standard library it calls ([strings], [strconv], [bufio], [fmt]),
    followed by the properties of the parser.

    Conventions.
    - A Go [string] is a sequence of bytes: Rocq's [string].
    - Go's [int], [int32], [int64] are [Z]; indices may be [-1].
    - A run-time panic (here: a slice expression out of range) is the
      [Panic] outcome of [exec]; a Go [(T, error)] result is [result T].
    - [log.Printf] only writes to the process' standard error and never
      changes the control flow; it is left out. *)

From Stdlib Require Import ZArith List Ascii String Bool Lia.
Import ListNotations.

Local Open Scope string_scope.
Local Open Scope Z_scope.

(** ** Outcomes *)

(** A Go run-time error that unwinds the stack. *)
Inductive panic : Type :=
| SliceBounds (lo hi length : Z).   (* slice bounds out of range *)

(** Either a normal return or a panic. *)
Inductive exec (A : Type) : Type :=
| Ret (a : A)
| Panic (p : panic).
Arguments Ret {A} a.
Arguments Panic {A} p.

Definition bind {A B : Type} (m : exec A) (k : A -> exec B) : exec B :=
  match m with
  | Ret a => k a
  | Panic p => Panic p
  end.

Notation "x <- m ;; k" := (bind m (fun x => k))
  (at level 61, m at next level, right associativity).

(** ** Package [strings] (Go strings are byte sequences) *)

Definition len (s : string) : Z := Z.of_nat (String.length s).

(** Go's [s[lo:hi]]: panics unless [0 <= lo <= hi <= len(s)]. *)
Definition slice (s : string) (lo hi : Z) : exec string :=
  if (0 <=? lo) && (lo <=? hi) && (hi <=? len s)
  then Ret (substring (Z.to_nat lo) (Z.to_nat (hi - lo)) s)
  else Panic (SliceBounds lo hi (len s)).

Fixpoint HasPrefix (s prefix : string) : bool :=
  match prefix, s with
  | EmptyString, _ => true
  | String p prefix', String c s' => Ascii.eqb c p && HasPrefix s' prefix'
  | String _ _, EmptyString => false
  end.

(** The string without its first [n] bytes. *)
Fixpoint skip (n : nat) (s : string) : string :=
  match n, s with
  | O, _ => s
  | S n', String _ s' => skip n' s'
  | S _, EmptyString => EmptyString
  end.

Definition HasSuffix (s suffix : string) : bool :=
  (len suffix <=? len s) &&
  String.eqb (skip (String.length s - String.length suffix) s) suffix.

(** Index of the first instance of [substr] in [s], or [-1]. *)
Fixpoint Index (s substr : string) : Z :=
  if HasPrefix s substr then 0
  else match s with
       | EmptyString => -1
       | String _ s' => let i := Index s' substr in
                        if i <? 0 then -1 else i + 1
       end.

(** Index of the last instance of [substr] in [s], or [-1]. *)
Fixpoint LastIndex (s substr : string) : Z :=
  match s with
  | EmptyString => if HasPrefix s substr then 0 else -1
  | String _ s' => let i := LastIndex s' substr in
                   if 0 <=? i then i + 1
                   else if HasPrefix s substr then 0 else -1
  end.

Definition Contains (s substr : string) : bool := 0 <=? Index s substr.

(** [Split s sep] for a non-empty separator: the pieces of [s] between the
    non-overlapping instances of [sep], found from the left.  [pending] is
    the number of bytes of an instance of [sep] still to be passed over. *)
Fixpoint splitFrom (pending : nat) (s sep : string) : list string :=
  match s with
  | EmptyString => [EmptyString]
  | String c s' =>
      match pending with
      | S k => splitFrom k s' sep
      | O =>
          if HasPrefix s sep
          then EmptyString :: splitFrom (String.length sep - 1) s' sep
          else match splitFrom O s' sep with
               | piece :: pieces => String c piece :: pieces
               | [] => [String c EmptyString]
               end
      end
  end.

Definition Split (s sep : string) : list string := splitFrom O s sep.

Fixpoint inCutset (c : ascii) (cutset : string) : bool :=
  match cutset with
  | EmptyString => false
  | String d cutset' => Ascii.eqb c d || inCutset c cutset'
  end.

Fixpoint TrimLeft (s cutset : string) : string :=
  match s with
  | EmptyString => EmptyString
  | String c s' => if inCutset c cutset then TrimLeft s' cutset else s
  end.

Fixpoint TrimRight (s cutset : string) : string :=
  match s with
  | EmptyString => EmptyString
  | String c s' =>
      match TrimRight s' cutset with
      | EmptyString => if inCutset c cutset then EmptyString
                       else String c EmptyString
      | r => String c r
      end
  end.

(** [Trim s cutset] for a cutset of ASCII bytes. *)
Definition Trim (s cutset : string) : string :=
  TrimLeft (TrimRight s cutset) cutset.

(** *** White space ([unicode.IsSpace]) in UTF-8 *)

Definition byte (n : N) : ascii := ascii_of_N n.

(** The UTF-8 encodings of the runes for which [unicode.IsSpace] holds:
    tab, LF, VT, FF, CR, space, U+0085, U+00A0, U+1680, U+2000..U+200A,
    U+2028, U+2029, U+202F, U+205F, U+3000. *)
Definition spaceRunes : list (list N) :=
  [ [9]; [10]; [11]; [12]; [13]; [32];
    [194; 133]; [194; 160];
    [225; 154; 128];
    [226; 128; 128]; [226; 128; 129]; [226; 128; 130]; [226; 128; 131];
    [226; 128; 132]; [226; 128; 133]; [226; 128; 134]; [226; 128; 135];
    [226; 128; 136]; [226; 128; 137]; [226; 128; 138];
    [226; 128; 168]; [226; 128; 169]; [226; 128; 175];
    [226; 129; 159];
    [227; 128; 128] ]%N.

Definition bytesToString (l : list N) : string :=
  fold_right (fun n s => String (byte n) s) EmptyString l.

(** Width in bytes of the white-space rune whose encoding (from the list
    [runes]) starts [s]; [0] if [s] starts with none of them. *)
Fixpoint runeWidth (runes : list (list N)) (s : string) : nat :=
  match runes with
  | [] => O
  | r :: runes' => if HasPrefix s (bytesToString r) then List.length r
                   else runeWidth runes' s
  end.

(** Strip leading runes; [n] bounds the number of runes, at most the
    number of bytes of [s]. *)
Fixpoint stripRunes (runes : list (list N)) (n : nat) (s : string) : string :=
  match n with
  | O => s
  | S n' => match runeWidth runes s with
            | O => s
            | w => stripRunes runes n' (skip w s)
            end
  end.

Fixpoint revString (s acc : string) : string :=
  match s with
  | EmptyString => acc
  | String c s' => revString s' (String c acc)
  end.

Definition trimLeftSpace (s : string) : string :=
  stripRunes spaceRunes (String.length s) s.

(** Trailing runes are found by [utf8.DecodeLastRuneInString]; a
    white-space rune ends [s] exactly when its encoding is a suffix. *)
Definition trimRightSpace (s : string) : string :=
  let r := revString s EmptyString in
  revString (stripRunes (map (@rev N) spaceRunes) (String.length r) r)
            EmptyString.

Definition TrimSpace (s : string) : string :=
  trimRightSpace (trimLeftSpace s).

(** *** Lower case *)

Definition isASCII (c : ascii) : bool := (N_of_ascii c <? 128)%N.

Fixpoint allASCII (s : string) : bool :=
  match s with
  | EmptyString => true
  | String c s' => isASCII c && allASCII s'
  end.

Definition lowerByte (c : ascii) : ascii :=
  let n := N_of_ascii c in
  if ((65 <=? n) && (n <=? 90))%N then ascii_of_N (n + 32) else c.

Fixpoint mapBytes (f : ascii -> ascii) (s : string) : string :=
  match s with
  | EmptyString => EmptyString
  | String c s' => String (f c) (mapBytes f s')
  end.

Section ToLower.
(** [strings.Map(unicode.ToLower, s)], used by [ToLower] only when [s]
    has a byte outside ASCII; the Unicode case tables are not part of
    this development. *)
Variable unicodeLower : string -> string.

Definition ToLower (s : string) : string :=
  if allASCII s then mapBytes lowerByte s else unicodeLower s.
End ToLower.

(** ** Package [strconv] *)

Inductive numErr : Type := ErrSyntax | ErrRange.

(** [*strconv.NumError]: the failing function's input and the cause. *)
Record NumError : Type := mkNumError { Num : string; Cause : numErr }.

(** Value of a byte as a digit, as in [ParseUint]: decimal digits, then
    letters of either case from ten up. *)
Definition digitVal (c : ascii) : option Z :=
  let n := Z.of_N (N_of_ascii c) in
  let l := Z.lor n 32 in
  if (48 <=? n) && (n <=? 57) then Some (n - 48)
  else if (97 <=? l) && (l <=? 122) then Some (l - 97 + 10)
  else None.

Definition maxUint64 : Z := 2 ^ 64 - 1.

(** The digit loop of [ParseUint] for an explicit base in [2..36]: [n] is
    the value so far; a byte that is no digit of the base is a syntax
    error, a value beyond [maxVal] a range error, whichever comes first. *)
Fixpoint parseDigits (s : string) (base maxVal n : Z) : Z + numErr :=
  match s with
  | EmptyString => inl n
  | String c s' =>
      match digitVal c with
      | None => inr ErrSyntax
      | Some d =>
          if base <=? d then inr ErrSyntax
          else if maxUint64 / base + 1 <=? n then inr ErrRange
          else let n1 := n * base + d in
               if (maxUint64 <? n1) || (maxVal <? n1) then inr ErrRange
               else parseDigits s' base maxVal n1
      end
  end.

Definition ParseUint (s : string) (base bitSize : Z) : Z + numErr :=
  match s with
  | EmptyString => inr ErrSyntax
  | _ => parseDigits s base (2 ^ bitSize - 1) 0
  end.

(** [strconv.ParseInt(s, base, bitSize)] for [base] in [2..36] and
    [bitSize] in [2..64] (the parser passes 10 or 16, and 32 or 64).  On
    an error Go also returns a value, which no caller here reads. *)
Definition ParseInt (s : string) (base bitSize : Z) : Z + NumError :=
  match s with
  | EmptyString => inr (mkNumError s ErrSyntax)
  | String c s' =>
      let neg := Ascii.eqb c "-" in
      let digits := if Ascii.eqb c "+" || neg then s' else s in
      match ParseUint digits base bitSize with
      | inr ErrSyntax => inr (mkNumError s ErrSyntax)
      | inr ErrRange => inr (mkNumError s ErrRange)
      | inl un =>
          let cutoff := 2 ^ (bitSize - 1) in
          if negb neg && (cutoff <=? un) then inr (mkNumError s ErrRange)
          else if neg && (cutoff <? un) then inr (mkNumError s ErrRange)
          else inl (if neg then - un else un)
      end
  end.


(** ** Package [bufio]: a [Scanner] over lines *)

(** The errors of this program.  Those built by [fmt.Errorf] carry the
    arguments of their format string. *)
Inductive error : Type :=
| ErrEOF                                     (* "Unexpected end of file" *)
| ErrEmptyLine                               (* "Unexpected empty line" *)
| ErrStackPos (text : string) (cause : NumError)
                               (* "Could parse stack pos %s to line int..." *)
| ErrLine (text : string) (cause : NumError)
                                    (* "Could parse line %s to line int..." *)
| ErrHeaderLen (routineHeader : list string)
                               (* "Expected header with len >= 3, but got" *)
| ErrHeaderWord (routineHeader : list string)
                                 (* "Expected goroutine header, but got" *)
| ErrID (cause : NumError)                   (* "Could not parse ID..." *)
| ErrMinutes (cause : NumError)              (* "Failed to parse minutes" *)
| ErrTooLong                                 (* bufio.ErrTooLong *)
| ErrRead (description : string).            (* failure of the io.Reader *)

(** A Go [(T, error)] pair, read the way every caller here reads it: the
    value only when the error is nil. *)
Inductive result (T : Type) : Type :=
| Ok (v : T)
| Err (e : error).
Arguments Ok {T} v.
Arguments Err {T} e.

(** An [io.Reader], by what it delivers: the bytes read before it stops, and
    how it stops: at the end of the input ([io.EOF], here [None]) or with
    a read error.  The reader reports how it stops in a call of its own,
    after the call that delivers its last bytes, as files and
    [strings.Reader] do. *)
Record Reader : Type := mkReader {
  content : string;
  stop : option error
}.

(** A [bufio.Scanner], by what it will deliver: the tokens still to come,
    the current token ([Text]), the error [Err] reports once [Scan] has
    returned false (nil when the input simply ended), and the bytes left
    in the buffer when a line did not fit into it. *)
Record Scanner : Type := mkScanner {
  tokens : list string;
  token : string;
  failure : option error;
  buffered : option string
}.

(** [Scan] returns false when the tokens have run out.  At the end of
    the input, or after a read error, it does so for good.  When a line
    did not fit into the buffer it has set [ErrTooLong] without
    discarding the buffer or changing the token, and the next call splits
    the buffer as if the input had ended there: what the buffer holds is
    given out as a token, and only then [Scan] returns false for good. *)
Definition Scan (s : Scanner) : bool * Scanner :=
  match tokens s with
  | t :: rest => (true, mkScanner rest t (failure s) (buffered s))
  | [] =>
      match buffered s with
      | Some b => (false, mkScanner [b] (token s) (failure s) None)
      | None => (false, mkScanner [] EmptyString (failure s) None)
      end
  end.

Definition Text (s : Scanner) : string := token s.

(** Only called after [Scan] has returned false. *)
Definition ScanErr (s : Scanner) : option error := failure s.

(** [bufio.ScanLines]: the lines of the input, without their end-of-line
    marker; a last line without newline is a line, an empty rest is not. *)
Fixpoint lines (data : string) : list string :=
  match data with
  | EmptyString => []
  | String c data' =>
      if Ascii.eqb c (byte 10) then EmptyString :: lines data'
      else match lines data' with
           | l :: ls => String c l :: ls
           | [] => [String c EmptyString]
           end
  end.

(** [dropCR]: one trailing carriage return is removed. *)
Fixpoint dropCR (l : string) : string :=
  match l with
  | EmptyString => EmptyString
  | String c EmptyString => if Ascii.eqb c (byte 13) then EmptyString else l
  | String c l' => String c (dropCR l')
  end.

Definition MaxScanTokenSize : Z := 64 * 1024.

(** The scanner's buffer holds [MaxScanTokenSize] bytes: a line of that
    many bytes or more (before its newline) fills it and stops the scan
    with [ErrTooLong], whatever follows; the buffer then holds the first
    [MaxScanTokenSize] bytes of the line.  The result is the tokens, the
    final error, and what is left in the buffer. *)
Fixpoint scanTokens (ls : list string) (stop : option error)
  : list string * option error * option string :=
  match ls with
  | [] => ([], stop, None)
  | l :: ls' =>
      if MaxScanTokenSize <=? len l
      then ([], Some ErrTooLong,
            Some (dropCR (substring 0 (Z.to_nat MaxScanTokenSize) l)))
      else let '(ts, e, b) := scanTokens ls' stop in (dropCR l :: ts, e, b)
  end.

(** [bufio.NewScanner(reader)], with the default split function and
    buffer.  A read error ends the input like [io.EOF] does, the bytes
    delivered so far are still split into lines. *)
Definition NewScanner (r : Reader) : Scanner :=
  let '(ts, e, b) := scanTokens (lines (content r)) (stop r) in
  mkScanner ts EmptyString e b.

(** ** Package [model] *)

(** A non-nil [*int]: the address of the variable and the value stored
    there (nothing writes to it after the frame is built). *)
Record intptr : Type := mkPtr { addr : Z; deref : Z }.

(** [StackFrame] contains the info for one stack frame. *)
Record StackFrame : Type := mkFrame {
  FuncName : string;
  File : string;
  Line : Z;                    (* int32 *)
  Position : option intptr     (* *int; nil if not set *)
}.

(** [Goroutine] info from the pprof API.  [CratedBy] is a [*StackFrame]
    whose address is never observed: an optional frame. *)
Record Goroutine : Type := mkGoroutine {
  ID : Z;                      (* int64 *)
  Status : string;
  WaitSinceMin : Z;            (* int64 *)
  StackTrace : list StackFrame;
  CratedBy : option StackFrame;
  LockedToThread : bool
}.

(** *** Rendering *)

Definition hexDigit (d : Z) : ascii :=
  if d <? 10 then ascii_of_N (Z.to_N (48 + d))
  else ascii_of_N (Z.to_N (97 + d - 10)).

Definition decDigit (d : Z) : ascii := ascii_of_N (Z.to_N (48 + d)).

(** Digits of [n >= 0] in [base], most significant first, in front of
    [acc]; [k] bounds their number. *)
Fixpoint digitsOf (digit : Z -> ascii) (base : Z) (k : nat) (n : Z)
  (acc : string) : string :=
  match k with
  | O => acc
  | S k' =>
      let acc' := String (digit (n mod base)) acc in
      if n <? base then acc' else digitsOf digit base k' (n / base) acc'
  end.

(** The verb [%x] on an unsigned value. *)
Definition fmtHex (n : Z) : string :=
  digitsOf hexDigit 16 (S (Z.to_nat (Z.log2 n))) n EmptyString.

(** The verb [%d] on a signed value. *)
Definition fmtDec (n : Z) : string :=
  let a := Z.abs n in
  let ds := digitsOf decDigit 10 (S (Z.to_nat (Z.log2 a))) a EmptyString in
  if n <? 0 then String "-" ds else ds.

(** The verb [%x] on a pointer: package [fmt] formats the pointer value,
    that is the address, exactly as if it were an integer; the nil pointer
    is address zero.  The pointed-to [int] is not read. *)
Definition fmtPointerHex (p : option intptr) : string :=
  match p with
  | None => fmtHex 0
  | Some q => fmtHex (addr q)
  end.

(** [fmt.Sprintf("%s\n   file://%s#%d +0x%x", s.FuncName, s.File, s.Line,
    s.Position)] *)
Definition StackFrame_String (s : StackFrame) : string :=
  FuncName s ++ String (byte 10) "   file://" ++ File s ++ "#"
  ++ fmtDec (Line s) ++ " +0x" ++ fmtPointerHex (Position s).


Section Parser.

(** [strings.Map(unicode.ToLower, _)], see [ToLower]. *)
Variable unicodeLower : string -> string.

(** The allocator: [newobject k] is the address of the [k]-th [int]
    variable that escapes to the heap (counted from the start of the
    call under study). *)
Variable newobject : nat -> Z.

(** [StackContains] returns true if string is included on one of the
    elements of the stack slice. *)
Fixpoint StackContains (sf : list StackFrame) (subString : string) : bool :=
  match sf with
  | [] => false
  | s :: sf' =>
      if Contains (ToLower unicodeLower (StackFrame_String s)) subString
      then true
      else StackContains sf' subString
  end.

(** What a call reads and changes besides its arguments: the scanner
    it shares with its caller, and the number of [int] variables
    allocated so far. *)
Record state : Type := mkState {
  scanner : Scanner;
  allocated : nat
}.

(** [int(posInt64)] on a platform whose [int] has 64 bits. *)
Definition toInt (v : Z) : Z := (v + 2 ^ 63) mod 2 ^ 64 - 2 ^ 63.

(** [int32(lineInt)] *)
Definition toInt32 (v : Z) : Z := (v + 2 ^ 31) mod 2 ^ 32 - 2 ^ 31.

(** The part of [parseStackPos] after the line has been read and
    trimmed: file name, line and position of [text]. *)
Definition parsePos (text : string) (allocated : nat)
  : exec (result (string * Z * option intptr) * nat) :=
  if len text =? 0 then Ret (Err ErrEmptyLine, allocated)
  else
    let fileLineSep := LastIndex text ":" in
    fileName <- slice text 0 fileLineSep ;;
    let linePosSep := LastIndex text " " in
    let rest (pos : option intptr) (lineStr : string) (allocated : nat) :=
      match ParseInt lineStr 10 32 with
      | inr errParse => Ret (Err (ErrLine text errParse), allocated)
      | inl lineInt => Ret (Ok (fileName, toInt32 lineInt, pos), allocated)
      end in
    if linePosSep <=? fileLineSep + 1 then
      (* Cannot parse stack pos for text. Keep default of nil *)
      lineStr <- slice text (fileLineSep + 1) (len text) ;;
      rest None lineStr allocated
    else
      posStr <- slice text (linePosSep + 4) (len text) ;;
      match ParseInt posStr 16 64 with
      | inr errParse => Ret (Err (ErrStackPos text errParse), allocated)
      | inl posInt64 =>
          let posInt := toInt posInt64 in
          let pos := Some (mkPtr (newobject allocated) posInt) in
          lineStr <- slice text (fileLineSep + 1) linePosSep ;;
          rest pos lineStr (S allocated)
      end.

(** For example [/usr/local/go/src/net/http/server.go:2969 +0x970] *)
Definition parseStackPos (st : state)
  : exec (result (string * Z * option intptr) * state) :=
  let (more, sc) := Scan (scanner st) in
  if negb more then Ret (Err ErrEOF, mkState sc (allocated st))
  else
    let text := TrimSpace (Text sc) in
    r <- parsePos text (allocated st) ;;
    Ret (fst r, mkState sc (snd r)).

(** The loop of [parseHeader] over [stateParts[idx]], [idx >= 1]. *)
Fixpoint scanQualifiers (parts : list string) (waitTimeMin : Z)
  (lockedToThread : bool) : exec (result (Z * bool)) :=
  match parts with
  | [] => Ret (Ok (waitTimeMin, lockedToThread))
  | p :: parts' =>
      let part := Trim p " " in
      if HasSuffix part "minutes" then
        let minUnitSep := Index part " " in
        minStr <- slice part 0 minUnitSep ;;
        match ParseInt minStr 10 64 with
        | inr parseErr => Ret (Err (ErrMinutes parseErr))
        | inl w => scanQualifiers parts' w lockedToThread
        end
      else if String.eqb part "locked to thread" then
        scanQualifiers parts' waitTimeMin true
      else scanQualifiers parts' waitTimeMin lockedToThread
  end.

(** [parseHeader] of stack trace. *)
Definition parseHeader (header : string) : exec (result Goroutine) :=
  let routineHeader := Split header " " in
  if Z.of_nat (List.length routineHeader) <? 3
  then Ret (Err (ErrHeaderLen routineHeader))
  else if negb (String.eqb (nth 0 routineHeader EmptyString) "goroutine")
  then Ret (Err (ErrHeaderWord routineHeader))
  else
    match ParseInt (nth 1 routineHeader EmptyString) 10 64 with
    | inr parseErr => Ret (Err (ErrID parseErr))
    | inl id =>
        let stateStartIdx := Index header "[" in
        (* Remove []: *)
        fullState <- slice header (stateStartIdx + 1) (len header - 2) ;;
        let stateParts := Split fullState "," in
        if Z.of_nat (List.length stateParts) =? 1 then
          Ret (Ok (mkGoroutine id fullState 0 [] None false))
        else
          let status := nth 0 stateParts EmptyString in
          q <- scanQualifiers (tl stateParts) 0 false ;;
          match q with
          | Err e => Ret (Err e)
          | Ok (waitTimeMin, lockedToThread) =>
              Ret (Ok (mkGoroutine id status waitTimeMin [] None
                         lockedToThread))
          end
    end.

Definition setCratedBy (r : Goroutine) (f : StackFrame) : Goroutine :=
  mkGoroutine (ID r) (Status r) (WaitSinceMin r) (StackTrace r) (Some f)
              (LockedToThread r).

Definition appendFrame (r : Goroutine) (f : StackFrame) : Goroutine :=
  mkGoroutine (ID r) (Status r) (WaitSinceMin r) (StackTrace r ++ [f])
              (CratedBy r) (LockedToThread r).

Definition resetTrace (r : Goroutine) : Goroutine :=
  mkGoroutine (ID r) (Status r) (WaitSinceMin r) [] (CratedBy r)
              (LockedToThread r).

(** The inner loop of [ParseStackFrame]: the lines of one block.  Every
    iteration calls [Scan]; [fuel] bounds the number of iterations and
    [None] means the bound was too small. *)
Fixpoint scanBlock (fuel : nat) (st : state) (routine : Goroutine)
  : option (exec (Goroutine * state)) :=
  match fuel with
  | O => None
  | S fuel' =>
      let (more, sc) := Scan (scanner st) in
      let st1 := mkState sc (allocated st) in
      if negb more then Some (Ret (routine, st1))
      else
        let traceLine := Text sc in
        if len traceLine =? 0 then Some (Ret (routine, st1))
        else if HasPrefix traceLine "created by " then
          match parseStackPos st1 with
          | Panic p => Some (Panic p)
          | Ret (Err _, st2) => scanBlock fuel' st2 routine
          | Ret (Ok (file, line, pos), st2) =>
              match slice traceLine 11 (len traceLine) with
              | Panic p => Some (Panic p)
              | Ret name =>
                  scanBlock fuel' st2
                    (setCratedBy routine (mkFrame name file line pos))
              end
          end
        else
          match parseStackPos st1 with
          | Panic p => Some (Panic p)
          | Ret (Err _, st2) => scanBlock fuel' st2 routine
          | Ret (Ok (file, line, pos), st2) =>
              scanBlock fuel' st2
                (appendFrame routine (mkFrame traceLine file line pos))
          end
  end.

(** The outer loop of [ParseStackFrame]: one header and its block per
    iteration. *)
Fixpoint scanRoutines (fuel : nat) (st : state) (routines : list Goroutine)
  : option (exec (list Goroutine * state)) :=
  match fuel with
  | O => None
  | S fuel' =>
      let (more, sc) := Scan (scanner st) in
      let st1 := mkState sc (allocated st) in
      if negb more then Some (Ret (routines, st1))
      else
        let line := Text sc in
        match parseHeader line with
        | Panic p => Some (Panic p)
        | Ret (Err _) => scanRoutines fuel' st1 routines
        | Ret (Ok routine) =>
            match scanBlock fuel' st1 (resetTrace routine) with
            | None => None
            | Some (Panic p) => Some (Panic p)
            | Some (Ret (routine', st2)) =>
                scanRoutines fuel' st2 (routines ++ [routine'])
            end
        end
  end.

(** [ParseStackFrame] on a scanner: what it returns, records and error
    together.  Every iteration of a loop calls [Scan], which takes a
    token or returns false, and it returns false at most twice. *)
Definition parseScanner (sc : Scanner)
  : option (exec (list Goroutine * option error)) :=
  match scanRoutines (List.length (tokens sc) + 3) (mkState sc O) [] with
  | None => None
  | Some (Panic p) => Some (Panic p)
  | Some (Ret (routines, st)) =>
      Some (Ret (routines, ScanErr (scanner st)))
  end.

(** [ParseStackFrame] reads full file and return all goroutines as
    slice. *)
Definition ParseStackFrame (reader : Reader)
  : option (exec (list Goroutine * option error)) :=
  parseScanner (NewScanner reader).

End Parser.


(** ** Vocabulary of the statements *)

(** The byte [c] occurs in [s]. *)
Fixpoint occurs (c : ascii) (s : string) : bool :=
  match s with
  | EmptyString => false
  | String d s' => Ascii.eqb d c || occurs c s'
  end.

Definition nl : string := String (byte 10) EmptyString.
Definition tab : string := String (byte 9) EmptyString.

(** The bracketed clause of a header: the status, then each qualifier
    after a comma. *)
Fixpoint clause (status : string) (quals : list string) : string :=
  match quals with
  | [] => status
  | q :: quals' => status ++ "," ++ clause q quals'
  end.

(** The header line [goroutine <id> [<status>,<qualifier>...]:]. *)
Definition headerText (id status : string) (quals : list string) : string :=
  "goroutine " ++ id ++ " [" ++ clause status quals ++ "]:".

(** The header grammar as the specification words it, qualifier by
    qualifier: [qualifiers quals w l w' l'] reads the qualifiers [quals]
    from left to right, starting from wait time [w] and lock flag [l], and
    ends with [w'] and [l'].  A qualifier is, after its surrounding spaces
    are removed, an integer followed by the literal "minutes", or the
    exact text "locked to thread", or a text that does not end in
    "minutes". *)
Inductive qualifiers : list string -> Z -> bool -> Z -> bool -> Prop :=
| Q_done w l : qualifiers [] w l w l
| Q_minutes q n m quals w l w' l' :
    Trim q " " = n ++ " minutes" ->
    ParseInt n 10 64 = inl m ->
    qualifiers quals m l w' l' ->
    qualifiers (q :: quals) w l w' l'
| Q_locked q quals w l w' l' :
    Trim q " " = "locked to thread" ->
    qualifiers quals w true w' l' ->
    qualifiers (q :: quals) w l w' l'
| Q_other q quals w l w' l' :
    HasSuffix (Trim q " ") "minutes" = false ->
    Trim q " " <> "locked to thread" ->
    qualifiers quals w l w' l' ->
    qualifiers (q :: quals) w l w' l'.

(** A line that fails as a header the way the specification lists it:
    fewer than three space-separated tokens, a first token that is not
    the literal "goroutine", or an id that is no integer. *)
Definition malformedHeader (line : string) : bool :=
  let toks := Split line " " in
  (Z.of_nat (List.length toks) <? 3)
  || negb (String.eqb (nth 0 toks EmptyString) "goroutine")
  || match ParseInt (nth 1 toks EmptyString) 10 64 with
     | inl _ => false
     | inr _ => true
     end.

(** A frame without the address of its position: function, file, line and
    the optional offset. *)
Definition frameView : Type := (string * string * Z * option Z)%type.

Definition viewFrame (f : StackFrame) : frameView :=
  (FuncName f, File f, Line f, option_map deref (Position f)).

(** What a position line denotes, whatever the allocator does: file, line
    and offset when [parseStackPos] accepts the trimmed line. *)
Definition posFields (text : string) : option (string * Z * option Z) :=
  match parsePos (fun _ => 0) text O with
  | Ret (Ok (file, line, pos), _) => Some (file, line, option_map deref pos)
  | _ => None
  end.

(** [parseStackPos] rejects the trimmed line with an error. *)
Definition posRejected (text : string) : bool :=
  match parsePos (fun _ => 0) text O with
  | Ret (Err _, _) => true
  | _ => false
  end.

(** A stack entry of a block: the function-name line and the position
    line after it. *)
Definition entry : Type := (string * string)%type.

Definition entryLines (es : list entry) : list string :=
  flat_map (fun e => [fst e; snd e]) es.

(** The function-name line is not blank, and the position line is
    accepted, or rejected with an error. *)
Definition scannable (e : entry) : bool :=
  negb (len (fst e) =? 0)
  && match posFields (TrimSpace (snd e)) with
     | Some _ => true
     | None => posRejected (TrimSpace (snd e))
     end.

(** The function-name line is not blank and the position line is
    accepted. *)
Definition accepted (e : entry) : bool :=
  negb (len (fst e) =? 0)
  && match posFields (TrimSpace (snd e)) with
     | Some _ => true
     | None => false
     end.

(** The trace and the creator that the entries of a block denote, added
    to those read so far. *)
Fixpoint entriesView (es : list entry) (trace : list frameView)
  (created : option frameView) : list frameView * option frameView :=
  match es with
  | [] => (trace, created)
  | (fn, pl) :: es' =>
      match posFields (TrimSpace pl) with
      | None => entriesView es' trace created
      | Some (file, line, pos) =>
          if HasPrefix fn "created by "
          then entriesView es' trace (Some (skip 11 fn, file, line, pos))
          else entriesView es' (trace ++ [(fn, file, line, pos)]) created
      end
  end.

(** A block of the dump: header line and stack entries; in the stream
    it ends with a blank line. *)
Record block : Type := mkBlock {
  header : string;
  entries : list entry
}.

Definition blockLines (b : block) : list string :=
  header b :: entryLines (entries b) ++ [EmptyString].

(** A record without addresses. *)
Record recordView : Type := mkView {
  vID : Z;
  vStatus : string;
  vWaitSinceMin : Z;
  vLockedToThread : bool;
  vStackTrace : list frameView;
  vCratedBy : option frameView
}.

Definition viewRecord (r : Goroutine) : recordView :=
  mkView (ID r) (Status r) (WaitSinceMin r) (LockedToThread r)
         (map viewFrame (StackTrace r)) (option_map viewFrame (CratedBy r)).

(** The record a block denotes: the fields of its header and the frames
    of its entries; [None] when [parseHeader] does not accept the header. *)
Definition blockView (b : block) : option recordView :=
  match parseHeader (header b) with
  | Ret (Ok r) =>
      let (trace, created) := entriesView (entries b) [] None in
      Some (mkView (ID r) (Status r) (WaitSinceMin r) (LockedToThread r)
                   trace created)
  | _ => None
  end.

(** The header is accepted and every entry can be scanned. *)
Definition wellFormed (b : block) : bool :=
  match parseHeader (header b) with
  | Ret (Ok _) => forallb scannable (entries b)
  | _ => false
  end.

(** A sample allocator for the examples. *)
Definition sampleAlloc (k : nat) : Z := 824633720832 + 8 * Z.of_nat k.

(** No string of the list has a comma. *)
Definition commaFree (ss : list string) : bool :=
  forallb (fun s => negb (occurs "," s)) ss.

(** Trace and creator of a record, without addresses. *)
Definition traceView (r : Goroutine) : list frameView * option frameView :=
  (map viewFrame (StackTrace r), option_map viewFrame (CratedBy r)).

(** The fields read from the header agree. *)
Definition sameHeader (r r' : Goroutine) : Prop :=
  ID r' = ID r /\ Status r' = Status r /\
  WaitSinceMin r' = WaitSinceMin r /\ LockedToThread r' = LockedToThread r.

(** The lines of a dump made of the given blocks. *)
Definition dumpLines (bs : list block) : list string :=
  flat_map blockLines bs.

(** A state of the parser whose scanner has met no line too long for
    its buffer: pending lines, current token, the scanner's final error,
    and the allocation count. *)
Definition stateOf (ts : list string) (tok : string) (fl : option error)
  (k : nat) : state :=
  mkState (mkScanner ts tok fl None) k.

(** The state with another final error of the scanner. *)
Definition setFailure (fl : option error) (st : state) : state :=
  mkState (mkScanner (tokens (scanner st)) (token (scanner st)) fl
                     (buffered (scanner st)))
          (allocated st).

(** The views of the records, as [blockView] gives them. *)
Definition viewsOf (rs : list Goroutine) : list (option recordView) :=
  map (fun r => Some (viewRecord r)) rs.

(** No qualifier of the list ends in "minutes". *)
Definition noMinutes (quals : list string) : bool :=
  forallb (fun q => negb (HasSuffix (Trim q " ") "minutes")) quals.

(** The text of a dump: every line followed by a newline. *)
Fixpoint unlines (ls : list string) : string :=
  match ls with
  | [] => EmptyString
  | l :: ls' => l ++ nl ++ unlines ls'
  end.

(** A line the scanner hands over as it is: no newline inside, no
    carriage return at its end, and short enough for the buffer. *)
Definition plainLine (l : string) : bool :=
  negb (occurs (byte 10) l) && String.eqb (dropCR l) l
  && (len l <? MaxScanTokenSize).

(** *** Sample inputs *)

(** Two blocks, then the reader fails. *)
Definition twoBlocksThenError : Reader :=
  mkReader ("goroutine 1 [running]:" ++ nl
            ++ "main.main()" ++ nl
            ++ tab ++ "/a/main.go:5 +0x1d" ++ nl
            ++ nl
            ++ "goroutine 2 [sleep]:" ++ nl
            ++ "main.work()" ++ nl
            ++ tab ++ "/a/work.go:9" ++ nl
            ++ nl)
           (Some (ErrRead "connection reset by peer")).

(** A frame whose position is the offset [0x1a], stored at the address
    [0xc000014000]. *)
Definition frameAt1a : StackFrame :=
  mkFrame "main.foo" "/a/b.go" 10 (Some (mkPtr 824633802752 26)).

(** A frame of a function with an upper-case letter in its name. *)
Definition frameFoo : StackFrame :=
  mkFrame "main.Foo" "/a/Server.go" 10 None.

(** Blocks and entries of a dump. *)
Definition blockMain : block :=
  mkBlock "goroutine 1 [running]:"
          [("main.main()", tab ++ "/a/main.go:5 +0x1d")].

Definition blockSleep : block :=
  mkBlock "goroutine 3 [sleep, 2 minutes]:"
          [("time.Sleep(0x3b9aca00)", tab ++ "/go/src/runtime/time.go:195");
           ("created by main.main", tab ++ "/a/main.go:9 +0x45")].

Definition entryA : entry := ("main.a()", tab ++ "/a/a.go:1").
Definition entryC : entry := ("main.c()", tab ++ "/a/c.go:3 +0x2f").

(** ** Vocabulary of the further properties *)

(** An upper-case ASCII letter, the test of [ToLower]. *)
Definition isUpper (c : ascii) : bool :=
  let n := N_of_ascii c in ((65 <=? n) && (n <=? 90))%N.

Fixpoint hasUpper (s : string) : bool :=
  match s with
  | EmptyString => false
  | String c s' => isUpper c || hasUpper s'
  end.

(** Every frame renders as ASCII text. *)
Definition asciiFrames (sf : list StackFrame) : bool :=
  forallb (fun f => allASCII (StackFrame_String f)) sf.

(** An accepted entry that is not a "created by" entry. *)
Definition plainEntry (e : entry) : bool :=
  accepted e && negb (HasPrefix (fst e) "created by ").

(** The qualifier is, its spaces trimmed, "locked to thread". *)
Definition isLocked (q : string) : bool :=
  String.eqb (Trim q " ") "locked to thread".

(** The text of a dump with CR LF line ends. *)
Fixpoint unlinesCRLF (ls : list string) : string :=
  match ls with
  | [] => EmptyString
  | l :: ls' => l ++ String (byte 13) nl ++ unlinesCRLF ls'
  end.




(** The value fits a signed integer of [bits] bits. *)
Definition fits (bits v : Z) : Prop :=
  - 2 ^ (bits - 1) <= v < 2 ^ (bits - 1).

(** * Properties *)

(** ** The definitions at work *)

Example Split_header :
  Split "goroutine 7 [chan receive, 3 minutes]:" " "
  = ["goroutine"; "7"; "[chan"; "receive,"; "3"; "minutes]:"].
Proof. reflexivity. Qed.

Example Split_empty : Split "" " " = [""].
Proof. reflexivity. Qed.

Example Split_two_bytes : Split "a, b,c, d" ", " = ["a"; "b,c"; "d"].
Proof. reflexivity. Qed.

Example Index_examples :
  Index "goroutine 7 [select]:" "[" = 12
  /\ Index "minutes" " " = -1
  /\ LastIndex "C:/a/b.go:10 +0x1a" ":" = 9
  /\ LastIndex "abc" ":" = -1.
Proof. repeat split. Qed.

Example TrimSpace_examples :
  TrimSpace (tab ++ "/a/b.go:10 +0x1a" ++ String (byte 13) " ")
  = "/a/b.go:10 +0x1a"
  /\ TrimSpace (bytesToString [226; 128; 168; 97; 32; 98; 194; 160]%N)
     = "a b"
  /\ TrimSpace (bytesToString [97; 194]%N) = bytesToString [97; 194]%N.
Proof. repeat split. Qed.

Example ParseInt_examples :
  ParseInt "2969" 10 32 = inl 2969
  /\ ParseInt "-9223372036854775808" 10 64 = inl (-9223372036854775808)
  /\ ParseInt "9223372036854775808" 10 64
     = inr (mkNumError "9223372036854775808" ErrRange)
  /\ ParseInt "2147483648" 10 32 = inr (mkNumError "2147483648" ErrRange)
  /\ ParseInt "1A" 16 64 = inl 26
  /\ ParseInt "0x1a" 16 64 = inr (mkNumError "0x1a" ErrSyntax)
  /\ ParseInt "+7" 10 64 = inl 7
  /\ ParseInt "" 10 64 = inr (mkNumError "" ErrSyntax)
  /\ ParseInt "1_0" 10 64 = inr (mkNumError "1_0" ErrSyntax).
Proof. repeat split. Qed.

Example NewScanner_lines :
  NewScanner (mkReader ("a" ++ String (byte 13) nl ++ nl ++ "b")
                       (Some (ErrRead "reset")))
  = mkScanner ["a"; ""; "b"] "" (Some (ErrRead "reset")) None.
Proof. reflexivity. Qed.

(** After a line too long for the buffer: false, then the buffer as a
    token, then false for good. *)
Example Scan_after_too_long :
  Scan (mkScanner [] "t" (Some ErrTooLong) (Some "held"))
  = (false, mkScanner ["held"] "t" (Some ErrTooLong) None)
  /\ Scan (mkScanner ["held"] "t" (Some ErrTooLong) None)
     = (true, mkScanner [] "held" (Some ErrTooLong) None)
  /\ Scan (mkScanner [] "held" (Some ErrTooLong) None)
     = (false, mkScanner [] "" (Some ErrTooLong) None).
Proof. repeat split. Qed.

Example fmt_examples :
  fmtHex 0 = "0" /\ fmtHex 2416 = "970" /\ fmtDec 2969 = "2969"
  /\ fmtDec (-12) = "-12".
Proof. repeat split. Qed.

Example parseHeader_plain :
  parseHeader "goroutine 42 [IO wait]:"
  = Ret (Ok (mkGoroutine 42 "IO wait" 0 [] None false)).
Proof. reflexivity. Qed.

Example parseHeader_no_bracket :
  parseHeader "goroutine 5 is here"
  = Ret (Ok (mkGoroutine 5 "goroutine 5 is he" 0 [] None false)).
Proof. reflexivity. Qed.

Example ParseStackFrame_created_by :
  ParseStackFrame sampleAlloc (mkReader (unlines (blockLines blockSleep)) None)
  = Some (Ret ([mkGoroutine 3 "sleep" 2
                  [mkFrame "time.Sleep(0x3b9aca00)"
                           "/go/src/runtime/time.go" 195 None]
                  (Some (mkFrame "main.main" "/a/main.go" 9
                                 (Some (mkPtr (sampleAlloc 0) 69))))
                  false], None)).
Proof. vm_compute. reflexivity. Qed.

(** ** Strings *)

Lemma length_app (a b : string) :
  String.length (a ++ b) = (String.length a + String.length b)%nat.
Proof. induction a as [|c a IH]; simpl; [reflexivity | now rewrite IH]. Qed.

Lemma len_app (a b : string) : len (a ++ b) = len a + len b.
Proof. unfold len. rewrite length_app. lia. Qed.

Lemma len_nonneg (s : string) : 0 <= len s.
Proof. unfold len. lia. Qed.

Lemma len_String (c : ascii) (s : string) : len (String c s) = len s + 1.
Proof. unfold len. simpl String.length. lia. Qed.

Lemma app_assoc_s (a b c : string) : (a ++ b) ++ c = a ++ b ++ c.
Proof. induction a as [|x a IH]; simpl; [reflexivity | now rewrite IH]. Qed.

Lemma app_empty_r (a : string) : a ++ "" = a.
Proof. induction a as [|x a IH]; simpl; [reflexivity | now rewrite IH]. Qed.

Lemma occurs_app (c : ascii) (a b : string) :
  occurs c (a ++ b) = occurs c a || occurs c b.
Proof.
  induction a as [|x a IH]; simpl; [reflexivity|].
  rewrite IH. now rewrite orb_assoc.
Qed.

Lemma skip_app (a b : string) : skip (String.length a) (a ++ b) = b.
Proof. induction a as [|x a IH]; simpl; [reflexivity | exact IH]. Qed.

Lemma substring_prefix (a b : string) :
  substring 0 (String.length a) (a ++ b) = a.
Proof.
  induction a as [|x a IH]; simpl.
  - destruct b; reflexivity.
  - now rewrite IH.
Qed.

Lemma substring_skip (a b : string) (n : nat) :
  substring (String.length a) n (a ++ b) = substring 0 n b.
Proof. induction a as [|x a IH]; simpl; [reflexivity | exact IH]. Qed.

Lemma substring_all (a : string) : substring 0 (String.length a) a = a.
Proof. induction a as [|x a IH]; simpl; [reflexivity | now rewrite IH]. Qed.

(** The slice that cuts the middle of three pieces. *)
Lemma slice_middle (a b c : string) (lo hi : Z) :
  lo = len a -> hi = len a + len b ->
  slice (a ++ b ++ c) lo hi = Ret b.
Proof.
  intros -> ->. unfold slice.
  rewrite !len_app.
  pose proof (len_nonneg a). pose proof (len_nonneg b).
  pose proof (len_nonneg c).
  replace ((0 <=? len a) && (len a <=? len a + len b)
           && (len a + len b <=? len a + (len b + len c))) with true
    by (symmetry; rewrite !andb_true_iff, !Z.leb_le; lia).
  f_equal. unfold len.
  rewrite Nat2Z.id.
  replace (Z.to_nat (Z.of_nat (String.length a) + Z.of_nat (String.length b)
                     - Z.of_nat (String.length a)))
    with (String.length b) by lia.
  rewrite substring_skip. apply substring_prefix.
Qed.

Lemma slice_prefix (a b : string) (hi : Z) :
  hi = len a -> slice (a ++ b) 0 hi = Ret a.
Proof.
  intros ->. change (a ++ b) with ("" ++ a ++ b).
  apply slice_middle; reflexivity.
Qed.

Lemma slice_suffix (a b : string) (lo hi : Z) :
  lo = len a -> hi = len a + len b -> slice (a ++ b) lo hi = Ret b.
Proof.
  intros Hlo Hhi. rewrite <- (app_empty_r b) at 1.
  now apply slice_middle.
Qed.

(** *** Searching for one byte *)

Lemma HasPrefix_byte (c d : ascii) (s : string) :
  HasPrefix (String d s) (String c "") = Ascii.eqb d c.
Proof. simpl. destruct (Ascii.eqb d c), s; reflexivity. Qed.

Lemma Index_absent (c : ascii) (s : string) :
  occurs c s = false -> Index s (String c "") = -1.
Proof.
  induction s as [|d s IH]; intros H; [reflexivity|].
  simpl in H. apply orb_false_iff in H as [Hd Hs].
  cbn [Index]. rewrite HasPrefix_byte, Hd, (IH Hs). reflexivity.
Qed.

Lemma Index_first (c : ascii) (a b : string) :
  occurs c a = false -> Index (a ++ String c b) (String c "") = len a.
Proof.
  induction a as [|d a IH]; intros H.
  - cbn [append Index]. rewrite HasPrefix_byte, Ascii.eqb_refl. reflexivity.
  - simpl in H. apply orb_false_iff in H as [Hd Ha].
    cbn [append Index]. rewrite HasPrefix_byte, Hd, (IH Ha).
    pose proof (len_nonneg a) as Hn.
    destruct (len a <? 0) eqn:E; [apply Z.ltb_lt in E; lia|].
    rewrite len_String. reflexivity.
Qed.

Lemma LastIndex_absent (c : ascii) (s : string) :
  occurs c s = false -> LastIndex s (String c "") = -1.
Proof.
  induction s as [|d s IH]; intros H; [reflexivity|].
  simpl in H. apply orb_false_iff in H as [Hd Hs].
  cbn [LastIndex]. rewrite (IH Hs), HasPrefix_byte, Hd. reflexivity.
Qed.

Lemma LastIndex_last (c : ascii) (a b : string) :
  occurs c b = false -> LastIndex (a ++ String c b) (String c "") = len a.
Proof.
  intros Hb. induction a as [|d a IH].
  - cbn [append LastIndex]. rewrite (LastIndex_absent _ _ Hb).
    rewrite HasPrefix_byte, Ascii.eqb_refl. reflexivity.
  - cbn [append LastIndex]. rewrite IH.
    pose proof (len_nonneg a) as Hn.
    destruct (0 <=? len a) eqn:E; [|apply Z.leb_gt in E; lia].
    rewrite len_String. reflexivity.
Qed.

Lemma LastIndex_lt (c : ascii) (s : string) :
  LastIndex s (String c "") < len s.
Proof.
  induction s as [|d s IH]; [cbn; lia|].
  cbn [LastIndex]. rewrite len_String, HasPrefix_byte.
  pose proof (len_nonneg s).
  destruct (0 <=? LastIndex s (String c "")); [lia|].
  destruct (Ascii.eqb d c); lia.
Qed.

Lemma LastIndex_before (c : ascii) (a b : string) :
  occurs c b = false ->
  LastIndex (a ++ b) (String c "") = LastIndex a (String c "").
Proof.
  intros Hb. induction a as [|d a IH].
  - cbn [append]. rewrite (LastIndex_absent _ _ Hb). reflexivity.
  - cbn [append LastIndex]. rewrite IH, !HasPrefix_byte. reflexivity.
Qed.

(** *** Splitting at one byte *)

Lemma Split_absent (c : ascii) (s : string) :
  occurs c s = false -> Split s (String c "") = [s].
Proof.
  unfold Split. induction s as [|d s IH]; intros H; [reflexivity|].
  simpl in H. apply orb_false_iff in H as [Hd Hs].
  cbn [splitFrom]. rewrite HasPrefix_byte, Hd, (IH Hs). reflexivity.
Qed.

Lemma Split_first (c : ascii) (a b : string) :
  occurs c a = false ->
  Split (a ++ String c b) (String c "") = a :: Split b (String c "").
Proof.
  unfold Split. induction a as [|d a IH]; intros H.
  - cbn [append splitFrom]. rewrite HasPrefix_byte, Ascii.eqb_refl.
    reflexivity.
  - simpl in H. apply orb_false_iff in H as [Hd Ha].
    cbn [append splitFrom]. rewrite HasPrefix_byte, Hd, (IH Ha).
    reflexivity.
Qed.

Lemma Split_nonempty (s sep : string) : Split s sep <> [].
Proof.
  unfold Split. generalize O.
  induction s as [|d s IH]; intros n; cbn [splitFrom]; [discriminate|].
  destruct n; [|apply IH].
  destruct (HasPrefix (String d s) sep); [discriminate|].
  destruct (splitFrom 0 s sep); discriminate.
Qed.

Lemma HasSuffix_app (a b : string) : HasSuffix (a ++ b) b = true.
Proof.
  unfold HasSuffix. rewrite len_app, length_app.
  replace (String.length a + String.length b - String.length b)%nat
    with (String.length a) by lia.
  rewrite skip_app, String.eqb_refl.
  pose proof (len_nonneg a).
  rewrite andb_true_r. apply Z.leb_le. lia.
Qed.

(** ** Numbers *)

Lemma digitVal_nonneg (c : ascii) (d : Z) : digitVal c = Some d -> 0 <= d.
Proof.
  unfold digitVal.
  destruct ((48 <=? _) && (_ <=? 57)) eqn:E1.
  - apply andb_true_iff in E1 as [E1 _]. apply Z.leb_le in E1.
    intros [= <-]. lia.
  - destruct ((97 <=? _) && (_ <=? 122)) eqn:E2; [|discriminate].
    apply andb_true_iff in E2 as [E2 _]. apply Z.leb_le in E2.
    intros [= <-]. lia.
Qed.

(** An accepted digit string has only digits, and its value is not
    negative. *)
Lemma parseDigits_inl (s : string) (base maxVal n v : Z) :
  0 <= n -> parseDigits s base maxVal n = inl v ->
  0 <= v /\ forall c, digitVal c = None -> occurs c s = false.
Proof.
  revert n. induction s as [|x s IH]; intros n Hn H; cbn [parseDigits] in H.
  - injection H as <-. split; [exact Hn | reflexivity].
  - destruct (digitVal x) as [d|] eqn:Hx; [|discriminate].
    destruct (base <=? d) eqn:Hb; [discriminate|].
    destruct (maxUint64 / base + 1 <=? n); [discriminate|].
    destruct ((maxUint64 <? n * base + d) || (maxVal <? n * base + d));
      [discriminate|].
    apply Z.leb_gt in Hb. pose proof (digitVal_nonneg _ _ Hx) as Hd.
    apply IH in H as [Hv Hc]; [|nia].
    split; [exact Hv|]. intros c Hnone. cbn [occurs].
    rewrite (Hc c Hnone), orb_false_r.
    destruct (Ascii.eqb x c) eqn:E; [|reflexivity].
    apply Ascii.eqb_eq in E. congruence.
Qed.

Lemma ParseInt_chars (s : string) (base bitSize v : Z) (c : ascii) :
  ParseInt s base bitSize = inl v ->
  digitVal c = None -> c <> "+"%char -> c <> "-"%char ->
  occurs c s = false.
Proof.
  unfold ParseInt. destruct s as [|x s]; [discriminate|].
  intros H Hnone Hplus Hminus.
  set (digits := if Ascii.eqb x "+" || Ascii.eqb x "-" then s
                 else String x s) in H.
  destruct (ParseUint digits base bitSize) as [un|e] eqn:Hu;
    [|destruct e; discriminate].
  unfold ParseUint in Hu.
  assert (Hd : forall c, digitVal c = None -> occurs c digits = false).
  { destruct digits; [discriminate|].
    now apply parseDigits_inl in Hu as [_ Hc]. }
  specialize (Hd c Hnone). subst digits. cbn [occurs].
  destruct (Ascii.eqb x "+") eqn:E1.
  - apply Ascii.eqb_eq in E1. subst x. simpl in Hd. rewrite Hd.
    destruct (Ascii.eqb "+" c) eqn:E; [|reflexivity].
    apply Ascii.eqb_eq in E. congruence.
  - destruct (Ascii.eqb x "-") eqn:E2.
    + apply Ascii.eqb_eq in E2. subst x. simpl in Hd. rewrite Hd.
      destruct (Ascii.eqb "-" c) eqn:E; [|reflexivity].
      apply Ascii.eqb_eq in E. congruence.
    + simpl in Hd. exact Hd.
Qed.

Lemma ParseInt_nonempty (s : string) (base bitSize v : Z) :
  ParseInt s base bitSize = inl v -> 0 < len s.
Proof.
  destruct s; [discriminate|]. intros _. rewrite len_String.
  pose proof (len_nonneg s). lia.
Qed.

Lemma ParseInt_range (s : string) (base bitSize v : Z) :
  1 <= bitSize ->
  ParseInt s base bitSize = inl v ->
  - 2 ^ (bitSize - 1) <= v < 2 ^ (bitSize - 1).
Proof.
  intros Hbits.
  assert (0 < 2 ^ (bitSize - 1)) as Hpow
    by (apply Z.pow_pos_nonneg; lia).
  unfold ParseInt. destruct s as [|x s]; [discriminate|].
  set (digits := if Ascii.eqb x "+" || Ascii.eqb x "-" then s
                 else String x s).
  destruct (ParseUint digits base bitSize) as [un|e] eqn:Hu;
    [|destruct e; discriminate].
  assert (0 <= un) as Hun.
  { unfold ParseUint in Hu. destruct digits; [discriminate|].
    now apply parseDigits_inl in Hu as [Hv _]. }
  destruct (Ascii.eqb x "-"); cbn [negb andb].
  - destruct (2 ^ (bitSize - 1) <? un) eqn:E; [discriminate|].
    apply Z.ltb_ge in E. intros [= <-]. lia.
  - destruct (2 ^ (bitSize - 1) <=? un) eqn:E; [discriminate|].
    apply Z.leb_gt in E. intros [= <-]. lia.
Qed.

Lemma toInt_id (s : string) (base v : Z) :
  ParseInt s base 64 = inl v -> toInt v = v.
Proof.
  intros H. apply ParseInt_range in H; [|lia]. unfold toInt.
  change (2 ^ (64 - 1)) with (2 ^ 63) in H.
  rewrite Z.mod_small; lia.
Qed.

Lemma toInt32_id (s : string) (base v : Z) :
  ParseInt s base 32 = inl v -> toInt32 v = v.
Proof.
  intros H. apply ParseInt_range in H; [|lia]. unfold toInt32.
  change (2 ^ (32 - 1)) with (2 ^ 31) in H.
  rewrite Z.mod_small; lia.
Qed.

(** ** Position lines *)

Section PositionLines.
Variable newobject : nat -> Z.

Lemma no_colon (s : string) (base bitSize v : Z) :
  ParseInt s base bitSize = inl v -> occurs ":" s = false.
Proof. intros H. apply (ParseInt_chars _ _ _ _ _ H); easy. Qed.

Lemma no_space (s : string) (base bitSize v : Z) :
  ParseInt s base bitSize = inl v -> occurs " " s = false.
Proof. intros H. apply (ParseInt_chars _ _ _ _ _ H); easy. Qed.

Lemma no_comma (s : string) (base bitSize v : Z) :
  ParseInt s base bitSize = inl v -> occurs "," s = false.
Proof. intros H. apply (ParseInt_chars _ _ _ _ _ H); easy. Qed.

Lemma no_bracket (s : string) (base bitSize v : Z) :
  ParseInt s base bitSize = inl v -> occurs "[" s = false.
Proof. intros H. apply (ParseInt_chars _ _ _ _ _ H); easy. Qed.

(** [<file>:<line>], whatever stands for the line: no position, and the
line decides between a frame and an error. *)
Lemma parsePos_no_offset (file ln : string) (k : nat) :
  occurs ":" ln = false -> occurs " " ln = false ->
  parsePos newobject (file ++ ":" ++ ln) k
  = match ParseInt ln 10 32 with
    | inl n => Ret (Ok (file, toInt32 n, None), k)
    | inr e => Ret (Err (ErrLine (file ++ ":" ++ ln) e), k)
    end.
Proof.
  intros Hcolon Hspace. unfold parsePos.
  pose proof (len_nonneg file) as Hf. pose proof (len_nonneg ln) as Hl.
  assert (len (file ++ ":" ++ ln) = len file + 1 + len ln) as Hlen.
  { rewrite len_app. cbn [append]. rewrite len_String. lia. }
  rewrite Hlen.
  destruct (len file + 1 + len ln =? 0) eqn:E;
    [apply Z.eqb_eq in E; lia | clear E].
  assert (LastIndex (file ++ ":" ++ ln) ":" = len file) as ->.
  { cbn [append]. apply LastIndex_last. exact Hcolon. }
  rewrite slice_prefix by reflexivity. cbn [bind].
  assert ((LastIndex (file ++ ":" ++ ln) " " <=? len file + 1) = true)
    as ->.
  { apply Z.leb_le. rewrite LastIndex_before.
    - pose proof (LastIndex_lt " " file). lia.
    - cbn [append occurs]. rewrite Hspace. reflexivity. }
  replace (file ++ ":" ++ ln) with ((file ++ ":") ++ ln) at 1
    by apply app_assoc_s.
  rewrite slice_suffix.
  - cbn [bind]. destruct (ParseInt ln 10 32); reflexivity.
  - rewrite len_app. reflexivity.
  - rewrite len_app. change (len ":") with 1. lia.
Qed.

(** [<file>:<line>]: no position. *)
Lemma parsePos_plain (file ln : string) (n : Z) (k : nat) :
  ParseInt ln 10 32 = inl n ->
  parsePos newobject (file ++ ":" ++ ln) k = Ret (Ok (file, n, None), k).
Proof.
  intros Hln.
  rewrite parsePos_no_offset, Hln, (toInt32_id _ _ _ Hln);
    [reflexivity | exact (no_colon _ _ _ _ Hln)
     | exact (no_space _ _ _ _ Hln)].
Qed.

(** [<file>:<line> +0x<hex>]: the position is the offset. *)
Lemma parsePos_offset (file ln hex : string) (n p : Z) (k : nat) :
  ParseInt ln 10 32 = inl n ->
  ParseInt hex 16 64 = inl p ->
  parsePos newobject (file ++ ":" ++ ln ++ " +0x" ++ hex) k
  = Ret (Ok (file, n, Some (mkPtr (newobject k) p)), S k).
Proof.
  intros Hln Hhex. unfold parsePos.
  pose proof (len_nonneg file) as Hf. pose proof (len_nonneg hex) as Hh.
  pose proof (ParseInt_nonempty _ _ _ _ Hln) as Hl.
  set (text := file ++ ":" ++ ln ++ " +0x" ++ hex).
  assert (len text = len file + 1 + len ln + 4 + len hex) as Hlen.
  { unfold text. rewrite len_app. cbn [append]. rewrite len_String.
    rewrite len_app. rewrite !len_String. lia. }
  destruct (len text =? 0) eqn:E; [apply Z.eqb_eq in E; lia | clear E].
  assert (LastIndex text ":" = len file) as ->.
  { unfold text. cbn [append]. apply LastIndex_last.
    rewrite occurs_app. cbn [occurs].
    rewrite (no_colon _ _ _ _ Hln), (no_colon _ _ _ _ Hhex). reflexivity. }
  unfold text at 1. rewrite slice_prefix by reflexivity. cbn [bind].
  assert (LastIndex text " " = len file + 1 + len ln) as ->.
  { unfold text.
    replace (file ++ ":" ++ ln ++ " +0x" ++ hex)
      with ((file ++ ":" ++ ln) ++ String " " ("+0x" ++ hex))
      by (rewrite !app_assoc_s; reflexivity).
    rewrite LastIndex_last.
    - rewrite len_app. cbn [append]. rewrite len_String. lia.
    - cbn [append occurs]. rewrite (no_space _ _ _ _ Hhex). reflexivity. }
  destruct (len file + 1 + len ln <=? len file + 1) eqn:E;
    [apply Z.leb_le in E; lia | clear E].
  assert (slice text (len file + 1 + len ln + 4) (len text) = Ret hex) as ->.
  { unfold text at 1.
    replace (file ++ ":" ++ ln ++ " +0x" ++ hex)
      with ((file ++ ":" ++ ln ++ " +0x") ++ hex)
      by (rewrite !app_assoc_s; reflexivity).
    apply slice_suffix.
    - rewrite len_app. cbn [append]. rewrite len_String, len_app.
      change (len " +0x") with 4. lia.
    - rewrite Hlen, len_app. cbn [append]. rewrite len_String, len_app.
      change (len " +0x") with 4. lia. }
  cbn [bind]. rewrite Hhex.
  assert (slice text (len file + 1) (len file + 1 + len ln) = Ret ln) as ->.
  { unfold text.
    replace (file ++ ":" ++ ln ++ " +0x" ++ hex)
      with ((file ++ ":") ++ ln ++ " +0x" ++ hex)
      by (rewrite !app_assoc_s; reflexivity).
    apply slice_middle; rewrite len_app; reflexivity. }
  cbn [bind]. rewrite Hln, (toInt32_id _ _ _ Hln), (toInt_id _ _ _ Hhex).
  reflexivity.
Qed.

End PositionLines.

(** ** Headers *)

Lemma Split_clause (status : string) (quals : list string) :
  commaFree (status :: quals) = true ->
  Split (clause status quals) "," = status :: quals.
Proof.
  revert status. induction quals as [|q quals IH]; intros status H.
  - cbn in H. rewrite andb_true_r in H. apply negb_true_iff in H.
    now apply Split_absent.
  - cbn [commaFree forallb] in H. apply andb_true_iff in H as [Hs Hq].
    apply negb_true_iff in Hs.
    cbn [clause append]. rewrite Split_first by exact Hs.
    f_equal. apply IH. exact Hq.
Qed.

(** The loop of [parseHeader] reads the qualifiers as the grammar does. *)
Lemma scanQualifiers_sound (quals : list string) (w w' : Z) (l l' : bool) :
  qualifiers quals w l w' l' ->
  scanQualifiers quals w l = Ret (Ok (w', l')).
Proof.
  induction 1 as [w l | q n m quals w l w' l' Hq Hn _ IH
                  | q quals w l w' l' Hq _ IH
                  | q quals w l w' l' Hs Hq _ IH]; cbn [scanQualifiers].
  - reflexivity.
  - rewrite Hq.
    replace (n ++ " minutes") with ((n ++ " ") ++ "minutes")
      by (rewrite app_assoc_s; reflexivity).
    rewrite HasSuffix_app.
    replace ((n ++ " ") ++ "minutes") with (n ++ String " " "minutes")
      by (rewrite app_assoc_s; reflexivity).
    rewrite Index_first by exact (no_space _ _ _ _ Hn).
    rewrite slice_prefix by reflexivity. cbn [bind]. rewrite Hn. exact IH.
  - rewrite Hq. exact IH.
  - rewrite Hs. apply String.eqb_neq in Hq. rewrite Hq. exact IH.
Qed.

(** An unread qualifier leaves the loop where it was. *)
Lemma scanQualifiers_app (qs1 qs2 : list string) (w : Z) (l : bool) :
  scanQualifiers (qs1 ++ qs2) w l
  = (r <- scanQualifiers qs1 w l ;;
     match r with
     | Err e => Ret (Err e)
     | Ok (w1, l1) => scanQualifiers qs2 w1 l1
     end).
Proof.
  revert w l. induction qs1 as [|q qs1 IH]; intros w l; [reflexivity|].
  cbn [List.app scanQualifiers].
  destruct (HasSuffix (Trim q " ") "minutes").
  - destruct (slice _ _ _) as [minStr|]; [|reflexivity]. cbn [bind].
    destruct (ParseInt minStr 10 64); [apply IH | reflexivity].
  - destruct (String.eqb _ _); apply IH.
Qed.

(** [parseHeader] on a header of the grammar's shape: the id and the
    status are the texts written there, the rest is decided by the
    qualifiers. *)
Lemma parseHeader_text (ids status : string) (quals : list string) (id : Z) :
  ParseInt ids 10 64 = inl id ->
  commaFree (status :: quals) = true ->
  parseHeader (headerText ids status quals)
  = (q <- scanQualifiers quals 0 false ;;
     match q with
     | Err e => Ret (Err e)
     | Ok (w, l) => Ret (Ok (mkGoroutine id status w [] None l))
     end).
Proof.
  intros Hid Hc. unfold parseHeader, headerText.
  set (body := clause status quals).
  assert (Split ("goroutine " ++ ids ++ " [" ++ body ++ "]:") " "
          = "goroutine" :: ids :: Split ("[" ++ body ++ "]:") " ") as ->.
  { change ("goroutine " ++ ids ++ " [" ++ body ++ "]:")
      with ("goroutine" ++ String " " (ids ++ String " " ("[" ++ body ++ "]:"))).
    rewrite Split_first by reflexivity.
    rewrite Split_first by exact (no_space _ _ _ _ Hid). reflexivity. }
  pose proof (Split_nonempty ("[" ++ body ++ "]:") " ") as Hne.
  destruct (Split ("[" ++ body ++ "]:") " ") as [|t ts] eqn:Hsp;
    [contradiction|].
  cbn [List.length nth].
  destruct (Z.of_nat (S (S (S (List.length ts)))) <? 3) eqn:E;
    [apply Z.ltb_lt in E; lia | clear E].
  rewrite String.eqb_refl. cbn [negb]. rewrite Hid.
  assert (Index ("goroutine " ++ ids ++ " [" ++ body ++ "]:") "["
          = len ("goroutine " ++ ids ++ " ")) as ->.
  { replace ("goroutine " ++ ids ++ " [" ++ body ++ "]:")
      with (("goroutine " ++ ids ++ " ") ++ String "[" (body ++ "]:"))
      by (rewrite !app_assoc_s; reflexivity).
    apply Index_first. rewrite occurs_app, occurs_app.
    rewrite (no_bracket _ _ _ _ Hid). reflexivity. }
  assert (slice ("goroutine " ++ ids ++ " [" ++ body ++ "]:")
                (len ("goroutine " ++ ids ++ " ") + 1)
                (len ("goroutine " ++ ids ++ " [" ++ body ++ "]:") - 2)
          = Ret body) as ->.
  { replace ("goroutine " ++ ids ++ " [" ++ body ++ "]:")
      with (("goroutine " ++ ids ++ " [") ++ body ++ "]:")
      by (rewrite !app_assoc_s; reflexivity).
    apply slice_middle.
    - rewrite !len_app. change (len " [") with 2. change (len " ") with 1.
      lia.
    - rewrite !len_app. change (len "]:") with 2. lia. }
  cbn [bind]. unfold body. rewrite (Split_clause _ _ Hc).
  destruct quals as [|q quals]; [reflexivity|].
  cbn [List.length tl nth].
  destruct (Z.of_nat (S (S (List.length quals))) =? 1) eqn:E;
    [apply Z.eqb_eq in E; lia | clear E].
  reflexivity.
Qed.

(** ** The loops of [ParseStackFrame] *)

Section Loops.
Variable newobject : nat -> Z.


(** How many calls of [Scan] can still change the scanner: one for each
    token, and two for a buffer that is still to be given out. *)
Local Abbreviation scans sc :=
  (List.length (tokens sc)
   + match buffered sc with Some _ => 2 | None => 0 end)%nat.

Local Abbreviation pending st := (scans (scanner st)).

Lemma Scan_pending (sc sc' : Scanner) (more : bool) :
  Scan sc = (more, sc') ->
  failure sc' = failure sc /\
  if more then scans sc = S (scans sc') else (scans sc' <= scans sc)%nat.
Proof.
  unfold Scan. destruct sc as [ts tok fl b].
  cbn [tokens token failure buffered].
  destruct ts as [|t ts]; [destruct b as [b|]|]; intros [= <- <-]; cbn;
    split; auto; lia.
Qed.

Lemma parseStackPos_pending (st st' : state)
  (res : result (string * Z * option intptr)) :
  parseStackPos newobject st = Ret (res, st') ->
  (pending st' <= pending st)%nat
  /\ failure (scanner st') = failure (scanner st).
Proof.
  unfold parseStackPos.
  destruct (Scan (scanner st)) as [more sc] eqn:E.
  apply Scan_pending in E as [Hf E]. destruct more; cbn [negb].
  - destruct (parsePos newobject _ _) as [[r k]|]; cbn [bind];
      [|discriminate].
    intros [= _ <-]. cbn [scanner]. split; [lia | exact Hf].
  - intros [= _ <-]. cbn [scanner]. split; [exact E | exact Hf].
Qed.

(** More fuel does not change a result. *)
Lemma scanBlock_mono (fuel : nat) :
  forall st routine x, scanBlock newobject fuel st routine = Some x ->
  forall fuel', (fuel <= fuel')%nat -> scanBlock newobject fuel' st routine = Some x.
Proof.
  induction fuel as [|fuel IH]; intros st routine x H fuel' Hle;
    [discriminate|].
  destruct fuel' as [|fuel']; [lia|].
  assert (fuel <= fuel')%nat as Hle' by lia.
  cbn [scanBlock] in *.
  destruct (Scan (scanner st)) as [[|] sc]; cbn [negb] in *; [|exact H].
  destruct (len (Text sc) =? 0); [exact H|].
  destruct (HasPrefix (Text sc) "created by ");
    destruct (parseStackPos newobject _) as [[[[[file line] pos]|e] st2]|];
    try exact H; try (now apply IH with (fuel' := fuel') in H).
  destruct (slice _ _ _); [|exact H].
  now apply IH with (fuel' := fuel') in H.
Qed.

Lemma scanRoutines_mono (fuel : nat) :
  forall st routines x, scanRoutines newobject fuel st routines = Some x ->
  forall fuel', (fuel <= fuel')%nat ->
  scanRoutines newobject fuel' st routines = Some x.
Proof.
  induction fuel as [|fuel IH]; intros st routines x H fuel' Hle;
    [discriminate|].
  destruct fuel' as [|fuel']; [lia|].
  assert (fuel <= fuel')%nat as Hle' by lia.
  cbn [scanRoutines] in *.
  destruct (Scan (scanner st)) as [[|] sc]; cbn [negb] in *; [|exact H].
  destruct (parseHeader (Text sc)) as [[routine|e]|]; [| |exact H].
  - destruct (scanBlock newobject fuel _ _) as [[[routine' st2]|p]|] eqn:Hb;
      [| |discriminate].
    + rewrite (scanBlock_mono _ _ _ _ Hb _ Hle').
      now apply IH with (fuel' := fuel') in H.
    + rewrite (scanBlock_mono _ _ _ _ Hb _ Hle'). exact H.
  - now apply IH with (fuel' := fuel') in H.
Qed.

(** A bound above the number of pending calls is never too small. *)
Lemma scanBlock_total (fuel : nat) :
  forall st routine, (pending st < fuel)%nat ->
  exists x, scanBlock newobject fuel st routine = Some x /\
            match x with
            | Ret (_, st') => (pending st' <= pending st)%nat
                              /\ failure (scanner st') = failure (scanner st)
            | Panic _ => True
            end.
Proof.
  induction fuel as [|fuel IH]; intros st routine Hlt; [lia|].
  cbn [scanBlock].
  destruct (Scan (scanner st)) as [more sc] eqn:E.
  apply Scan_pending in E as [Hf E]. destruct more; cbn [negb].
  2:{ eexists; split; [reflexivity|]. cbn [scanner].
      split; [exact E | exact Hf]. }
  destruct (len (Text sc) =? 0).
  { eexists; split; [reflexivity|]. cbn [scanner]. split; [lia | exact Hf]. }
  set (st1 := mkState sc (allocated st)).
  assert (forall st2 r, (pending st2 <= pending st1)%nat ->
            failure (scanner st2) = failure (scanner st1) ->
            exists x, scanBlock newobject fuel st2 r = Some x /\
              match x with
              | Ret (_, st') => (pending st' <= pending st)%nat /\
                  failure (scanner st') = failure (scanner st)
              | Panic _ => True
              end) as Hnext.
  { intros st2 r Hp Hf2. unfold st1 in Hp, Hf2. cbn [scanner] in Hp, Hf2.
    destruct (IH st2 r) as [x [Hx Hpost]]; [lia|].
    exists x. split; [exact Hx|].
    destruct x as [[r' st']|]; [|exact I].
    destruct Hpost. split; [lia | congruence]. }
  destruct (HasPrefix (Text sc) "created by ");
    destruct (parseStackPos newobject st1) as [[[[[file line] pos]|e] st2]|] eqn:Hp;
    try (eexists; split; [reflexivity | exact I]);
    apply parseStackPos_pending in Hp as [Hp Hf2];
    try (now apply Hnext).
  destruct (slice _ _ _); [now apply Hnext|].
  eexists; split; [reflexivity | exact I].
Qed.

Lemma scanRoutines_total (fuel : nat) :
  forall st routines, (pending st < fuel)%nat ->
  exists x, scanRoutines newobject fuel st routines = Some x /\
            match x with
            | Ret (_, st') => failure (scanner st') = failure (scanner st)
            | Panic _ => True
            end.
Proof.
  induction fuel as [|fuel IH]; intros st routines Hlt; [lia|].
  cbn [scanRoutines].
  destruct (Scan (scanner st)) as [more sc] eqn:E.
  apply Scan_pending in E as [Hf E]. destruct more; cbn [negb].
  2:{ eexists; split; [reflexivity | exact Hf]. }
  set (st1 := mkState sc (allocated st)).
  destruct (parseHeader (Text sc)) as [[routine|e]|].
  - destruct (scanBlock_total fuel st1 (resetTrace routine))
      as [x [Hx Hpost]]; [unfold st1; cbn [scanner]; lia|].
    rewrite Hx. destruct x as [[routine' st2]|p].
    + destruct Hpost as [Hp Hf2]. unfold st1 in Hp, Hf2.
      cbn [scanner] in Hp, Hf2.
      destruct (IH st2 (routines ++ [routine'])%list) as [y [Hy Hq]]; [lia|].
      exists y. split; [exact Hy|].
      destruct y as [[rs st']|]; [congruence | exact I].
    + eexists; split; [reflexivity | exact I].
  - destruct (IH st1 routines) as [y [Hy Hq]];
      [unfold st1; cbn [scanner]; lia|].
    exists y. split; [exact Hy|].
    destruct y as [[rs st']|];
      [unfold st1 in Hq; cbn [scanner] in Hq; congruence | exact I].
  - eexists; split; [reflexivity | exact I].
Qed.

(** Whatever bound gives a result gives the result of [parseScanner]. *)
Lemma parseScanner_fuel (sc : Scanner) (fuel : nat)
  (x : exec (list Goroutine * state)) :
  scanRoutines newobject fuel (mkState sc O) [] = Some x ->
  parseScanner newobject sc
  = Some match x with
         | Ret (routines, st) => Ret (routines, ScanErr (scanner st))
         | Panic p => Panic p
         end.
Proof.
  intros H. unfold parseScanner.
  destruct (scanRoutines_total (List.length (tokens sc) + 3)
              (mkState sc O) []) as [y [Hy _]];
    [cbn [scanner]; destruct (buffered sc); lia|].
  assert (y = x) as ->.
  { pose proof (scanRoutines_mono _ _ _ _ H
                  (Nat.max fuel (List.length (tokens sc) + 3))
                  (Nat.le_max_l _ _)) as H1.
    pose proof (scanRoutines_mono _ _ _ _ Hy
                  (Nat.max fuel (List.length (tokens sc) + 3))
                  (Nat.le_max_r _ _)) as H2.
    congruence. }
  rewrite Hy. destruct x as [[routines st]|]; reflexivity.
Qed.

End Loops.

(** ** Blocks *)

Lemma HasPrefix_split (s p : string) :
  HasPrefix s p = true -> s = p ++ skip (String.length p) s.
Proof.
  revert s. induction p as [|c p IH]; intros s H; [reflexivity|].
  destruct s as [|d s]; [discriminate|]. cbn in H.
  apply andb_true_iff in H as [Hc Hp]. apply Ascii.eqb_eq in Hc. subst d.
  cbn. f_equal. now apply IH.
Qed.

Lemma slice_after_prefix (s p : string) :
  HasPrefix s p = true ->
  slice s (len p) (len s) = Ret (skip (String.length p) s).
Proof.
  intros H. apply HasPrefix_split in H.
  rewrite H at 1 2. apply slice_suffix; [reflexivity | apply len_app].
Qed.

Section Blocks.
Variable newobject : nat -> Z.


(** The allocator decides the address of a position and nothing else. *)
Lemma parsePos_view (text : string) (k : nat) :
  match parsePos newobject text k with
  | Ret (Ok (file, line, pos), _) =>
      posFields text = Some (file, line, option_map deref pos)
  | Ret (Err _, _) => posFields text = None /\ posRejected text = true
  | Panic _ => posFields text = None /\ posRejected text = false
  end.
Proof.
  unfold posFields, posRejected, parsePos.
  destruct (len text =? 0); [split; reflexivity|].
  destruct (slice text 0 _) as [fileName|]; cbn [bind];
    [|split; reflexivity].
  destruct (_ <=? _).
  - destruct (slice text _ _) as [lineStr|]; cbn [bind];
      [|split; reflexivity].
    destruct (ParseInt lineStr 10 32); [reflexivity | split; reflexivity].
  - destruct (slice text _ _) as [posStr|]; cbn [bind];
      [|split; reflexivity].
    destruct (ParseInt posStr 16 64); [|split; reflexivity].
    destruct (slice text _ _) as [lineStr|]; cbn [bind];
      [|split; reflexivity].
    destruct (ParseInt lineStr 10 32); [reflexivity | split; reflexivity].
Qed.

Lemma scanBlock_token (fuel : nat) (ts : list string) (tok tok' : string)
  (fl : option error) (k : nat) (r : Goroutine) :
  scanBlock newobject fuel (stateOf ts tok fl k) r
  = scanBlock newobject fuel (stateOf ts tok' fl k) r.
Proof. destruct fuel; [reflexivity|]. destruct ts; reflexivity. Qed.

Lemma scanRoutines_token (fuel : nat) (ts : list string)
  (tok tok' : string) (fl : option error) (k : nat)
  (acc : list Goroutine) :
  scanRoutines newobject fuel (stateOf ts tok fl k) acc
  = scanRoutines newobject fuel (stateOf ts tok' fl k) acc.
Proof. destruct fuel; [reflexivity|]. destruct ts; reflexivity. Qed.

(** With a token pending, [parseStackPos] does not depend on what the
    buffer holds. *)
Lemma parseStackPos_buffered (raw : string) (rest : list string)
  (tok : string) (fl : option error) (b : option string) (k : nat) :
  parseStackPos newobject (mkState (mkScanner (raw :: rest) tok fl b) k)
  = match parseStackPos newobject (stateOf (raw :: rest) tok fl k) with
    | Ret (res, st') =>
        Ret (res, mkState (mkScanner rest raw fl b) (allocated st'))
    | Panic p => Panic p
    end.
Proof.
  unfold parseStackPos.
  cbn [stateOf scanner Scan tokens negb Text token allocated failure
       buffered].
  destruct (parsePos newobject (TrimSpace raw) k) as [[res k']|];
    reflexivity.
Qed.

(** The inner loop takes one iteration per entry and reads what the
    entries denote, whatever the buffer holds. *)
Lemma scanBlock_entries_buffered (b : option string) (es : list entry) :
  forall (tail : list string) (tok : string) (fl : option error)
         (k : nat) (r : Goroutine),
  forallb scannable es = true ->
  exists r' k' tok1,
    sameHeader r r'
    /\ traceView r' = entriesView es (fst (traceView r)) (snd (traceView r))
    /\ forall fuel,
        scanBlock newobject (List.length es + fuel)
                  (mkState (mkScanner (entryLines es ++ tail) tok fl b) k) r
        = scanBlock newobject fuel
                    (mkState (mkScanner tail tok1 fl b) k') r'.
Proof.
  induction es as [|[fn pl] es IH]; intros tail tok fl k r Hes.
  - exists r, k, tok. split; [repeat split|]. split; reflexivity.
  - cbn [forallb] in Hes. apply andb_true_iff in Hes as [He Hes].
    unfold scannable in He. cbn [fst snd] in He.
    apply andb_true_iff in He as [Hfn Hpl].
    apply negb_true_iff in Hfn.
    pose proof (parsePos_view (TrimSpace pl) k) as Hview.
    assert (forall r1 k1,
      sameHeader r r1 ->
      entriesView es (fst (traceView r1)) (snd (traceView r1))
      = entriesView ((fn, pl) :: es) (fst (traceView r))
                    (snd (traceView r)) ->
      (forall fuel,
        scanBlock newobject (S (List.length es + fuel))
          (mkState (mkScanner (fn :: pl :: entryLines es ++ tail) tok fl b)
                   k) r
        = scanBlock newobject (List.length es + fuel)
            (mkState (mkScanner (entryLines es ++ tail) pl fl b) k1) r1) ->
      exists r' k' tok1,
        sameHeader r r'
        /\ traceView r'
           = entriesView ((fn, pl) :: es) (fst (traceView r))
                         (snd (traceView r))
        /\ forall fuel,
            scanBlock newobject (List.length ((fn, pl) :: es) + fuel)
              (mkState
                 (mkScanner (entryLines ((fn, pl) :: es) ++ tail) tok fl b)
                 k) r
            = scanBlock newobject fuel
                (mkState (mkScanner tail tok1 fl b) k') r') as Hstep.
    { intros r1 k1 Hsame Hv Hrun.
      destruct (IH tail pl fl k1 r1 Hes)
        as [r' [k' [tok1 [Hs' [Hv' Hrun']]]]].
      exists r', k', tok1. split.
      - destruct Hsame as [? [? [? ?]]]. destruct Hs' as [? [? [? ?]]].
        repeat split; congruence.
      - split; [congruence|].
        intros fuel. cbn [List.length entryLines flat_map fst snd
                          List.app Nat.add].
        fold (entryLines es). rewrite Hrun. apply Hrun'. }
    destruct (parsePos newobject (TrimSpace pl) k)
      as [[[[[file line] pos]|e] k1]|] eqn:Hp.
    + (* accepted *)
      destruct (HasPrefix fn "created by ") eqn:Hcb.
      * apply (Hstep (setCratedBy r (mkFrame (skip 11 fn) file line pos))
                     k1).
        -- repeat split.
        -- cbn [entriesView]. rewrite Hview, Hcb. reflexivity.
        -- intros fuel.
           cbn [scanBlock scanner Scan tokens negb Text token allocated
                failure buffered].
           rewrite Hfn, Hcb.
           unfold parseStackPos.
           cbn [scanner Scan tokens negb Text token allocated failure
                buffered].
           rewrite Hp. cbn [bind fst snd].
           change 11 with (len "created by ").
           rewrite (slice_after_prefix _ _ Hcb). reflexivity.
      * apply (Hstep (appendFrame r (mkFrame fn file line pos)) k1).
        -- repeat split.
        -- cbn [entriesView]. rewrite Hview, Hcb.
           unfold traceView. cbn [appendFrame StackTrace CratedBy fst snd].
           rewrite map_app. reflexivity.
        -- intros fuel.
           cbn [scanBlock scanner Scan tokens negb Text token allocated
                failure buffered].
           rewrite Hfn, Hcb.
           unfold parseStackPos.
           cbn [scanner Scan tokens negb Text token allocated failure
                buffered].
           rewrite Hp. reflexivity.
    + (* rejected: the frame is left out *)
      destruct Hview as [Hnone _].
      apply (Hstep r k1).
      * repeat split.
      * cbn [entriesView]. rewrite Hnone. reflexivity.
      * intros fuel.
        cbn [scanBlock scanner Scan tokens negb Text token allocated
             failure buffered].
        rewrite Hfn. unfold parseStackPos.
        cbn [scanner Scan tokens negb Text token allocated failure
             buffered].
        rewrite Hp.
        destruct (HasPrefix fn "created by "); reflexivity.
    + destruct Hview as [Hnone Hrej]. rewrite Hnone, Hrej in Hpl.
      discriminate.
Qed.

Lemma scanBlock_entries (es : list entry) :
  forall (tail : list string) (tok : string) (fl : option error)
         (k : nat) (r : Goroutine),
  forallb scannable es = true ->
  exists r' k',
    sameHeader r r'
    /\ traceView r' = entriesView es (fst (traceView r)) (snd (traceView r))
    /\ forall fuel tok',
        scanBlock newobject (List.length es + fuel)
                  (stateOf (entryLines es ++ tail) tok fl k) r
        = scanBlock newobject fuel (stateOf tail tok' fl k') r'.
Proof.
  intros tail tok fl k r Hes.
  destruct (scanBlock_entries_buffered None es tail tok fl k r Hes)
    as [r' [k' [tok1 [Hsame [Hv Hrun]]]]].
  exists r', k'. split; [exact Hsame|]. split; [exact Hv|].
  intros fuel tok'. unfold stateOf. rewrite Hrun.
  apply (scanBlock_token fuel tail tok1 tok' fl k' r').
Qed.

End Blocks.

(** ** Streams of blocks *)

Lemma malformed_rejected (line : string) :
  malformedHeader line = true -> exists e, parseHeader line = Ret (Err e).
Proof.
  unfold malformedHeader, parseHeader.
  destruct (Z.of_nat (List.length (Split line " ")) <? 3);
    [intros _; eexists; reflexivity|].
  destruct (String.eqb (nth 0 (Split line " ") "") "goroutine");
    cbn [negb orb]; [|intros _; eexists; reflexivity].
  destruct (ParseInt (nth 1 (Split line " ") "") 10 64);
    [discriminate | intros _; eexists; reflexivity].
Qed.

(** A record fresh from [parseHeader] has no frames yet. *)
Lemma parseHeader_fresh (line : string) (r : Goroutine) :
  parseHeader line = Ret (Ok r) -> StackTrace r = [] /\ CratedBy r = None.
Proof.
  unfold parseHeader.
  destruct (_ <? 3); [discriminate|].
  destruct (negb _); [discriminate|].
  destruct (ParseInt _ 10 64) as [id|]; [|discriminate].
  destruct (slice _ _ _) as [fullState|]; cbn [bind]; [|discriminate].
  destruct (_ =? 1); [intros [= <-]; split; reflexivity|].
  destruct (scanQualifiers _ _ _) as [[[w l]|e]|]; cbn [bind];
    try discriminate.
  intros [= <-]. split; reflexivity.
Qed.

Section Streams.
Variable newobject : nat -> Z.


(** Lines that fail as headers are passed over one by one. *)
Lemma routines_junk (junk : list string) :
  forall (rest : list string) (tok tok' : string) (fl : option error)
         (k : nat) (acc : list Goroutine) (fuel : nat),
  forallb malformedHeader junk = true ->
  scanRoutines newobject (List.length junk + fuel) (stateOf (junk ++ rest) tok fl k)
               acc
  = scanRoutines newobject fuel (stateOf rest tok' fl k) acc.
Proof.
  induction junk as [|j junk IH]; intros rest tok tok' fl k acc fuel H.
  - apply scanRoutines_token.
  - cbn [forallb] in H. apply andb_true_iff in H as [Hj H].
    destruct (malformed_rejected _ Hj) as [e He].
    cbn [List.length List.app Nat.add scanRoutines stateOf
         scanner Scan tokens negb Text token allocated failure buffered].
    rewrite He. apply (IH rest j tok' fl k acc fuel H).
Qed.

(** A well-formed block adds the record it denotes, whether a blank
    line or the end of the stream closes it. *)
Lemma routines_block_closed (b : block) (tail rest : list string)
  (tok : string) (fl : option error) (k : nat) (acc : list Goroutine) :
  tail = EmptyString :: rest \/ (tail = [] /\ rest = []) ->
  wellFormed b = true ->
  exists r k',
    blockView b = Some (viewRecord r)
    /\ forall fuel tok' x,
        scanRoutines newobject fuel (stateOf rest tok' fl k') (acc ++ [r])
        = Some x ->
        exists fuel',
          scanRoutines newobject fuel'
            (stateOf (header b :: entryLines (entries b) ++ tail) tok fl k)
            acc
          = Some x.
Proof.
  intros Htail. unfold wellFormed, blockView.
  destruct (parseHeader (header b)) as [[r0|e]|] eqn:Hh; try discriminate.
  intros Hes.
  destruct (parseHeader_fresh _ _ Hh) as [Htrace Hcreated].
  destruct (scanBlock_entries newobject (entries b) tail
              (header b) fl k (resetTrace r0) Hes)
    as [r [k' [Hsame [Hview Hrun]]]].
  exists r, k'. split.
  - unfold traceView in Hview.
    cbn [resetTrace StackTrace CratedBy map fst snd] in Hview.
    rewrite Hcreated in Hview. cbn [option_map] in Hview.
    destruct (entriesView (entries b) [] None) as [trace created].
    injection Hview as Ht Hc.
    destruct Hsame as [Hid [Hst [Hw Hl]]].
    cbn [resetTrace ID Status WaitSinceMin LockedToThread] in *.
    unfold viewRecord. now rewrite Hid, Hst, Hw, Hl, Ht, Hc.
  - intros fuel tok' x Hx.
    set (n := Nat.max (List.length (entries b) + 1) fuel).
    exists (S n).
    cbn [scanRoutines stateOf scanner Scan tokens negb
         Text token allocated failure buffered].
    rewrite Hh.
    assert (scanBlock newobject n
              (stateOf (entryLines (entries b) ++ tail)
                       (header b) fl k) (resetTrace r0)
            = Some (Ret (r, stateOf rest EmptyString fl k'))) as Hb.
    { apply scanBlock_mono with (fuel := (List.length (entries b) + 1)%nat);
        [|apply Nat.le_max_l].
      rewrite (Hrun 1%nat EmptyString).
      destruct Htail as [-> | [-> ->]]; reflexivity. }
    unfold stateOf in Hb. rewrite Hb.
    apply scanRoutines_mono with (fuel := fuel); [|apply Nat.le_max_r].
    rewrite <- Hx. apply scanRoutines_token.
Qed.

Lemma routines_block (b : block) (rest : list string) (tok : string)
  (fl : option error) (k : nat) (acc : list Goroutine) :
  wellFormed b = true ->
  exists r k',
    blockView b = Some (viewRecord r)
    /\ forall fuel tok' x,
        scanRoutines newobject fuel (stateOf rest tok' fl k') (acc ++ [r])
        = Some x ->
        exists fuel',
          scanRoutines newobject fuel'
            (stateOf (blockLines b ++ rest) tok fl k) acc
          = Some x.
Proof.
  intros Hb.
  destruct (routines_block_closed b (EmptyString :: rest) rest tok fl k acc
              (or_introl eq_refl) Hb) as [r [k' [Hv Hrun]]].
  exists r, k'. split; [exact Hv|].
  intros fuel tok' x Hx. destruct (Hrun fuel tok' x Hx) as [fuel' H].
  exists fuel'. unfold blockLines. cbn [List.app].
  rewrite <- app_assoc. exact H.
Qed.

Lemma routines_blocks (bs : list block) :
  forall (rest : list string) (tok : string) (fl : option error)
         (k : nat) (acc : list Goroutine),
  forallb wellFormed bs = true ->
  exists rs k',
    map blockView bs = viewsOf rs
    /\ forall fuel tok' x,
        scanRoutines newobject fuel (stateOf rest tok' fl k') (acc ++ rs) = Some x ->
        exists fuel',
          scanRoutines newobject fuel' (stateOf (dumpLines bs ++ rest) tok fl k) acc
          = Some x.
Proof.
  induction bs as [|b bs IH]; intros rest tok fl k acc H.
  - exists [], k. split; [reflexivity|].
    intros fuel tok' x Hx. exists fuel. rewrite app_nil_r in Hx.
    rewrite <- Hx. apply scanRoutines_token.
  - cbn [forallb] in H. apply andb_true_iff in H as [Hb Hbs].
    destruct (routines_block b (dumpLines bs ++ rest) tok fl k acc Hb)
      as [r [k1 [Hv Hrun]]].
    destruct (IH rest EmptyString fl k1 (acc ++ [r])%list Hbs)
      as [rs [k' [Hvs Hruns]]].
    exists (r :: rs), k'. split.
    + cbn [map viewsOf]. rewrite Hv. f_equal. exact Hvs.
    + intros fuel tok' x Hx.
      replace (acc ++ r :: rs)%list with ((acc ++ [r]) ++ rs)%list in Hx
        by (rewrite <- app_assoc; reflexivity).
      destruct (Hruns fuel tok' x Hx) as [fuel1 H1].
      destruct (Hrun fuel1 EmptyString x H1) as [fuel2 H2].
      exists fuel2. unfold dumpLines. cbn [flat_map].
      rewrite <- app_assoc. exact H2.
Qed.

Lemma routines_end (tok : string) (fl : option error) (k : nat)
  (acc : list Goroutine) :
  scanRoutines newobject 1 (stateOf [] tok fl k) acc
  = Some (Ret (acc, stateOf [] EmptyString fl k)).
Proof. reflexivity. Qed.

End Streams.

Lemma scannable_accepted (es : list entry) :
  forallb accepted es = true -> forallb scannable es = true.
Proof.
  induction es as [|e es IH]; [reflexivity|]. cbn [forallb].
  intros H. apply andb_true_iff in H as [He H]. rewrite (IH H), andb_true_r.
  unfold accepted in He. unfold scannable.
  apply andb_true_iff in He as [-> He].
  destruct (posFields _); [reflexivity | discriminate].
Qed.

Lemma posRejected_None (text : string) :
  posRejected text = true -> posFields text = None.
Proof.
  unfold posRejected, posFields.
  destruct (parsePos _ text O) as [[[[[file line] pos]|e] k]|];
    [discriminate | reflexivity | discriminate].
Qed.

(** A rejected position line adds nothing to what the block denotes. *)
Lemma entriesView_skip (pre post : list entry) (fn bad : string) :
  posFields (TrimSpace bad) = None ->
  forall trace created,
  entriesView (pre ++ (fn, bad) :: post) trace created
  = entriesView (pre ++ post) trace created.
Proof.
  intros Hbad. induction pre as [|[f p] pre IH]; intros trace created.
  - cbn [List.app entriesView]. rewrite Hbad. reflexivity.
  - cbn [List.app entriesView].
    destruct (posFields (TrimSpace p)) as [[[file line] pos]|]; [|apply IH].
    destruct (HasPrefix f "created by "); apply IH.
Qed.

Lemma blockView_fields (hdr : string) (es : list entry) (r0 r : Goroutine) :
  parseHeader hdr = Ret (Ok r0) ->
  blockView (mkBlock hdr es) = Some (viewRecord r) ->
  sameHeader r0 r /\ traceView r = entriesView es [] None.
Proof.
  intros Hh. unfold blockView. cbn [header entries]. rewrite Hh.
  destruct (entriesView es [] None) as [trace created].
  unfold viewRecord, traceView, sameHeader.
  intros [= H1 H2 H3 H4 H5 H6]. rewrite H5, H6. auto.
Qed.

Lemma dumpLines_app (bs1 bs2 : list block) :
  dumpLines (bs1 ++ bs2) = (dumpLines bs1 ++ dumpLines bs2)%list.
Proof. apply flat_map_app. Qed.

(** A dump of well-formed blocks, with lines that fail as headers between
    two of them, yields the records of the blocks, in their order. *)
Lemma parse_dump (newobject : nat -> Z) (before after : list block)
  (junk : list string) (tok : string) (fl : option error) :
  forallb wellFormed before = true ->
  forallb malformedHeader junk = true ->
  forallb wellFormed after = true ->
  exists rs,
    parseScanner newobject
      (mkScanner (dumpLines before ++ junk ++ dumpLines after) tok fl None)
    = Some (Ret (rs, fl))
    /\ map blockView (before ++ after) = viewsOf rs.
Proof.
  intros Hb Hj Ha.
  destruct (routines_blocks newobject before (junk ++ dumpLines after)
              tok fl O [] Hb) as [rs1 [k1 [Hv1 Hrun1]]].
  destruct (routines_blocks newobject after [] EmptyString fl k1
              ([] ++ rs1)%list Ha) as [rs2 [k2 [Hv2 Hrun2]]].
  exists (rs1 ++ rs2)%list. split.
  - destruct (Hrun2 1%nat EmptyString _ (routines_end newobject _ fl k2 _))
      as [fuel2 H2].
    rewrite app_nil_r in H2.
    pose proof (routines_junk newobject junk (dumpLines after) EmptyString
                  EmptyString fl k1 ([] ++ rs1)%list fuel2 Hj) as Hjunk.
    rewrite H2 in Hjunk.
    destruct (Hrun1 _ EmptyString _ Hjunk) as [fuel1 H1].
    unfold stateOf in H1.
    rewrite (parseScanner_fuel newobject _ _ _ H1).
    cbn [ScanErr scanner stateOf failure buffered List.app]. reflexivity.
  - rewrite map_app, Hv1, Hv2. unfold viewsOf. now rewrite map_app.
Qed.

(** ** From the bytes to the lines *)

Lemma lines_line (l rest : string) :
  occurs (byte 10) l = false ->
  lines (l ++ nl ++ rest) = l :: lines rest.
Proof.
  induction l as [|c l IH]; intros H.
  - reflexivity.
  - cbn [occurs] in H. apply orb_false_iff in H as [Hc Hl].
    cbn [append lines]. rewrite Hc, (IH Hl). reflexivity.
Qed.

Lemma lines_unlines (ls : list string) :
  forallb plainLine ls = true -> lines (unlines ls) = ls.
Proof.
  induction ls as [|l ls IH]; [reflexivity|]. cbn [forallb unlines].
  intros H. apply andb_true_iff in H as [Hl H].
  unfold plainLine in Hl. apply andb_true_iff in Hl as [Hl _].
  apply andb_true_iff in Hl as [Hl _]. apply negb_true_iff in Hl.
  rewrite (lines_line _ _ Hl), (IH H). reflexivity.
Qed.

Lemma scanTokens_plain (ls : list string) (stop : option error) :
  forallb plainLine ls = true -> scanTokens ls stop = (ls, stop, None).
Proof.
  induction ls as [|l ls IH]; [reflexivity|]. cbn [forallb scanTokens].
  intros H. apply andb_true_iff in H as [Hl H].
  unfold plainLine in Hl. apply andb_true_iff in Hl as [Hl Hshort].
  apply andb_true_iff in Hl as [_ Hcr].
  apply Z.ltb_lt in Hshort. apply String.eqb_eq in Hcr.
  destruct (MaxScanTokenSize <=? len l) eqn:E;
    [apply Z.leb_le in E; lia|].
  rewrite (IH H), Hcr. reflexivity.
Qed.

(** On a text of plain lines the scanner delivers these lines. *)
Lemma ParseStackFrame_unlines (newobject : nat -> Z) (ls : list string)
  (fl : option error) :
  forallb plainLine ls = true ->
  ParseStackFrame newobject (mkReader (unlines ls) fl)
  = parseScanner newobject (mkScanner ls EmptyString fl None).
Proof.
  intros H. unfold ParseStackFrame, NewScanner. cbn [content stop].
  rewrite (lines_unlines _ H), (scanTokens_plain _ _ H). reflexivity.
Qed.

(** A position line [<file>:<line>] whose line is no integer is
    rejected with an error. *)
Lemma bad_line_number_rejected (file ln : string) :
  occurs ":" ln = false -> occurs " " ln = false ->
  (forall n, ParseInt ln 10 32 <> inl n) ->
  posRejected (file ++ ":" ++ ln) = true.
Proof.
  intros Hc Hs Hbad. unfold posRejected.
  rewrite (parsePos_no_offset _ _ _ _ Hc Hs).
  destruct (ParseInt ln 10 32) as [n|e]; [now elim (Hbad n) | reflexivity].
Qed.

(** A position line that is not blank and has no colon makes
    [parseStackPos] slice it with the upper bound [-1]. *)
Lemma parsePos_no_colon (newobject : nat -> Z) (text : string) (k : nat) :
  (len text =? 0) = false -> occurs ":" text = false ->
  parsePos newobject text k = Panic (SliceBounds 0 (-1) (len text)).
Proof.
  intros Hlen Hc. unfold parsePos. rewrite Hlen.
  rewrite (LastIndex_absent _ _ Hc). reflexivity.
Qed.

(** ** The scanner's final error *)

Section Failure.
Variable newobject : nat -> Z.


Lemma Scan_failure (fl : option error) (sc : Scanner) :
  Scan (mkScanner (tokens sc) (token sc) fl (buffered sc))
  = (fst (Scan sc),
     mkScanner (tokens (snd (Scan sc))) (token (snd (Scan sc))) fl
               (buffered (snd (Scan sc)))).
Proof.
  unfold Scan. cbn [tokens token failure buffered].
  destruct (tokens sc) as [|t ts]; [destruct (buffered sc)|]; reflexivity.
Qed.

(** The parser never looks at the scanner's error before the end. *)
Lemma parseStackPos_failure (fl : option error) (st : state) :
  parseStackPos newobject (setFailure fl st)
  = match parseStackPos newobject st with
    | Ret (res, st') => Ret (res, setFailure fl st')
    | Panic p => Panic p
    end.
Proof.
  unfold parseStackPos. cbn [setFailure scanner allocated].
  rewrite Scan_failure.
  destruct (Scan (scanner st)) as [[|] sc]; cbn [fst snd negb];
    [|reflexivity].
  unfold Text. cbn [token].
  destruct (parsePos newobject _ _) as [[res k]|]; reflexivity.
Qed.

Lemma scanBlock_failure (fl : option error) (fuel : nat) :
  forall st routine,
  scanBlock newobject fuel (setFailure fl st) routine
  = match scanBlock newobject fuel st routine with
    | Some (Ret (routine', st')) => Some (Ret (routine', setFailure fl st'))
    | other => other
    end.
Proof.
  induction fuel as [|fuel IH]; intros st routine; [reflexivity|].
  cbn [scanBlock]. cbn [setFailure scanner allocated].
  rewrite Scan_failure.
  destruct (Scan (scanner st)) as [[|] sc]; cbn [fst snd negb];
    [|reflexivity].
  unfold Text. cbn [token].
  destruct (len (token sc) =? 0); [reflexivity|].
  change (mkState (mkScanner (tokens sc) (token sc) fl (buffered sc))
                  (allocated st))
    with (setFailure fl (mkState sc (allocated st))).
  rewrite parseStackPos_failure.
  destruct (HasPrefix (token sc) "created by ");
    destruct (parseStackPos newobject _) as [[[[[file line] pos]|e] st2]|];
    try reflexivity; try apply IH.
  destruct (slice _ _ _); [apply IH | reflexivity].
Qed.

Lemma scanRoutines_failure (fl : option error) (fuel : nat) :
  forall st routines,
  scanRoutines newobject fuel (setFailure fl st) routines
  = match scanRoutines newobject fuel st routines with
    | Some (Ret (rs, st')) => Some (Ret (rs, setFailure fl st'))
    | other => other
    end.
Proof.
  induction fuel as [|fuel IH]; intros st routines; [reflexivity|].
  cbn [scanRoutines]. cbn [setFailure scanner allocated].
  rewrite Scan_failure.
  destruct (Scan (scanner st)) as [[|] sc]; cbn [fst snd negb];
    [|reflexivity].
  unfold Text. cbn [token].
  change (mkState (mkScanner (tokens sc) (token sc) fl (buffered sc))
                  (allocated st))
    with (setFailure fl (mkState sc (allocated st))).
  destruct (parseHeader (token sc)) as [[routine|e]|];
    [|apply IH|reflexivity].
  rewrite scanBlock_failure.
  destruct (scanBlock _ _ _ _) as [[[routine' st2]|p]|];
    [apply IH | reflexivity | reflexivity].
Qed.

(** The result on a scanner that ends with an error, from the result on
    the same tokens followed by a clean end. *)
Lemma parseScanner_failure (ts : list string) (tok : string) (e : error)
  (b : option string) :
  parseScanner newobject (mkScanner ts tok (Some e) b)
  = match parseScanner newobject (mkScanner ts tok None b) with
    | Some (Ret (routines, _)) => Some (Ret (routines, Some e))
    | other => other
    end.
Proof.
  unfold parseScanner. cbn [tokens].
  change (mkState (mkScanner ts tok (Some e) b) O)
    with (setFailure (Some e) (mkState (mkScanner ts tok None b) O)).
  rewrite scanRoutines_failure.
  destruct (scanRoutines _ _ _ _) as [[[rs st]|p]|];
    reflexivity.
Qed.

Lemma parseScanner_clean (sc : Scanner) (rs : list Goroutine)
  (e : option error) :
  parseScanner newobject sc = Some (Ret (rs, e)) -> e = failure sc.
Proof.
  unfold parseScanner.
  destruct (scanRoutines_total newobject (List.length (tokens sc) + 3)
              (mkState sc O) []) as [x [Hx Hpost]];
    [cbn [scanner]; destruct (buffered sc); lia|].
  rewrite Hx. destruct x as [[rs' st]|p]; [|discriminate].
  intros [= _ <-]. exact Hpost.
Qed.

End Failure.

Lemma scanTokens_stop (ls : list string) (e : error) :
  scanTokens ls (Some e)
  = let '(ts, fl, b) := scanTokens ls None in
    (ts, match fl with None => Some e | Some x => Some x end, b).
Proof.
  induction ls as [|l ls IH]; [reflexivity|]. cbn [scanTokens].
  destruct (MaxScanTokenSize <=? len l); [reflexivity|].
  rewrite IH. destruct (scanTokens ls None) as [[ts fl] b]. reflexivity.
Qed.

(** ** Qualifiers *)

Lemma scan_step_minutes (q n : string) (m : Z) (quals : list string)
  (w : Z) (l : bool) :
  Trim q " " = n ++ " minutes" -> ParseInt n 10 64 = inl m ->
  scanQualifiers (q :: quals) w l = scanQualifiers quals m l.
Proof.
  intros Hq Hn. cbn [scanQualifiers]. rewrite Hq.
  replace (n ++ " minutes") with ((n ++ " ") ++ "minutes")
    by (rewrite app_assoc_s; reflexivity).
  rewrite HasSuffix_app.
  replace ((n ++ " ") ++ "minutes") with (n ++ String " " "minutes")
    by (rewrite app_assoc_s; reflexivity).
  rewrite Index_first by exact (no_space _ _ _ _ Hn).
  rewrite slice_prefix by reflexivity. cbn [bind]. rewrite Hn. reflexivity.
Qed.

Lemma scan_step_locked (q : string) (quals : list string) (w : Z) (l : bool) :
  Trim q " " = "locked to thread" ->
  scanQualifiers (q :: quals) w l = scanQualifiers quals w true.
Proof. intros Hq. cbn [scanQualifiers]. rewrite Hq. reflexivity. Qed.

Lemma scan_no_minutes (quals : list string) :
  forall (w : Z) (l : bool),
  noMinutes quals = true ->
  exists l', scanQualifiers quals w l = Ret (Ok (w, l')).
Proof.
  induction quals as [|q quals IH]; intros w l H.
  - exists l. reflexivity.
  - cbn [noMinutes forallb] in H. apply andb_true_iff in H as [Hq H].
    apply negb_true_iff in Hq. cbn [scanQualifiers]. rewrite Hq.
    destruct (String.eqb _ _); apply IH; exact H.
Qed.

Lemma scan_locked_sticky (quals : list string) :
  forall (w w' : Z) (l' : bool),
  scanQualifiers quals w true = Ret (Ok (w', l')) -> l' = true.
Proof.
  induction quals as [|q quals IH]; intros w w' l' H.
  - now injection H as _ <-.
  - cbn [scanQualifiers] in H.
    destruct (HasSuffix (Trim q " ") "minutes").
    + destruct (slice _ _ _) as [minStr|]; cbn [bind] in H; [|discriminate].
      destruct (ParseInt minStr 10 64); [|discriminate]. now apply IH in H.
    + destruct (String.eqb _ _); now apply IH in H.
Qed.

(** ** Rendering and search *)

Section Search.
Variable unicodeLower : string -> string.

(** What [StackContains] computes: some frame's lower-cased rendering
    contains the substring as it was passed. *)
Lemma StackContains_spec (sf : list StackFrame) (subString : string) :
  StackContains unicodeLower sf subString = true <->
  exists s, In s sf /\
    Contains (ToLower unicodeLower (StackFrame_String s)) subString = true.
Proof.
  induction sf as [|s sf IH]; cbn [StackContains].
  - split; [discriminate | intros [s [[] _]]].
  - destruct (Contains _ subString) eqn:E.
    + split; [|reflexivity]. intros _. exists s. split; [left|]; auto.
    + rewrite IH. split.
      * intros [s' [Hin Hc]]. exists s'. split; [right|]; auto.
      * intros [s' [[<-|Hin] Hc]]; [congruence|]. exists s'. auto.
Qed.

End Search.

(** The rendering of a frame with a position depends on the address of
    the position, not on the offset stored there. *)
Lemma String_ignores_offset (fn file : string) (line a v v' : Z) :
  StackFrame_String (mkFrame fn file line (Some (mkPtr a v)))
  = StackFrame_String (mkFrame fn file line (Some (mkPtr a v'))).
Proof. reflexivity. Qed.

(** [ParseStackFrame] returns on every input. *)
Lemma ParseStackFrame_total (newobject : nat -> Z) (reader : Reader) :
  ParseStackFrame newobject reader <> None.
Proof.
  unfold ParseStackFrame, parseScanner.
  destruct (scanRoutines_total newobject
              (List.length (tokens (NewScanner reader)) + 3)
              (mkState (NewScanner reader) O) []) as [x [Hx _]];
    [cbn [scanner]; destruct (buffered (NewScanner reader)); lia|].
  rewrite Hx. destruct x as [[rs st]|p]; discriminate.
Qed.

(** * The claims *)

(** ** Stream errors *)

(** C1, as stated, fails: on a reader that delivers two valid blocks and
    then fails, [ParseStackFrame] returns the read error together with
    the two records, not the error alone. *)
Lemma stream_error_returns_records :
  ParseStackFrame sampleAlloc twoBlocksThenError
  = Some (Ret ([ mkGoroutine 1 "running" 0
                   [mkFrame "main.main()" "/a/main.go" 5
                            (Some (mkPtr (sampleAlloc 0) 29))]
                   None false;
                 mkGoroutine 2 "sleep" 0
                   [mkFrame "main.work()" "/a/work.go" 9 None]
                   None false ],
               Some (ErrRead "connection reset by peer")))
  /\ ParseStackFrame sampleAlloc twoBlocksThenError
     <> Some (Ret ([], Some (ErrRead "connection reset by peer"))).
Proof. split; [vm_compute; reflexivity | vm_compute; discriminate]. Qed.

(** C1 (amended): for every input stream on which the underlying read
    fails, [ParseStackFrame] returns that error together with the records
    assembled from the bytes delivered before the failure: the very
    records it returns when the same bytes are followed by a clean end of
    input.  (When a line exceeds the scanner's buffer, the scanner's own
    error is returned in both cases; a panic is a panic in both.) *)
Theorem stream_error_with_records (newobject : nat -> Z) (data : string)
  (e : error) :
  ParseStackFrame newobject (mkReader data (Some e))
  = match ParseStackFrame newobject (mkReader data None) with
    | Some (Ret (routines, None)) => Some (Ret (routines, Some e))
    | other => other
    end.
Proof.
  unfold ParseStackFrame, NewScanner. cbn [content stop].
  rewrite scanTokens_stop.
  destruct (scanTokens (lines data) None) as [[ts [x|]] b].
  - destruct (parseScanner newobject (mkScanner ts "" (Some x) b))
      as [[[rs [y|]]|p]|] eqn:H; try reflexivity.
    apply parseScanner_clean in H. discriminate.
  - rewrite parseScanner_failure.
    destruct (parseScanner newobject (mkScanner ts "" None b))
      as [[[rs [y|]]|p]|] eqn:H; try reflexivity.
    apply parseScanner_clean in H. discriminate.
Qed.

(** ** Qualifiers of a header *)

(** C2, as stated, fails: the qualifier "x minutes" is neither an integer
    followed by "minutes" nor "locked to thread", and [parseHeader]
    returns an error for the header that carries it. *)
Lemma unparsable_minutes_is_an_error :
  (exists cause, ParseInt "x" 10 64 = inr cause)
  /\ "x minutes" <> "locked to thread"
  /\ parseHeader "goroutine 1 [running, x minutes]:"
     = Ret (Err (ErrMinutes (mkNumError "x" ErrSyntax))).
Proof.
  split; [eexists; reflexivity|]. split; [discriminate | reflexivity].
Qed.

(** C2 (amended): for every header whose bracketed clause contains a
    comma-separated qualifier that does not end in "minutes" and is not
    "locked to thread", [parseHeader] ignores that qualifier: the result is
    the one for the header without it, and when the other qualifiers are
    of the grammar the record is returned successfully. *)
Theorem other_qualifier_ignored (ids status q : string)
  (qs1 qs2 : list string) (id : Z) :
  ParseInt ids 10 64 = inl id ->
  commaFree (status :: qs1 ++ q :: qs2) = true ->
  HasSuffix (Trim q " ") "minutes" = false ->
  Trim q " " <> "locked to thread" ->
  parseHeader (headerText ids status (qs1 ++ q :: qs2))
  = parseHeader (headerText ids status (qs1 ++ qs2))
  /\ forall w l, qualifiers (qs1 ++ qs2) 0 false w l ->
       parseHeader (headerText ids status (qs1 ++ q :: qs2))
       = Ret (Ok (mkGoroutine id status w [] None l)).
Proof.
  intros Hid Hc Hs Hq.
  assert (commaFree (status :: qs1 ++ qs2) = true) as Hc'.
  { unfold commaFree in *. cbn [forallb] in *.
    apply andb_true_iff in Hc as [H0 Hc]. rewrite H0. cbn [andb].
    rewrite forallb_app in *. cbn [forallb] in Hc.
    apply andb_true_iff in Hc as [H1 Hc].
    apply andb_true_iff in Hc as [_ H2]. now rewrite H1, H2. }
  assert (parseHeader (headerText ids status (qs1 ++ q :: qs2))
          = parseHeader (headerText ids status (qs1 ++ qs2))) as Heq.
  { rewrite (parseHeader_text _ _ _ _ Hid Hc).
    rewrite (parseHeader_text _ _ _ _ Hid Hc').
    rewrite !scanQualifiers_app.
    destruct (scanQualifiers qs1 0 false) as [[[w1 l1]|e]|]; cbn [bind];
      try reflexivity.
    cbn [scanQualifiers]. rewrite Hs.
    apply String.eqb_neq in Hq. rewrite Hq. reflexivity. }
  split; [exact Heq|].
  intros w l H. rewrite Heq, (parseHeader_text _ _ _ _ Hid Hc').
  rewrite (scanQualifiers_sound _ _ _ _ _ H). reflexivity.
Qed.

Lemma other_qualifier_ignored_witness :
  ParseInt "12" 10 64 = inl 12
  /\ commaFree ["select"; " 5 minutes"; " no opinion"; " locked to thread"]
     = true
  /\ HasSuffix (Trim " no opinion" " ") "minutes" = false
  /\ Trim " no opinion" " " <> "locked to thread"
  /\ parseHeader
       "goroutine 12 [select, 5 minutes, no opinion, locked to thread]:"
     = parseHeader "goroutine 12 [select, 5 minutes, locked to thread]:"
  /\ parseHeader
       "goroutine 12 [select, 5 minutes, no opinion, locked to thread]:"
     = Ret (Ok (mkGoroutine 12 "select" 5 [] None true)).
Proof.
  assert (ParseInt "12" 10 64 = inl 12) as Hid by reflexivity.
  assert (commaFree ["select"; " 5 minutes"; " no opinion";
                     " locked to thread"] = true) as Hc by reflexivity.
  assert (HasSuffix (Trim " no opinion" " ") "minutes" = false) as Hs
    by reflexivity.
  assert (Trim " no opinion" " " <> "locked to thread") as Hq
    by (vm_compute; discriminate).
  destruct (other_qualifier_ignored "12" "select" " no opinion"
              [" 5 minutes"] [" locked to thread"] 12 Hid Hc Hs Hq)
    as [Heq Hok].
  split; [exact Hid|]. split; [exact Hc|]. split; [exact Hs|].
  split; [exact Hq|]. split; [exact Heq|].
  apply Hok.
  apply Q_minutes with (n := "5") (m := 5); [reflexivity | reflexivity |].
  apply Q_locked; [reflexivity|]. apply Q_done.
Defined.

(** ** Frame-level failures *)

(** C3 fails on the code: a position line without a colon is malformed
    (it is not of the form <file>:<line>), and on it [parseStackPos] does
    not return an error: it slices the line with the upper bound [-1] and
    panics, which unwinds [ParseStackFrame].  For every dump of
    well-formed blocks in which one block has exactly one such position
    line, all its other position lines being accepted, no record is
    returned at all: neither the block's own nor that of any other
    block. *)
Theorem malformed_position_line_panics (newobject : nat -> Z)
  (before after : list block) (hdr : string) (r0 : Goroutine)
  (pre post : list entry) (fn bad : string) (fl : option error) :
  forallb plainLine
    (dumpLines before
     ++ blockLines (mkBlock hdr (pre ++ (fn, bad) :: post))
     ++ dumpLines after) = true ->
  forallb wellFormed before = true ->
  forallb wellFormed after = true ->
  parseHeader hdr = Ret (Ok r0) ->
  forallb accepted (pre ++ post) = true ->
  (len fn =? 0) = false ->
  (len (TrimSpace bad) =? 0) = false ->
  occurs ":" (TrimSpace bad) = false ->
  ParseStackFrame newobject
    (mkReader
       (unlines (dumpLines before
                 ++ blockLines (mkBlock hdr (pre ++ (fn, bad) :: post))
                 ++ dumpLines after)) fl)
  = Some (Panic (SliceBounds 0 (-1) (len (TrimSpace bad)))).
Proof.
  intros Hplain Hb _ Hh Hes Hfn Hlen Hcolon.
  rewrite (ParseStackFrame_unlines _ _ _ Hplain). clear Hplain.
  set (p := SliceBounds 0 (-1) (len (TrimSpace bad))).
  set (rest := (EmptyString :: dumpLines after)%list).
  assert (forallb scannable pre = true) as Hpre.
  { apply scannable_accepted in Hes. rewrite forallb_app in Hes.
    now apply andb_true_iff in Hes as [Hes _]. }
  destruct (routines_blocks newobject before
              (blockLines (mkBlock hdr (pre ++ (fn, bad) :: post))
               ++ dumpLines after) EmptyString fl O [] Hb)
    as [rs [k1 [_ Hrun]]].
  destruct (scanBlock_entries newobject pre
              (fn :: bad :: entryLines post ++ rest) hdr fl k1
              (resetTrace r0) Hpre) as [r' [k' [_ [_ Hblock]]]].
  assert (scanBlock newobject 1
            (stateOf (fn :: bad :: entryLines post ++ rest) EmptyString fl k')
            r' = Some (Panic p)) as Hbad.
  { cbn [scanBlock stateOf scanner Scan tokens negb Text token allocated
         failure buffered].
    rewrite Hfn. unfold parseStackPos.
    cbn [scanner Scan tokens negb Text token allocated failure buffered].
    rewrite (parsePos_no_colon newobject _ _ Hlen Hcolon).
    destruct (HasPrefix fn "created by "); reflexivity. }
  rewrite <- (Hblock 1%nat EmptyString) in Hbad.
  destruct (Hrun (S (List.length pre + 1)) EmptyString (Panic p))
    as [fuel H].
  { unfold blockLines. cbn [header entries List.app].
    cbn [scanRoutines stateOf scanner Scan tokens negb Text token allocated
         failure buffered].
    rewrite Hh. unfold entryLines at 1. rewrite flat_map_app.
    cbn [flat_map fst snd List.app]. rewrite <- !app_assoc.
    cbn [List.app].
    unfold stateOf, rest, entryLines in Hbad. unfold entry in Hbad |- *.
    rewrite Hbad. reflexivity. }
  unfold stateOf in H.
  exact (parseScanner_fuel newobject _ _ _ H).
Qed.

Lemma malformed_position_line_panics_witness :
  forallb plainLine
    (dumpLines [blockMain]
     ++ blockLines
          (mkBlock "goroutine 2 [select]:"
             ([entryA] ++ ("main.b()", tab ++ "/a/b.go 7") :: [entryC]))
     ++ dumpLines [blockSleep]) = true
  /\ forallb wellFormed [blockMain] = true
  /\ forallb wellFormed [blockSleep] = true
  /\ parseHeader "goroutine 2 [select]:"
     = Ret (Ok (mkGoroutine 2 "select" 0 [] None false))
  /\ forallb accepted ([entryA] ++ [entryC]) = true
  /\ (len "main.b()" =? 0) = false
  /\ (len (TrimSpace (tab ++ "/a/b.go 7")) =? 0) = false
  /\ occurs ":" (TrimSpace (tab ++ "/a/b.go 7")) = false
  /\ ParseStackFrame sampleAlloc
       (mkReader
          ("goroutine 1 [running]:" ++ nl
           ++ "main.main()" ++ nl
           ++ tab ++ "/a/main.go:5 +0x1d" ++ nl
           ++ nl
           ++ "goroutine 2 [select]:" ++ nl
           ++ "main.a()" ++ nl
           ++ tab ++ "/a/a.go:1" ++ nl
           ++ "main.b()" ++ nl
           ++ tab ++ "/a/b.go 7" ++ nl
           ++ "main.c()" ++ nl
           ++ tab ++ "/a/c.go:3 +0x2f" ++ nl
           ++ nl
           ++ "goroutine 3 [sleep, 2 minutes]:" ++ nl
           ++ "time.Sleep(0x3b9aca00)" ++ nl
           ++ tab ++ "/go/src/runtime/time.go:195" ++ nl
           ++ "created by main.main" ++ nl
           ++ tab ++ "/a/main.go:9 +0x45" ++ nl
           ++ nl) None)
     = Some (Panic (SliceBounds 0 (-1) 9)).
Proof.
  assert (forallb plainLine
            (dumpLines [blockMain]
             ++ blockLines
                  (mkBlock "goroutine 2 [select]:"
                     ([entryA] ++ ("main.b()", tab ++ "/a/b.go 7")
                                  :: [entryC]))
             ++ dumpLines [blockSleep]) = true) as H0
    by (vm_compute; reflexivity).
  assert (forallb wellFormed [blockMain] = true) as H1
    by (vm_compute; reflexivity).
  assert (forallb wellFormed [blockSleep] = true) as H2
    by (vm_compute; reflexivity).
  assert (parseHeader "goroutine 2 [select]:"
          = Ret (Ok (mkGoroutine 2 "select" 0 [] None false))) as H3
    by (vm_compute; reflexivity).
  assert (forallb accepted ([entryA] ++ [entryC]) = true) as H4
    by (vm_compute; reflexivity).
  assert ((len "main.b()" =? 0) = false) as H5 by (vm_compute; reflexivity).
  assert ((len (TrimSpace (tab ++ "/a/b.go 7")) =? 0) = false) as H6
    by (vm_compute; reflexivity).
  assert (occurs ":" (TrimSpace (tab ++ "/a/b.go 7")) = false) as H7
    by (vm_compute; reflexivity).
  split; [exact H0|].
  split; [exact H1|]. split; [exact H2|]. split; [exact H3|].
  split; [exact H4|]. split; [exact H5|]. split; [exact H6|].
  split; [exact H7|].
  exact (malformed_position_line_panics sampleAlloc [blockMain] [blockSleep]
           "goroutine 2 [select]:" _ [entryA] [entryC] "main.b()"
           (tab ++ "/a/b.go 7") None H0 H1 H2 H3 H4 H5 H6 H7).
Defined.

(** ** Block-level failures *)

(** C4: for every input stream containing a block with a malformed header
    (fewer than 3 space-separated tokens, first token not the literal
    "goroutine", or a non-integer id), that block is dropped entirely and
    every subsequent well-formed block is still parsed and returned, with
    the returned records in the order their headers appeared.  The block
    stands between well-formed blocks, and none of its lines is a
    header. *)
Theorem malformed_header_block_dropped (newobject : nat -> Z)
  (before after : list block) (bad : string) (body : list string)
  (fl : option error) :
  forallb plainLine
    (dumpLines before ++ (bad :: body ++ [""]) ++ dumpLines after) = true ->
  forallb wellFormed before = true ->
  malformedHeader bad = true ->
  forallb malformedHeader body = true ->
  forallb wellFormed after = true ->
  exists rs,
    ParseStackFrame newobject
      (mkReader
         (unlines (dumpLines before ++ (bad :: body ++ [""])
                   ++ dumpLines after)) fl)
    = Some (Ret (rs, fl))
    /\ viewsOf rs = map blockView (before ++ after).
Proof.
  intros Hplain Hb Hbad Hbody Ha.
  rewrite (ParseStackFrame_unlines _ _ _ Hplain).
  destruct (parse_dump newobject before after (bad :: body ++ [""])
              EmptyString fl)
    as [rs [Hrun Hv]]; [exact Hb| |exact Ha|].
  { cbn [forallb]. rewrite Hbad, forallb_app, Hbody. reflexivity. }
  exists rs. split; [exact Hrun | now symmetry].
Qed.

Lemma malformed_header_block_dropped_witness :
  forallb plainLine
    (dumpLines [blockMain]
     ++ ("goroutine x7 [running]:"
         :: ["main.b(0x1, 0x2, 0x3)"; tab ++ "/a/b.go:7 +0x1f"] ++ [""])
     ++ dumpLines [blockSleep]) = true
  /\ forallb wellFormed [blockMain] = true
  /\ malformedHeader "goroutine x7 [running]:" = true
  /\ forallb malformedHeader
       ["main.b(0x1, 0x2, 0x3)"; tab ++ "/a/b.go:7 +0x1f"] = true
  /\ forallb wellFormed [blockSleep] = true
  /\ exists rs,
       ParseStackFrame sampleAlloc
         (mkReader
            (unlines
               (dumpLines [blockMain]
                ++ ("goroutine x7 [running]:"
                    :: ["main.b(0x1, 0x2, 0x3)"; tab ++ "/a/b.go:7 +0x1f"]
                    ++ [""])
                ++ dumpLines [blockSleep])) None)
       = Some (Ret (rs, None))
       /\ viewsOf rs = map blockView ([blockMain] ++ [blockSleep]).
Proof.
  assert (forallb plainLine
            (dumpLines [blockMain]
             ++ ("goroutine x7 [running]:"
                 :: ["main.b(0x1, 0x2, 0x3)"; tab ++ "/a/b.go:7 +0x1f"]
                 ++ [""])
             ++ dumpLines [blockSleep]) = true) as H0
    by (vm_compute; reflexivity).
  assert (forallb wellFormed [blockMain] = true) as H1
    by (vm_compute; reflexivity).
  assert (malformedHeader "goroutine x7 [running]:" = true) as H2
    by (vm_compute; reflexivity).
  assert (forallb malformedHeader
            ["main.b(0x1, 0x2, 0x3)"; tab ++ "/a/b.go:7 +0x1f"] = true) as H3
    by (vm_compute; reflexivity).
  assert (forallb wellFormed [blockSleep] = true) as H4
    by (vm_compute; reflexivity).
  split; [exact H0|].
  split; [exact H1|]. split; [exact H2|]. split; [exact H3|].
  split; [exact H4|].
  exact (malformed_header_block_dropped sampleAlloc [blockMain] [blockSleep]
           "goroutine x7 [running]:"
           ["main.b(0x1, 0x2, 0x3)"; tab ++ "/a/b.go:7 +0x1f"] None
           H0 H1 H2 H3 H4).
Defined.

(** ** Headers *)

(** C5, as stated, fails: the header below contains the qualifier
    "3 minutes", yet the record has [WaitSinceMin = 9]: every qualifier
    that ends in "minutes" overwrites the wait time, so the last one
    wins. *)
Lemma later_minutes_qualifier_wins :
  parseHeader "goroutine 7 [chan receive, 3 minutes, 9 minutes]:"
  = Ret (Ok (mkGoroutine 7 "chan receive" 9 [] None false))
  /\ forall newobject,
       ParseStackFrame newobject
         (mkReader ("goroutine 7 [chan receive, 3 minutes, 9 minutes]:"
                    ++ nl ++ nl) None)
       = Some (Ret ([mkGoroutine 7 "chan receive" 9 [] None false], None)).
Proof. split; [|intros newobject]; vm_compute; reflexivity. Qed.

(** C5 (amended): for every header [goroutine <id> [<status>,...]:] for
    which [parseHeader] returns a record: when it contains the qualifier
    "<N> minutes" (N a decimal integer) and no later qualifier ends in
    "minutes", the record has [WaitSinceMin = N]; when it contains the
    qualifier "locked to thread", the record has [LockedToThread = true];
    both can occur in one header, and the input
    "goroutine 7 [chan receive, 3 minutes, locked to thread]:\n\n" yields
    exactly one record with ID 7, status "chan receive", 3 minutes, locked
    to thread, and an empty trace.  The qualifiers are taken with their
    surrounding spaces removed, as the code takes them. *)
Theorem minutes_and_lock_qualifiers :
  (forall (ids status q : string) (qs1 qs2 : list string) (id : Z)
          (r : Goroutine),
     ParseInt ids 10 64 = inl id ->
     commaFree (status :: qs1 ++ q :: qs2) = true ->
     parseHeader (headerText ids status (qs1 ++ q :: qs2)) = Ret (Ok r) ->
     (forall n m, Trim q " " = n ++ " minutes" ->
                  ParseInt n 10 64 = inl m ->
                  noMinutes qs2 = true -> WaitSinceMin r = m)
     /\ (Trim q " " = "locked to thread" -> LockedToThread r = true))
  /\ (forall newobject,
        ParseStackFrame newobject
          (mkReader
             ("goroutine 7 [chan receive, 3 minutes, locked to thread]:"
              ++ nl ++ nl) None)
        = Some (Ret ([mkGoroutine 7 "chan receive" 3 [] None true], None))).
Proof.
  split; [|intros newobject; vm_compute; reflexivity].
  intros ids status q qs1 qs2 id r Hid Hc Hr.
  rewrite (parseHeader_text _ _ _ _ Hid Hc), scanQualifiers_app in Hr.
  destruct (scanQualifiers qs1 0 false) as [[[w1 l1]|e]|];
    cbn [bind] in Hr; try discriminate.
  split.
  - intros n m Hn Hm Hno.
    rewrite (scan_step_minutes _ _ _ _ _ _ Hn Hm) in Hr.
    destruct (scan_no_minutes qs2 m l1 Hno) as [l' Hl'].
    rewrite Hl' in Hr. cbn [bind] in Hr. now injection Hr as <-.
  - intros Hlock. rewrite (scan_step_locked _ _ _ _ Hlock) in Hr.
    destruct (scanQualifiers qs2 w1 true) as [[[w l]|e]|] eqn:Hscan;
      cbn [bind] in Hr; try discriminate.
    injection Hr as <-. cbn [LockedToThread].
    exact (scan_locked_sticky _ _ _ _ Hscan).
Qed.

Lemma minutes_and_lock_qualifiers_witness :
  ParseInt "7" 10 64 = inl 7
  /\ commaFree ["chan receive"; " 3 minutes"; " locked to thread"] = true
  /\ parseHeader "goroutine 7 [chan receive, 3 minutes, locked to thread]:"
     = Ret (Ok (mkGoroutine 7 "chan receive" 3 [] None true))
  /\ Trim " 3 minutes" " " = "3" ++ " minutes"
  /\ ParseInt "3" 10 64 = inl 3
  /\ noMinutes [" locked to thread"] = true
  /\ Trim " locked to thread" " " = "locked to thread"
  /\ WaitSinceMin (mkGoroutine 7 "chan receive" 3 [] None true) = 3
  /\ LockedToThread (mkGoroutine 7 "chan receive" 3 [] None true) = true.
Proof.
  assert (ParseInt "7" 10 64 = inl 7) as Hid by reflexivity.
  assert (commaFree ["chan receive"; " 3 minutes"; " locked to thread"]
          = true) as Hc by reflexivity.
  assert (parseHeader
            (headerText "7" "chan receive"
               [" 3 minutes"; " locked to thread"])
          = Ret (Ok (mkGoroutine 7 "chan receive" 3 [] None true))) as Hr
    by (vm_compute; reflexivity).
  assert (Trim " 3 minutes" " " = "3" ++ " minutes") as Hn by reflexivity.
  assert (ParseInt "3" 10 64 = inl 3) as Hm by reflexivity.
  assert (noMinutes [" locked to thread"] = true) as Hno by reflexivity.
  assert (Trim " locked to thread" " " = "locked to thread") as Hl
    by reflexivity.
  destruct minutes_and_lock_qualifiers as [Hgen _].
  destruct (Hgen "7" "chan receive" " 3 minutes" [] [" locked to thread"]
              7 _ Hid Hc Hr) as [Hw _].
  destruct (Hgen "7" "chan receive" " locked to thread" [" 3 minutes"] []
              7 _ Hid Hc Hr) as [_ Hlk].
  split; [exact Hid|]. split; [exact Hc|]. split; [exact Hr|].
  split; [exact Hn|]. split; [exact Hm|]. split; [exact Hno|].
  split; [exact Hl|].
  split; [exact (Hw "3" 3 Hn Hm Hno) | exact (Hlk Hl)].
Defined.

(** C6: for every well-formed single-block input (a header of the
    grammar, entries whose position lines are accepted, then a blank line
    or the end of the stream), [ParseStackFrame] returns exactly one
    record whose ID, Status, WaitSinceMin and LockedToThread match the
    header's literal content, with the trace its entries denote; in
    particular "goroutine 5 [running]:\nmain.foo\n\t/a/b.go:10 +0x1a\n\n"
    yields exactly one record with ID 5, status "running", no wait, not
    locked, and the single frame main.foo, /a/b.go, line 10, offset 0x1a. *)
Theorem single_block :
  (forall (newobject : nat -> Z) (ids status : string) (quals : list string)
          (id w : Z) (l : bool) (es : list entry) (tail : list string)
          (fl : option error),
     forallb plainLine
       (headerText ids status quals :: entryLines es ++ tail) = true ->
     ParseInt ids 10 64 = inl id ->
     commaFree (status :: quals) = true ->
     qualifiers quals 0 false w l ->
     forallb accepted es = true ->
     tail = [] \/ tail = [""] ->
     exists r,
       ParseStackFrame newobject
         (mkReader
            (unlines (headerText ids status quals :: entryLines es ++ tail))
            fl)
       = Some (Ret ([r], fl))
       /\ ID r = id /\ Status r = status /\ WaitSinceMin r = w
       /\ LockedToThread r = l
       /\ traceView r = entriesView es [] None)
  /\ (forall newobject,
        ParseStackFrame newobject
          (mkReader ("goroutine 5 [running]:" ++ nl ++ "main.foo" ++ nl
                     ++ tab ++ "/a/b.go:10 +0x1a" ++ nl ++ nl) None)
        = Some (Ret ([mkGoroutine 5 "running" 0
                        [mkFrame "main.foo" "/a/b.go" 10
                                 (Some (mkPtr (newobject O) 26))]
                        None false], None))).
Proof.
  split; [|intros newobject; vm_compute; reflexivity].
  intros newobject ids status quals id w l es tail fl
         Hplain Hid Hc Hq Hes Htail.
  rewrite (ParseStackFrame_unlines _ _ _ Hplain). clear Hplain.
  assert (parseHeader (headerText ids status quals)
          = Ret (Ok (mkGoroutine id status w [] None l))) as Hh.
  { rewrite (parseHeader_text _ _ _ _ Hid Hc).
    rewrite (scanQualifiers_sound _ _ _ _ _ Hq). reflexivity. }
  set (b := mkBlock (headerText ids status quals) es).
  assert (wellFormed b = true) as Hwf.
  { unfold wellFormed, b. cbn [header entries]. rewrite Hh.
    now apply scannable_accepted. }
  destruct (routines_block_closed newobject b tail [] EmptyString fl O [])
    as [r [k' [Hv Hrun]]]; [|exact Hwf|].
  { destruct Htail as [-> | ->]; [right | left]; auto. }
  destruct (Hrun 1%nat "" _ (routines_end newobject _ fl k' _))
    as [fuel H].
  unfold stateOf, b in H. cbn [header entries] in H.
  exists r. split.
  { rewrite (parseScanner_fuel newobject _ _ _ H). reflexivity. }
  destruct (blockView_fields _ _ _ _ Hh Hv) as [[H1 [H2 [H3 H4]]] Htrace].
  cbn [ID Status WaitSinceMin LockedToThread] in *. auto.
Qed.

Lemma single_block_witness :
  forallb plainLine
    (headerText "5" "running" []
     :: entryLines [("main.foo", tab ++ "/a/b.go:10 +0x1a")] ++ [""]) = true
  /\ ParseInt "5" 10 64 = inl 5
  /\ commaFree ["running"] = true
  /\ qualifiers [] 0 false 0 false
  /\ forallb accepted [("main.foo", tab ++ "/a/b.go:10 +0x1a")] = true
  /\ exists r,
       ParseStackFrame sampleAlloc
         (mkReader ("goroutine 5 [running]:" ++ nl ++ "main.foo" ++ nl
                    ++ tab ++ "/a/b.go:10 +0x1a" ++ nl ++ nl) None)
       = Some (Ret ([r], None))
       /\ ID r = 5 /\ Status r = "running" /\ WaitSinceMin r = 0
       /\ LockedToThread r = false
       /\ traceView r = ([("main.foo", "/a/b.go", 10, Some 26)], None).
Proof.
  assert (forallb plainLine
            (headerText "5" "running" []
             :: entryLines [("main.foo", tab ++ "/a/b.go:10 +0x1a")]
             ++ [""]) = true) as H0 by (vm_compute; reflexivity).
  assert (ParseInt "5" 10 64 = inl 5) as Hid by reflexivity.
  assert (commaFree ["running"] = true) as Hc by reflexivity.
  assert (forallb accepted [("main.foo", tab ++ "/a/b.go:10 +0x1a")] = true)
    as Hes by (vm_compute; reflexivity).
  split; [exact H0|].
  split; [exact Hid|]. split; [exact Hc|]. split; [apply Q_done|].
  split; [exact Hes|].
  destruct single_block as [Hgen _].
  exact (Hgen sampleAlloc "5" "running" [] 5 0 false
           [("main.foo", tab ++ "/a/b.go:10 +0x1a")] [""] None
           H0 Hid Hc (Q_done 0 false) Hes (or_intror eq_refl)).
Defined.

(** ** Position lines *)

(** C7: for every position line of the form "<file>:<line>" with no
    " +0x<hex>" suffix, [parseStackPos] returns a frame with [Position]
    absent (nil), and for every position line of the form
    "<file>:<line> +0x<hex>" it returns [Position] present and equal to
    the hex offset interpreted as an integer; the file is all that stands
    before the rightmost colon, so file paths containing colons are
    handled.  The forms are those of the line after [TrimSpace]. *)
Theorem position_line_forms (newobject : nat -> Z) (raw file ln : string)
  (n : Z) (rest : list string) (tok : string) (fl : option error) (k : nat) :
  ParseInt ln 10 32 = inl n ->
  (TrimSpace raw = file ++ ":" ++ ln ->
   parseStackPos newobject (stateOf (raw :: rest) tok fl k)
   = Ret (Ok (file, n, None), stateOf rest raw fl k))
  /\ (forall hex p,
        ParseInt hex 16 64 = inl p ->
        TrimSpace raw = file ++ ":" ++ ln ++ " +0x" ++ hex ->
        parseStackPos newobject (stateOf (raw :: rest) tok fl k)
        = Ret (Ok (file, n, Some (mkPtr (newobject k) p)),
               stateOf rest raw fl (S k))).
Proof.
  intros Hln. split.
  - intros Hraw. unfold parseStackPos.
    cbn [stateOf scanner Scan tokens negb Text token allocated
         failure buffered].
    rewrite Hraw, (parsePos_plain newobject _ _ _ _ Hln). reflexivity.
  - intros hex p Hhex Hraw. unfold parseStackPos.
    cbn [stateOf scanner Scan tokens negb Text token allocated
         failure buffered].
    rewrite Hraw, (parsePos_offset newobject _ _ _ _ _ _ Hln Hhex).
    reflexivity.
Qed.

Lemma position_line_forms_witness :
  ParseInt "2969" 10 32 = inl 2969
  /\ TrimSpace (tab ++ "C:/go/src/net/http/server.go:2969")
     = "C:/go/src/net/http/server.go" ++ ":" ++ "2969"
  /\ parseStackPos sampleAlloc
       (stateOf [tab ++ "C:/go/src/net/http/server.go:2969"] "" None 4)
     = Ret (Ok ("C:/go/src/net/http/server.go", 2969, None),
            stateOf [] (tab ++ "C:/go/src/net/http/server.go:2969") None 4)
  /\ ParseInt "970" 16 64 = inl 2416
  /\ TrimSpace (tab ++ "/usr/local/go/src/net/http/server.go:2969 +0x970")
     = "/usr/local/go/src/net/http/server.go" ++ ":" ++ "2969" ++ " +0x"
       ++ "970"
  /\ parseStackPos sampleAlloc
       (stateOf [tab ++ "/usr/local/go/src/net/http/server.go:2969 +0x970"]
                "" None 4)
     = Ret (Ok ("/usr/local/go/src/net/http/server.go", 2969,
                Some (mkPtr (sampleAlloc 4) 2416)),
            stateOf []
              (tab ++ "/usr/local/go/src/net/http/server.go:2969 +0x970")
              None 5).
Proof.
  assert (ParseInt "2969" 10 32 = inl 2969) as Hln by reflexivity.
  assert (TrimSpace (tab ++ "C:/go/src/net/http/server.go:2969")
          = "C:/go/src/net/http/server.go" ++ ":" ++ "2969") as H1
    by (vm_compute; reflexivity).
  assert (ParseInt "970" 16 64 = inl 2416) as Hhex by reflexivity.
  assert (TrimSpace
            (tab ++ "/usr/local/go/src/net/http/server.go:2969 +0x970")
          = "/usr/local/go/src/net/http/server.go" ++ ":" ++ "2969"
            ++ " +0x" ++ "970") as H2 by (vm_compute; reflexivity).
  split; [exact Hln|]. split; [exact H1|].
  split.
  { exact (proj1 (position_line_forms sampleAlloc
                    (tab ++ "C:/go/src/net/http/server.go:2969")
                    "C:/go/src/net/http/server.go" "2969" 2969 [] "" None 4
                    Hln) H1). }
  split; [exact Hhex|]. split; [exact H2|].
  exact (proj2 (position_line_forms sampleAlloc
                  (tab ++ "/usr/local/go/src/net/http/server.go:2969 +0x970")
                  "/usr/local/go/src/net/http/server.go" "2969" 2969 [] ""
                  None 4 Hln) "970" 2416 Hhex H2).
Defined.

(** ** Search and rendering *)

(** C8 fails on the code: the search lowers the rendering of each frame
    but not the substring, so a substring with an upper-case letter is
    never found.  For the frame of [main.Foo] in [/a/Server.go] and the
    substring "Server.go", the rendering contains the substring as it is,
    and also when both are lowered, yet [StackContains] returns false;
    with the substring "server.go" it returns true. *)
Theorem search_misses_upper_case (unicodeLower : string -> string) :
  Contains (StackFrame_String frameFoo) "Server.go" = true
  /\ Contains (ToLower unicodeLower (StackFrame_String frameFoo))
              (ToLower unicodeLower "Server.go") = true
  /\ StackContains unicodeLower [frameFoo] "Server.go" = false
  /\ StackContains unicodeLower [frameFoo] "server.go" = true
  /\ StackContains unicodeLower [] "server.go" = false.
Proof. repeat split; vm_compute; reflexivity. Qed.

(** C9 fails on the code: the verb [%x] is given the pointer [s.Position],
    not the integer it points to, so the text after "+0x" is the address
    of the position in hexadecimal ([0] for a nil pointer).  The frame
    whose position [0x1a] is stored at [0xc000014000] renders with
    [c000014000], not with [1a]. *)
Theorem rendering_prints_the_address :
  StackFrame_String frameAt1a
  = "main.foo" ++ nl ++ "   file:///a/b.go#10 +0xc000014000"
  /\ StackFrame_String frameAt1a
     <> "main.foo" ++ nl ++ "   file:///a/b.go#10 +0x1a"
  /\ StackFrame_String (mkFrame "main.foo" "/a/b.go" 10 None)
     = "main.foo" ++ nl ++ "   file:///a/b.go#10 +0x0".
Proof.
  split; [vm_compute; reflexivity|].
  split; [vm_compute; discriminate | vm_compute; reflexivity].
Qed.

(** ** Run-time faults *)

(** C10 fails on the code: a non-blank position line without a colon
    makes [parseStackPos] slice the line with upper bound [-1], and a
    qualifier that is the bare word "minutes" makes [parseHeader] do the
    same with the qualifier; both abort with a run-time panic, which
    unwinds [ParseStackFrame] as well. *)
Theorem helpers_panic (newobject : nat -> Z) :
  parseStackPos newobject (stateOf ["abc"] "" None O)
  = Panic (SliceBounds 0 (-1) 3)
  /\ parseHeader "goroutine 1 [running, minutes]:"
     = Panic (SliceBounds 0 (-1) 7)
  /\ ParseStackFrame newobject
       (mkReader ("goroutine 1 [running]:" ++ nl ++ "main.foo" ++ nl
                  ++ "abc" ++ nl ++ nl) None)
     = Some (Panic (SliceBounds 0 (-1) 3))
  /\ ParseStackFrame newobject
       (mkReader ("goroutine 1 [running, minutes]:" ++ nl ++ nl) None)
     = Some (Panic (SliceBounds 0 (-1) 7)).
Proof. repeat split; vm_compute; reflexivity. Qed.


(** * Further properties of the code *)

(** ** [StackContains] *)

Lemma HasPrefix_nil (s : string) : HasPrefix s "" = true.
Proof. destruct s; reflexivity. Qed.

Lemma Contains_empty (s : string) : Contains s "" = true.
Proof. unfold Contains. destruct s; reflexivity. Qed.

Lemma HasPrefix_occurs (c : ascii) (p : string) :
  forall s, HasPrefix s p = true -> occurs c p = true -> occurs c s = true.
Proof.
  induction p as [|d p IH]; intros s Hp Hc; [discriminate|].
  destruct s as [|x s]; [discriminate|]. cbn in Hp.
  apply andb_true_iff in Hp as [Hx Hp]. apply Ascii.eqb_eq in Hx. subst x.
  cbn [occurs] in *. apply orb_true_iff in Hc as [Hc|Hc].
  - rewrite Hc. reflexivity.
  - rewrite (IH s Hp Hc). apply orb_true_r.
Qed.

(** Every byte of a substring that is found occurs in the text. *)
Lemma Contains_occurs (c : ascii) (sub s : string) :
  Contains s sub = true -> occurs c sub = true -> occurs c s = true.
Proof.
  unfold Contains. intros H Hc. induction s as [|d s IH].
  - cbn [Index] in H. destruct (HasPrefix "" sub) eqn:Hp; [|discriminate].
    exact (HasPrefix_occurs c sub _ Hp Hc).
  - cbn [Index] in H. destruct (HasPrefix (String d s) sub) eqn:Hp.
    + exact (HasPrefix_occurs c sub _ Hp Hc).
    + destruct (Index s sub <? 0) eqn:E; [discriminate|].
      apply Z.ltb_ge in E. cbn [occurs]. rewrite IH; [apply orb_true_r|].
      apply Z.leb_le. exact E.
Qed.

Lemma lowerByte_not_upper (c : ascii) : isUpper (lowerByte c) = false.
Proof. destruct c as [[] [] [] [] [] [] [] []]; reflexivity. Qed.

Lemma lowered_no_upper (c : ascii) (s : string) :
  isUpper c = true -> occurs c (mapBytes lowerByte s) = false.
Proof.
  intros Hc. induction s as [|x s IH]; [reflexivity|].
  cbn [mapBytes occurs]. rewrite IH, orb_false_r.
  destruct (Ascii.eqb (lowerByte x) c) eqn:E; [|reflexivity].
  apply Ascii.eqb_eq in E. rewrite <- E, lowerByte_not_upper in Hc.
  discriminate.
Qed.

Lemma hasUpper_occurs (s : string) :
  hasUpper s = true -> exists c, isUpper c = true /\ occurs c s = true.
Proof.
  induction s as [|x s IH]; [discriminate|]. cbn [hasUpper].
  intros H. apply orb_true_iff in H as [H|H].
  - exists x. split; [exact H|]. cbn [occurs].
    now rewrite Ascii.eqb_refl.
  - destruct (IH H) as [c [Hc Ho]]. exists c. split; [exact Hc|].
    cbn [occurs]. rewrite Ho. apply orb_true_r.
Qed.

Lemma lowered_id (s : string) :
  hasUpper s = false -> mapBytes lowerByte s = s.
Proof.
  induction s as [|x s IH]; [reflexivity|]. cbn [hasUpper mapBytes].
  intros H. apply orb_false_iff in H as [Hx Hs]. rewrite (IH Hs).
  unfold lowerByte. unfold isUpper in Hx. cbv zeta in Hx. rewrite Hx.
  reflexivity.
Qed.

(** X1: searching a concatenation of two frame slices finds the
    substring exactly when the search of one of the two does: the answer
    does not depend on the order of the frames, nor on where a caller
    puts the "created by" frame. *)
Theorem search_over_append (unicodeLower : string -> string)
  (sf sf' : list StackFrame) (subString : string) :
  StackContains unicodeLower (sf ++ sf')%list subString
  = StackContains unicodeLower sf subString
    || StackContains unicodeLower sf' subString.
Proof.
  induction sf as [|s sf IH]; [reflexivity|].
  cbn [List.app StackContains].
  destruct (Contains _ subString); [reflexivity | exact IH].
Qed.

(** X2: with the empty substring, [StackContains] is true for every
    slice that has a frame and false for the empty slice. *)
Theorem search_empty_substring (unicodeLower : string -> string)
  (sf : list StackFrame) :
  StackContains unicodeLower sf "" = negb (Nat.eqb (List.length sf) 0).
Proof.
  destruct sf as [|s sf]; [reflexivity|].
  cbn [StackContains]. rewrite Contains_empty. reflexivity.
Qed.

(** X3: a substring with an upper-case ASCII letter is never found among
    frames that render as ASCII text, whatever the frames contain. *)
Theorem search_upper_case_never_found (unicodeLower : string -> string)
  (sf : list StackFrame) (subString : string) :
  asciiFrames sf = true ->
  hasUpper subString = true ->
  StackContains unicodeLower sf subString = false.
Proof.
  intros Hsf Hup. destruct (hasUpper_occurs _ Hup) as [c [Hc Ho]].
  induction sf as [|s sf IH]; [reflexivity|].
  cbn [asciiFrames forallb] in Hsf. apply andb_true_iff in Hsf as [Hs Hsf].
  cbn [StackContains]. unfold ToLower. rewrite Hs.
  destruct (Contains (mapBytes lowerByte (StackFrame_String s)) subString)
    eqn:E; [|exact (IH Hsf)].
  pose proof (Contains_occurs c _ _ E Ho) as H.
  rewrite (lowered_no_upper c _ Hc) in H. discriminate.
Qed.

Lemma search_upper_case_never_found_witness :
  asciiFrames [frameFoo; frameAt1a] = true
  /\ hasUpper "main.Foo" = true
  /\ StackContains (fun s => s) [frameFoo; frameAt1a] "main.Foo" = false.
Proof.
  assert (asciiFrames [frameFoo; frameAt1a] = true) as H1
    by (vm_compute; reflexivity).
  assert (hasUpper "main.Foo" = true) as H2 by reflexivity.
  split; [exact H1|]. split; [exact H2|].
  exact (search_upper_case_never_found (fun s => s) [frameFoo; frameAt1a]
           "main.Foo" H1 H2).
Defined.

(** X4: for an ASCII substring without upper-case letters the search is
    case-insensitive: it succeeds exactly when some frame's rendering
    contains the substring once both are lowered. *)
Theorem search_lower_case_insensitive (unicodeLower : string -> string)
  (sf : list StackFrame) (subString : string) :
  allASCII subString = true ->
  hasUpper subString = false ->
  StackContains unicodeLower sf subString = true <->
  exists s, In s sf /\
    Contains (ToLower unicodeLower (StackFrame_String s))
             (ToLower unicodeLower subString) = true.
Proof.
  intros Hascii Hlow.
  assert (ToLower unicodeLower subString = subString) as ->.
  { unfold ToLower. rewrite Hascii. now apply lowered_id. }
  induction sf as [|s sf IH]; cbn [StackContains].
  - split; [discriminate | intros [s [[] _]]].
  - destruct (Contains _ subString) eqn:E.
    + split; [|reflexivity]. intros _. exists s. split; [left|]; auto.
    + rewrite IH. split.
      * intros [s' [Hin Hc]]. exists s'. split; [right|]; auto.
      * intros [s' [[<-|Hin] Hc]]; [congruence|]. exists s'. auto.
Qed.

Lemma search_lower_case_insensitive_witness :
  allASCII "server.go" = true
  /\ hasUpper "server.go" = false
  /\ StackContains (fun s => s) [frameAt1a; frameFoo] "server.go" = true.
Proof.
  assert (allASCII "server.go" = true) as H1 by reflexivity.
  assert (hasUpper "server.go" = false) as H2 by reflexivity.
  split; [exact H1|]. split; [exact H2|].
  apply (proj2 (search_lower_case_insensitive (fun s => s)
                  [frameAt1a; frameFoo] "server.go" H1 H2)).
  exists frameFoo. split; [right; left; reflexivity|].
  vm_compute. reflexivity.
Defined.

(** ** One block *)

(** A well-formed block adds the record it denotes, whatever closes it,
    as long as the inner loop ends on what follows the entries. *)
Lemma routines_block_tail (newobject : nat -> Z) (b : block)
  (tail rest : list string) (tok : string) (fl : option error) (k : nat)
  (acc : list Goroutine) :
  (forall r k' tok', exists f,
      scanBlock newobject f (stateOf tail tok' fl k') r
      = Some (Ret (r, stateOf rest EmptyString fl k'))) ->
  wellFormed b = true ->
  exists r k',
    blockView b = Some (viewRecord r)
    /\ forall fuel tok' x,
        scanRoutines newobject fuel (stateOf rest tok' fl k') (acc ++ [r])
        = Some x ->
        exists fuel',
          scanRoutines newobject fuel'
            (stateOf (header b :: entryLines (entries b) ++ tail) tok fl k)
            acc
          = Some x.
Proof.
  intros Htail. unfold wellFormed, blockView.
  destruct (parseHeader (header b)) as [[r0|e]|] eqn:Hh; try discriminate.
  intros Hes.
  destruct (parseHeader_fresh _ _ Hh) as [Htrace Hcreated].
  destruct (scanBlock_entries newobject (entries b) tail
              (header b) fl k (resetTrace r0) Hes)
    as [r [k' [Hsame [Hview Hrun]]]].
  exists r, k'. split.
  - unfold traceView in Hview.
    cbn [resetTrace StackTrace CratedBy map fst snd] in Hview.
    rewrite Hcreated in Hview. cbn [option_map] in Hview.
    destruct (entriesView (entries b) [] None) as [trace created].
    injection Hview as Ht Hc.
    destruct Hsame as [Hid [Hst [Hw Hl]]].
    cbn [resetTrace ID Status WaitSinceMin LockedToThread] in *.
    unfold viewRecord. now rewrite Hid, Hst, Hw, Hl, Ht, Hc.
  - intros fuel tok' x Hx.
    destruct (Htail r k' EmptyString) as [f Hf].
    set (n := Nat.max (List.length (entries b) + f) fuel).
    exists (S n).
    cbn [scanRoutines stateOf scanner Scan tokens negb
         Text token allocated failure buffered].
    rewrite Hh.
    assert (scanBlock newobject n
              (stateOf (entryLines (entries b) ++ tail)
                       (header b) fl k) (resetTrace r0)
            = Some (Ret (r, stateOf rest EmptyString fl k'))) as Hb.
    { apply scanBlock_mono with (fuel := (List.length (entries b) + f)%nat);
        [|apply Nat.le_max_l].
      rewrite (Hrun f EmptyString). exact Hf. }
    unfold stateOf in Hb. rewrite Hb.
    apply scanRoutines_mono with (fuel := fuel); [|apply Nat.le_max_r].
    rewrite <- Hx. apply scanRoutines_token.
Qed.

(** A dump of one block: one record, with the header's fields and the
    trace of the entries. *)
Lemma block_alone (newobject : nat -> Z) (hdr : string) (r0 : Goroutine)
  (es : list entry) (tail : list string) (fl : option error) :
  (forall r k' tok', exists f,
      scanBlock newobject f (stateOf tail tok' fl k') r
      = Some (Ret (r, stateOf [] EmptyString fl k'))) ->
  forallb plainLine (hdr :: entryLines es ++ tail) = true ->
  parseHeader hdr = Ret (Ok r0) ->
  forallb scannable es = true ->
  exists r,
    ParseStackFrame newobject
      (mkReader (unlines (hdr :: entryLines es ++ tail)) fl)
    = Some (Ret ([r], fl))
    /\ sameHeader r0 r
    /\ traceView r = entriesView es [] None.
Proof.
  intros Htail Hplain Hh Hes.
  rewrite (ParseStackFrame_unlines _ _ _ Hplain).
  set (b := mkBlock hdr es).
  assert (wellFormed b = true) as Hwf.
  { unfold wellFormed, b. cbn [header entries]. now rewrite Hh. }
  destruct (routines_block_tail newobject b tail [] EmptyString fl O []
              Htail Hwf) as [r [k' [Hv Hrun]]].
  destruct (Hrun 1%nat EmptyString _ (routines_end newobject _ fl k' _))
    as [fuel H].
  unfold stateOf, b in H. cbn [header entries] in H.
  exists r. split.
  { rewrite (parseScanner_fuel newobject _ _ _ H). reflexivity. }
  exact (blockView_fields _ _ _ _ Hh Hv).
Qed.

Lemma tail_blank (newobject : nat -> Z) (fl : option error) :
  forall r k' tok', exists f,
    scanBlock newobject f (stateOf [EmptyString] tok' fl k') r
    = Some (Ret (r, stateOf [] EmptyString fl k')).
Proof. intros r k' tok'. exists 1%nat. reflexivity. Qed.

(** The stream ends after a function-name line: [parseStackPos] reports
    the end of the file, and the loop ends on the next [Scan]. *)
Lemma tail_truncated (newobject : nat -> Z) (fn : string)
  (fl : option error) :
  (len fn =? 0) = false ->
  forall r k' tok', exists f,
    scanBlock newobject f (stateOf [fn] tok' fl k') r
    = Some (Ret (r, stateOf [] EmptyString fl k')).
Proof.
  intros Hfn r k' tok'. exists 2%nat.
  cbn [scanBlock stateOf scanner Scan tokens negb Text token allocated
       failure buffered].
  rewrite Hfn. unfold parseStackPos.
  cbn [scanner Scan tokens negb Text token allocated failure buffered].
  destruct (HasPrefix fn "created by "); reflexivity.
Qed.

Lemma entriesView_app (a b : list entry) :
  forall trace created,
  entriesView (a ++ b) trace created
  = entriesView b (fst (entriesView a trace created))
                  (snd (entriesView a trace created)).
Proof.
  induction a as [|[fn pl] a IH]; intros trace created; [reflexivity|].
  cbn [List.app entriesView].
  destruct (posFields (TrimSpace pl)) as [[[file line] pos]|]; [|apply IH].
  destruct (HasPrefix fn "created by "); apply IH.
Qed.

Lemma entriesView_plain (es : list entry) :
  forall trace created,
  forallb plainEntry es = true ->
  exists fs,
    entriesView es trace created = ((trace ++ fs)%list, created)
    /\ map (fun v : frameView => fst (fst (fst v))) fs = map fst es.
Proof.
  induction es as [|[fn pl] es IH]; intros trace created H.
  - exists []. now rewrite app_nil_r.
  - cbn [forallb] in H. apply andb_true_iff in H as [He H].
    unfold plainEntry, accepted in He. cbn [fst snd] in He.
    apply andb_true_iff in He as [He Hcb].
    apply andb_true_iff in He as [_ He]. apply negb_true_iff in Hcb.
    cbn [entriesView]. rewrite Hcb.
    destruct (posFields (TrimSpace pl)) as [[[file line] pos]|];
      [|discriminate].
    destruct (IH (trace ++ [(fn, file, line, pos)])%list created H)
      as [fs [Hfs Hnames]].
    exists ((fn, file, line, pos) :: fs). split.
    + rewrite Hfs, <- app_assoc. reflexivity.
    + cbn [map fst]. now rewrite Hnames.
Qed.

Lemma entriesView_no_creator (es : list entry) :
  forall trace created,
  forallb (fun e => negb (HasPrefix (fst e) "created by ")) es = true ->
  snd (entriesView es trace created) = created.
Proof.
  induction es as [|[fn pl] es IH]; intros trace created H; [reflexivity|].
  cbn [forallb fst] in H. apply andb_true_iff in H as [Hcb H].
  apply negb_true_iff in Hcb. cbn [entriesView]. rewrite Hcb.
  destruct (posFields (TrimSpace pl)) as [[[file line] pos]|];
    now apply IH.
Qed.

Lemma scannable_plain (es : list entry) :
  forallb plainEntry es = true -> forallb scannable es = true.
Proof.
  intros H. apply scannable_accepted.
  induction es as [|e es IH]; [reflexivity|]. cbn [forallb] in *.
  apply andb_true_iff in H as [He H]. rewrite (IH H), andb_true_r.
  unfold plainEntry in He. now apply andb_true_iff in He as [He _].
Qed.

(** X5: the frames of a record stand in the order in which their
    function-name lines appeared in the block, one frame per entry,
    none left out, none repeated; such a block has no creator. *)
Theorem trace_in_source_order (newobject : nat -> Z) (hdr : string)
  (r0 : Goroutine) (es : list entry) (fl : option error) :
  forallb plainLine (hdr :: entryLines es ++ [""]) = true ->
  parseHeader hdr = Ret (Ok r0) ->
  forallb plainEntry es = true ->
  exists r,
    ParseStackFrame newobject
      (mkReader (unlines (hdr :: entryLines es ++ [""])) fl)
    = Some (Ret ([r], fl))
    /\ map FuncName (StackTrace r) = map fst es
    /\ CratedBy r = None.
Proof.
  intros Hplain Hh Hes.
  destruct (block_alone newobject hdr r0 es [""] fl (tail_blank _ _)
              Hplain Hh (scannable_plain _ Hes)) as [r [Hrun [_ Hv]]].
  exists r. split; [exact Hrun|].
  destruct (entriesView_plain es [] None Hes) as [fs [Hfs Hnames]].
  rewrite Hfs in Hv. unfold traceView in Hv. cbn [List.app] in Hv.
  injection Hv as Ht Hc. split.
  - rewrite <- Hnames, <- Ht, map_map. reflexivity.
  - destruct (CratedBy r); [discriminate | reflexivity].
Qed.

Lemma trace_in_source_order_witness :
  forallb plainLine
    ("goroutine 9 [select]:" :: entryLines [entryC; entryA; entryC] ++ [""])
  = true
  /\ parseHeader "goroutine 9 [select]:"
     = Ret (Ok (mkGoroutine 9 "select" 0 [] None false))
  /\ forallb plainEntry [entryC; entryA; entryC] = true
  /\ exists r,
       ParseStackFrame sampleAlloc
         (mkReader
            (unlines ("goroutine 9 [select]:"
                      :: entryLines [entryC; entryA; entryC] ++ [""]))
            None)
       = Some (Ret ([r], None))
       /\ map FuncName (StackTrace r) = ["main.c()"; "main.a()"; "main.c()"]
       /\ CratedBy r = None.
Proof.
  assert (forallb plainLine
            ("goroutine 9 [select]:"
             :: entryLines [entryC; entryA; entryC] ++ [""]) = true) as H0
    by (vm_compute; reflexivity).
  assert (parseHeader "goroutine 9 [select]:"
          = Ret (Ok (mkGoroutine 9 "select" 0 [] None false))) as H1
    by (vm_compute; reflexivity).
  assert (forallb plainEntry [entryC; entryA; entryC] = true) as H2
    by (vm_compute; reflexivity).
  split; [exact H0|]. split; [exact H1|]. split; [exact H2|].
  exact (trace_in_source_order sampleAlloc "goroutine 9 [select]:" _
           [entryC; entryA; entryC] None H0 H1 H2).
Defined.

(** X6: when a block has several "created by" entries, the record keeps
    the last accepted one: an accepted "created by" entry followed by no
    other becomes [CratedBy], whatever stands before it. *)
Theorem created_by_last_wins (newobject : nat -> Z) (hdr : string)
  (r0 : Goroutine) (pre post : list entry) (fn pl file : string)
  (line : Z) (pos : option Z) (fl : option error) :
  forallb plainLine
    (hdr :: entryLines (pre ++ (fn, pl) :: post) ++ [""]) = true ->
  parseHeader hdr = Ret (Ok r0) ->
  forallb scannable (pre ++ (fn, pl) :: post) = true ->
  HasPrefix fn "created by " = true ->
  posFields (TrimSpace pl) = Some (file, line, pos) ->
  forallb (fun e => negb (HasPrefix (fst e) "created by ")) post = true ->
  exists r,
    ParseStackFrame newobject
      (mkReader
         (unlines (hdr :: entryLines (pre ++ (fn, pl) :: post) ++ [""])) fl)
    = Some (Ret ([r], fl))
    /\ option_map viewFrame (CratedBy r)
       = Some (skip 11 fn, file, line, pos).
Proof.
  intros Hplain Hh Hes Hcb Hpl Hpost.
  destruct (block_alone newobject hdr r0 _ [""] fl (tail_blank _ _)
              Hplain Hh Hes) as [r [Hrun [_ Hv]]].
  exists r. split; [exact Hrun|].
  unfold traceView in Hv. apply (f_equal snd) in Hv. cbn [snd] in Hv.
  rewrite Hv, entriesView_app. cbn [entriesView]. rewrite Hpl, Hcb.
  now apply entriesView_no_creator.
Qed.

Lemma created_by_last_wins_witness :
  forallb plainLine
    ("goroutine 9 [select]:"
     :: entryLines ([("created by main.first", tab ++ "/a/first.go:1")]
                    ++ ("created by main.second", tab ++ "/a/second.go:2")
                    :: [entryA]) ++ [""]) = true
  /\ parseHeader "goroutine 9 [select]:"
     = Ret (Ok (mkGoroutine 9 "select" 0 [] None false))
  /\ forallb scannable
       ([("created by main.first", tab ++ "/a/first.go:1")]
        ++ ("created by main.second", tab ++ "/a/second.go:2") :: [entryA])
     = true
  /\ HasPrefix "created by main.second" "created by " = true
  /\ posFields (TrimSpace (tab ++ "/a/second.go:2"))
     = Some ("/a/second.go", 2, None)
  /\ forallb (fun e => negb (HasPrefix (fst e) "created by ")) [entryA]
     = true
  /\ exists r,
       ParseStackFrame sampleAlloc
         (mkReader
            (unlines
               ("goroutine 9 [select]:"
                :: entryLines
                     ([("created by main.first", tab ++ "/a/first.go:1")]
                      ++ ("created by main.second", tab ++ "/a/second.go:2")
                      :: [entryA]) ++ [""])) None)
       = Some (Ret ([r], None))
       /\ option_map viewFrame (CratedBy r)
          = Some (skip 11 "created by main.second", "/a/second.go", 2, None).
Proof.
  assert (forallb plainLine
            ("goroutine 9 [select]:"
             :: entryLines
                  ([("created by main.first", tab ++ "/a/first.go:1")]
                   ++ ("created by main.second", tab ++ "/a/second.go:2")
                   :: [entryA]) ++ [""]) = true) as H0
    by (vm_compute; reflexivity).
  assert (parseHeader "goroutine 9 [select]:"
          = Ret (Ok (mkGoroutine 9 "select" 0 [] None false))) as H1
    by (vm_compute; reflexivity).
  assert (forallb scannable
            ([("created by main.first", tab ++ "/a/first.go:1")]
             ++ ("created by main.second", tab ++ "/a/second.go:2")
             :: [entryA]) = true) as H2 by (vm_compute; reflexivity).
  assert (HasPrefix "created by main.second" "created by " = true) as H3
    by reflexivity.
  assert (posFields (TrimSpace (tab ++ "/a/second.go:2"))
          = Some ("/a/second.go", 2, None)) as H4
    by (vm_compute; reflexivity).
  assert (forallb (fun e => negb (HasPrefix (fst e) "created by ")) [entryA]
          = true) as H5 by reflexivity.
  split; [exact H0|]. split; [exact H1|]. split; [exact H2|].
  split; [exact H3|]. split; [exact H4|]. split; [exact H5|].
  exact (created_by_last_wins sampleAlloc "goroutine 9 [select]:" _
           [("created by main.first", tab ++ "/a/first.go:1")] [entryA]
           "created by main.second" (tab ++ "/a/second.go:2")
           "/a/second.go" 2 None None H0 H1 H2 H3 H4 H5).
Defined.

(** X7: when the stream ends right after a function-name line, where a
    position line is still expected, only that frame is lost: the record
    of the block is returned with the frames read before, and without
    an error. *)
Theorem truncated_block_survives (newobject : nat -> Z) (hdr : string)
  (r0 : Goroutine) (es : list entry) (fn : string) (fl : option error) :
  forallb plainLine (hdr :: entryLines es ++ [fn]) = true ->
  parseHeader hdr = Ret (Ok r0) ->
  forallb scannable es = true ->
  (len fn =? 0) = false ->
  exists r,
    ParseStackFrame newobject
      (mkReader (unlines (hdr :: entryLines es ++ [fn])) fl)
    = Some (Ret ([r], fl))
    /\ sameHeader r0 r
    /\ traceView r = entriesView es [] None.
Proof.
  intros Hplain Hh Hes Hfn.
  exact (block_alone newobject hdr r0 es [fn] fl
           (tail_truncated newobject fn fl Hfn) Hplain Hh Hes).
Qed.

Lemma truncated_block_survives_witness :
  forallb plainLine
    ("goroutine 9 [select]:" :: entryLines [entryA; entryC] ++ ["main.d()"])
  = true
  /\ parseHeader "goroutine 9 [select]:"
     = Ret (Ok (mkGoroutine 9 "select" 0 [] None false))
  /\ forallb scannable [entryA; entryC] = true
  /\ (len "main.d()" =? 0) = false
  /\ exists r,
       ParseStackFrame sampleAlloc
         (mkReader
            (unlines ("goroutine 9 [select]:"
                      :: entryLines [entryA; entryC] ++ ["main.d()"])) None)
       = Some (Ret ([r], None))
       /\ sameHeader (mkGoroutine 9 "select" 0 [] None false) r
       /\ traceView r = entriesView [entryA; entryC] [] None.
Proof.
  assert (forallb plainLine
            ("goroutine 9 [select]:"
             :: entryLines [entryA; entryC] ++ ["main.d()"]) = true) as H0
    by (vm_compute; reflexivity).
  assert (parseHeader "goroutine 9 [select]:"
          = Ret (Ok (mkGoroutine 9 "select" 0 [] None false))) as H1
    by (vm_compute; reflexivity).
  assert (forallb scannable [entryA; entryC] = true) as H2
    by (vm_compute; reflexivity).
  assert ((len "main.d()" =? 0) = false) as H3 by reflexivity.
  split; [exact H0|]. split; [exact H1|]. split; [exact H2|].
  split; [exact H3|].
  exact (truncated_block_survives sampleAlloc "goroutine 9 [select]:" _
           [entryA; entryC] "main.d()" None H0 H1 H2 H3).
Defined.

(** ** Faults of [parseStackPos] *)

Lemma LastIndex_ge (c : ascii) (s : string) :
  -1 <= LastIndex s (String c "").
Proof.
  induction s as [|d s IH]; [cbn; lia|].
  cbn [LastIndex]. rewrite HasPrefix_byte.
  destruct (0 <=? LastIndex s (String c "")) eqn:E.
  - apply Z.leb_le in E. lia.
  - destruct (Ascii.eqb d c); lia.
Qed.

Lemma LastIndex_found (c : ascii) (s : string) :
  occurs c s = true -> 0 <= LastIndex s (String c "").
Proof.
  induction s as [|d s IH]; [discriminate|]. cbn [occurs LastIndex].
  rewrite HasPrefix_byte. intros H.
  destruct (0 <=? LastIndex s (String c "")) eqn:E.
  - apply Z.leb_le in E. lia.
  - apply Z.leb_gt in E. destruct (Ascii.eqb d c); [lia|].
    cbn [orb] in H. apply IH in H. lia.
Qed.

(** X8: [parseStackPos] panics on exactly two kinds of lines: a line
    that, trimmed, is not empty and has no colon, and a line whose last
    space comes after the byte that follows the last colon and has fewer
    than three bytes after it.  On every other line it returns. *)
Theorem parseStackPos_panics_iff (newobject : nat -> Z) (raw : string)
  (rest : list string) (tok : string) (fl : option error) (k : nat) :
  (exists p,
     parseStackPos newobject (stateOf (raw :: rest) tok fl k) = Panic p)
  <->
  len (TrimSpace raw) <> 0
  /\ (occurs ":" (TrimSpace raw) = false
      \/ (LastIndex (TrimSpace raw) ":" + 1 < LastIndex (TrimSpace raw) " "
          /\ len (TrimSpace raw) < LastIndex (TrimSpace raw) " " + 4)).
Proof.
  unfold parseStackPos.
  cbn [stateOf scanner Scan tokens negb Text token allocated failure buffered].
  set (text := TrimSpace raw).
  pose proof (LastIndex_ge ":" text) as Hc1.
  pose proof (LastIndex_lt ":" text) as Hc2.
  pose proof (LastIndex_ge " " text) as Hs1.
  pose proof (LastIndex_lt " " text) as Hs2.
  unfold parsePos.
  destruct (len text =? 0) eqn:Hlen.
  { apply Z.eqb_eq in Hlen. cbn [bind]. split.
    - intros [p Hp]. discriminate.
    - intros [Hne _]. contradiction. }
  apply Z.eqb_neq in Hlen.
  destruct (occurs ":" text) eqn:Hocc.
  2:{ rewrite (LastIndex_absent _ _ Hocc). cbn [slice].
      split; [intros _; split; [exact Hlen | left; reflexivity]|].
      intros _. eexists. reflexivity. }
  apply LastIndex_found in Hocc.
  unfold slice at 1.
  replace ((0 <=? 0) && (0 <=? LastIndex text ":")
           && (LastIndex text ":" <=? len text)) with true
    by (symmetry; rewrite !andb_true_iff, !Z.leb_le; lia).
  cbn [bind].
  destruct (LastIndex text " " <=? LastIndex text ":" + 1) eqn:Hcmp.
  - apply Z.leb_le in Hcmp. unfold slice.
    replace ((0 <=? LastIndex text ":" + 1)
             && (LastIndex text ":" + 1 <=? len text)
             && (len text <=? len text)) with true
      by (symmetry; rewrite !andb_true_iff, !Z.leb_le; lia).
    cbn [bind]. split.
    + intros [p Hp]. destruct (ParseInt _ 10 32); discriminate.
    + intros [_ [H|[H _]]]; [discriminate | lia].
  - apply Z.leb_gt in Hcmp. unfold slice at 1.
    destruct ((0 <=? LastIndex text " " + 4)
              && (LastIndex text " " + 4 <=? len text)
              && (len text <=? len text)) eqn:Hb.
    + apply andb_true_iff in Hb as [Hb _].
      apply andb_true_iff in Hb as [_ Hb]. apply Z.leb_le in Hb.
      cbn [bind]. split.
      * intros [p Hp]. destruct (ParseInt _ 16 64); [|discriminate].
        unfold slice in Hp.
        replace ((0 <=? LastIndex text ":" + 1)
                 && (LastIndex text ":" + 1 <=? LastIndex text " ")
                 && (LastIndex text " " <=? len text)) with true in Hp
          by (symmetry; rewrite !andb_true_iff, !Z.leb_le; lia).
        cbn [bind] in Hp. destruct (ParseInt _ 10 32); discriminate.
      * intros [_ [H|[_ H]]]; [discriminate | lia].
    + cbn [bind]. split; [|intros _; eexists; reflexivity].
      intros _. split; [exact Hlen|]. right. split; [lia|].
      apply andb_false_iff in Hb as [Hb|Hb];
        [|apply Z.leb_gt in Hb; lia].
      apply andb_false_iff in Hb as [Hb|Hb]; apply Z.leb_gt in Hb; lia.
Qed.

(** X9: a function-name line followed by the blank line that ends its
    block has its position line missing: the blank line is read in its
    place, the block does not end, and the header of the next block is
    read as a function name.  When the line after that header has no
    colon, as function-name lines have none, [ParseStackFrame] panics. *)
Theorem missing_position_line_crashes (newobject : nat -> Z)
  (hdr fn next fn2 : string) (r0 : Goroutine) (rest : list string)
  (fl : option error) :
  forallb plainLine (hdr :: fn :: "" :: next :: fn2 :: rest) = true ->
  parseHeader hdr = Ret (Ok r0) ->
  (len fn =? 0) = false ->
  (len next =? 0) = false ->
  (len (TrimSpace fn2) =? 0) = false ->
  occurs ":" (TrimSpace fn2) = false ->
  ParseStackFrame newobject
    (mkReader (unlines (hdr :: fn :: "" :: next :: fn2 :: rest)) fl)
  = Some (Panic (SliceBounds 0 (-1) (len (TrimSpace fn2)))).
Proof.
  intros Hplain Hh Hfn Hnext Hlen Hcolon.
  rewrite (ParseStackFrame_unlines _ _ _ Hplain).
  assert (parseStackPos newobject
            (mkState (mkScanner (fn2 :: rest) next fl None) O)
          = Panic (SliceBounds 0 (-1) (len (TrimSpace fn2)))) as Hpos.
  { unfold parseStackPos.
    cbn [scanner Scan tokens negb Text token allocated failure buffered].
    rewrite (parsePos_no_colon newobject _ _ Hlen Hcolon). reflexivity. }
  assert (scanBlock newobject 1
            (mkState (mkScanner (next :: fn2 :: rest) "" fl None) O)
            (resetTrace r0)
          = Some (Panic (SliceBounds 0 (-1) (len (TrimSpace fn2)))))
    as Hnextline.
  { cbn [scanBlock scanner Scan tokens negb Text token allocated
         failure buffered].
    rewrite Hnext, Hpos.
    destruct (HasPrefix next "created by "); reflexivity. }
  assert (scanBlock newobject 2
            (mkState
               (mkScanner (fn :: "" :: next :: fn2 :: rest) hdr fl None) O)
            (resetTrace r0)
          = Some (Panic (SliceBounds 0 (-1) (len (TrimSpace fn2)))))
    as Hblock.
  { cbn [scanBlock scanner Scan tokens negb Text token allocated
         failure buffered].
    rewrite Hfn.
    assert (parseStackPos newobject
              (mkState (mkScanner ("" :: next :: fn2 :: rest) fn fl None) O)
            = Ret (Err ErrEmptyLine,
                   mkState (mkScanner (next :: fn2 :: rest) "" fl None) O))
      as ->
      by reflexivity.
    destruct (HasPrefix fn "created by "); exact Hnextline. }
  apply (parseScanner_fuel newobject _ 3%nat
           (Panic (SliceBounds 0 (-1) (len (TrimSpace fn2))))).
  cbn [scanRoutines scanner Scan tokens negb Text token allocated
       failure buffered].
  rewrite Hh, Hblock. reflexivity.
Qed.

Lemma missing_position_line_crashes_witness :
  forallb plainLine
    ["goroutine 1 [running]:"; "main.main()"; "";
     "goroutine 2 [sleep]:"; "time.Sleep(0x3b9aca00)";
     tab ++ "/go/src/runtime/time.go:195"; ""] = true
  /\ parseHeader "goroutine 1 [running]:"
     = Ret (Ok (mkGoroutine 1 "running" 0 [] None false))
  /\ (len "main.main()" =? 0) = false
  /\ (len "goroutine 2 [sleep]:" =? 0) = false
  /\ (len (TrimSpace "time.Sleep(0x3b9aca00)") =? 0) = false
  /\ occurs ":" (TrimSpace "time.Sleep(0x3b9aca00)") = false
  /\ ParseStackFrame sampleAlloc
       (mkReader
          (unlines
             ["goroutine 1 [running]:"; "main.main()"; "";
              "goroutine 2 [sleep]:"; "time.Sleep(0x3b9aca00)";
              tab ++ "/go/src/runtime/time.go:195"; ""]) None)
     = Some (Panic (SliceBounds 0 (-1)
                      (len (TrimSpace "time.Sleep(0x3b9aca00)")))).
Proof.
  assert (forallb plainLine
            ["goroutine 1 [running]:"; "main.main()"; "";
             "goroutine 2 [sleep]:"; "time.Sleep(0x3b9aca00)";
             tab ++ "/go/src/runtime/time.go:195"; ""] = true) as H0
    by (vm_compute; reflexivity).
  assert (parseHeader "goroutine 1 [running]:"
          = Ret (Ok (mkGoroutine 1 "running" 0 [] None false))) as H1
    by (vm_compute; reflexivity).
  assert ((len "main.main()" =? 0) = false) as H2 by reflexivity.
  assert ((len "goroutine 2 [sleep]:" =? 0) = false) as H3 by reflexivity.
  assert ((len (TrimSpace "time.Sleep(0x3b9aca00)") =? 0) = false) as H4
    by (vm_compute; reflexivity).
  assert (occurs ":" (TrimSpace "time.Sleep(0x3b9aca00)") = false) as H5
    by (vm_compute; reflexivity).
  split; [exact H0|]. split; [exact H1|]. split; [exact H2|].
  split; [exact H3|]. split; [exact H4|]. split; [exact H5|].
  exact (missing_position_line_crashes sampleAlloc
           "goroutine 1 [running]:" "main.main()" "goroutine 2 [sleep]:"
           "time.Sleep(0x3b9aca00)" _
           [tab ++ "/go/src/runtime/time.go:195"; ""] None
           H0 H1 H2 H3 H4 H5).
Defined.

(** ** What [ParseStackFrame] returns *)

(** Lines that fail as headers, up to the first time that [Scan]
    returns false: the outer loop ends there with no record added. *)
Lemma routines_only_junk (newobject : nat -> Z) (junk : list string) :
  forall (tok : string) (fl : option error) (b : option string) (k : nat)
         (acc : list Goroutine),
  forallb malformedHeader junk = true ->
  exists st',
    scanRoutines newobject (S (List.length junk))
                 (mkState (mkScanner junk tok fl b) k) acc
    = Some (Ret (acc, st'))
    /\ failure (scanner st') = fl.
Proof.
  induction junk as [|j junk IH]; intros tok fl b k acc H.
  - cbn [List.length scanRoutines scanner Scan tokens token failure buffered
         allocated].
    destruct b; cbn [negb]; eexists; split; reflexivity.
  - cbn [forallb] in H. apply andb_true_iff in H as [Hj H].
    destruct (malformed_rejected _ Hj) as [e He].
    cbn [List.length scanRoutines scanner Scan tokens negb Text token
         failure buffered allocated].
    rewrite He. apply IH. exact H.
Qed.

(** X10: when no line of the input passes the three tests of a header
    (the empty input among them), [ParseStackFrame] returns no record,
    and as its error what the scanner reports. *)
Theorem no_header_no_records (newobject : nat -> Z) (reader : Reader) :
  forallb malformedHeader (tokens (NewScanner reader)) = true ->
  ParseStackFrame newobject reader
  = Some (Ret ([], failure (NewScanner reader))).
Proof.
  intros H. unfold ParseStackFrame.
  destruct (NewScanner reader) as [junk tok fl b].
  cbn [tokens failure] in *.
  destruct (routines_only_junk newobject junk tok fl b O [] H)
    as [st' [Hrun Hfl]].
  rewrite (parseScanner_fuel newobject _ _ _ Hrun).
  unfold ScanErr. rewrite Hfl. reflexivity.
Qed.

Lemma no_header_no_records_witness :
  forallb malformedHeader
    (tokens (NewScanner
               (mkReader ("panic: boom" ++ nl ++ nl
                          ++ "goroutine one [running]:" ++ nl
                          ++ "exit status 2") None))) = true
  /\ ParseStackFrame sampleAlloc
       (mkReader ("panic: boom" ++ nl ++ nl
                  ++ "goroutine one [running]:" ++ nl
                  ++ "exit status 2") None)
     = Some (Ret ([], None)).
Proof.
  assert (forallb malformedHeader
            (tokens (NewScanner
                       (mkReader ("panic: boom" ++ nl ++ nl
                                  ++ "goroutine one [running]:" ++ nl
                                  ++ "exit status 2") None))) = true) as H
    by (vm_compute; reflexivity).
  split; [exact H|].
  exact (no_header_no_records sampleAlloc _ H).
Defined.

Lemma scanTokens_final (ls : list string) (fl : option error) :
  snd (fst (scanTokens ls fl)) = fl
  \/ snd (fst (scanTokens ls fl)) = Some ErrTooLong.
Proof.
  induction ls as [|l ls IH]; [left; reflexivity|]. cbn [scanTokens].
  destruct (MaxScanTokenSize <=? len l); [right; reflexivity|].
  destruct (scanTokens ls fl) as [[ts e] b]. exact IH.
Qed.

(** X11: the error that [ParseStackFrame] returns is never one of the
    grammar: it is how the reader stopped (nil at the end of the input)
    or the scanner's [ErrTooLong]; the errors of [parseHeader] and
    [parseStackPos] are not passed on. *)
Theorem returned_error_is_the_scanners (newobject : nat -> Z)
  (reader : Reader) (routines : list Goroutine) (e : option error) :
  ParseStackFrame newobject reader = Some (Ret (routines, e)) ->
  e = stop reader \/ e = Some ErrTooLong.
Proof.
  unfold ParseStackFrame. intros H.
  apply parseScanner_clean in H. subst e.
  unfold NewScanner.
  pose proof (scanTokens_final (lines (content reader)) (stop reader)) as Hf.
  destruct (scanTokens _ _) as [[ts fl] b]. exact Hf.
Qed.

Lemma returned_error_is_the_scanners_witness :
  ParseStackFrame sampleAlloc
    (mkReader ("goroutine 1 [running, x minutes]:" ++ nl
               ++ "goroutine 2 [running]:" ++ nl ++ "main.main()" ++ nl
               ++ tab ++ "/a/main.go:x" ++ nl) None)
  = Some (Ret ([mkGoroutine 2 "running" 0 [] None false], None))
  /\ (None = stop (mkReader ("goroutine 1 [running, x minutes]:" ++ nl
               ++ "goroutine 2 [running]:" ++ nl ++ "main.main()" ++ nl
               ++ tab ++ "/a/main.go:x" ++ nl) None)
      \/ None = Some ErrTooLong).
Proof.
  assert (ParseStackFrame sampleAlloc
            (mkReader ("goroutine 1 [running, x minutes]:" ++ nl
               ++ "goroutine 2 [running]:" ++ nl ++ "main.main()" ++ nl
               ++ tab ++ "/a/main.go:x" ++ nl) None)
          = Some (Ret ([mkGoroutine 2 "running" 0 [] None false], None)))
    as H by (vm_compute; reflexivity).
  split; [exact H|].
  exact (returned_error_is_the_scanners sampleAlloc _ _ _ H).
Defined.

(** ** More on [parseHeader] *)

Lemma malformed_false (h : string) :
  malformedHeader h = false ->
  (Z.of_nat (List.length (Split h " ")) <? 3) = false
  /\ String.eqb (nth 0 (Split h " ") "") "goroutine" = true
  /\ exists id, ParseInt (nth 1 (Split h " ") "") 10 64 = inl id.
Proof.
  unfold malformedHeader. intros H.
  apply orb_false_iff in H as [H H3]. apply orb_false_iff in H as [H1 H2].
  apply negb_false_iff in H2. split; [exact H1|]. split; [exact H2|].
  destruct (ParseInt _ 10 64) as [id|]; [now exists id | discriminate].
Qed.

Lemma Split_length_le (c : ascii) (s : string) :
  (List.length (Split s (String c "")) <= S (String.length s))%nat.
Proof.
  unfold Split. induction s as [|d s IH]; [cbn; lia|].
  cbn [splitFrom String.length]. rewrite HasPrefix_byte.
  destruct (Ascii.eqb d c); [cbn [List.length Nat.sub]; lia|].
  destruct (splitFrom 0 s (String c "")); cbn [List.length] in *; lia.
Qed.

Lemma occurs_substring (c : ascii) (s : string) :
  occurs c s = false -> forall n, occurs c (substring 0 n s) = false.
Proof.
  induction s as [|d s IH]; intros H n; [destruct n; reflexivity|].
  cbn [occurs] in H. apply orb_false_iff in H as [Hd Hs].
  destruct n; [reflexivity|]. cbn [substring occurs].
  now rewrite Hd, (IH Hs).
Qed.

(** X12: a header that passes the three tests and whose first opening
    bracket is one of its last two bytes makes [parseHeader] panic: the
    slice meant to drop the bracket and the closing "]:" has its lower
    bound above its upper bound. *)
Theorem header_bracket_at_end_panics (h : string) :
  malformedHeader h = false ->
  len h - 2 < Index h "[" + 1 ->
  parseHeader h
  = Panic (SliceBounds (Index h "[" + 1) (len h - 2) (len h)).
Proof.
  intros Hm Hb. destruct (malformed_false _ Hm) as [H1 [H2 [id H3]]].
  unfold parseHeader. rewrite H1, H2, H3. cbn [negb]. unfold slice.
  destruct ((0 <=? Index h "[" + 1) && (Index h "[" + 1 <=? len h - 2)
            && (len h - 2 <=? len h)) eqn:E; [|reflexivity].
  apply andb_true_iff in E as [E _]. apply andb_true_iff in E as [_ E].
  apply Z.leb_le in E. lia.
Qed.

Lemma header_bracket_at_end_panics_witness :
  malformedHeader "goroutine 1 [" = false
  /\ len "goroutine 1 [" - 2 < Index "goroutine 1 [" "[" + 1
  /\ parseHeader "goroutine 1 [" = Panic (SliceBounds 13 11 13).
Proof.
  assert (malformedHeader "goroutine 1 [" = false) as H1 by reflexivity.
  assert (len "goroutine 1 [" - 2 < Index "goroutine 1 [" "[" + 1) as H2
    by (vm_compute; reflexivity).
  split; [exact H1|]. split; [exact H2|].
  exact (header_bracket_at_end_panics "goroutine 1 [" H1 H2).
Defined.

(** X13: a header that passes the three tests and has neither an opening
    bracket nor a comma is accepted: [Index] returns [-1], the slice
    starts at the first byte, and the status is the whole header without
    its last two bytes. *)
Theorem header_without_bracket (h : string) :
  malformedHeader h = false ->
  occurs "[" h = false ->
  occurs "," h = false ->
  exists id,
    ParseInt (nth 1 (Split h " ") "") 10 64 = inl id
    /\ parseHeader h
       = Ret (Ok (mkGoroutine id (substring 0 (String.length h - 2) h) 0
                    [] None false)).
Proof.
  intros Hm Hb Hc. destruct (malformed_false _ Hm) as [H1 [H2 [id H3]]].
  exists id. split; [exact H3|].
  unfold parseHeader. rewrite H1, H2, H3. cbn [negb].
  rewrite (Index_absent _ _ Hb).
  apply Z.ltb_ge in H1. pose proof (Split_length_le " " h) as Hle.
  assert (2 <= String.length h)%nat as Hlen by lia.
  unfold slice.
  replace ((0 <=? -1 + 1) && (-1 + 1 <=? len h - 2) && (len h - 2 <=? len h))
    with true
    by (symmetry; rewrite !andb_true_iff, !Z.leb_le; unfold len; lia).
  cbn [bind].
  replace (Z.to_nat (-1 + 1)) with O by reflexivity.
  replace (Z.to_nat (len h - 2 - (-1 + 1))) with (String.length h - 2)%nat
    by (unfold len; lia).
  rewrite (Split_absent _ _ (occurs_substring _ _ Hc _)). reflexivity.
Qed.

Lemma header_without_bracket_witness :
  malformedHeader "goroutine 5 is here" = false
  /\ occurs "[" "goroutine 5 is here" = false
  /\ occurs "," "goroutine 5 is here" = false
  /\ exists id,
       ParseInt (nth 1 (Split "goroutine 5 is here" " ") "") 10 64 = inl id
       /\ parseHeader "goroutine 5 is here"
          = Ret (Ok (mkGoroutine id
                       (substring 0 (String.length "goroutine 5 is here" - 2)
                                  "goroutine 5 is here") 0 [] None false)).
Proof.
  assert (malformedHeader "goroutine 5 is here" = false) as H1
    by reflexivity.
  assert (occurs "[" "goroutine 5 is here" = false) as H2 by reflexivity.
  assert (occurs "," "goroutine 5 is here" = false) as H3 by reflexivity.
  split; [exact H1|]. split; [exact H2|]. split; [exact H3|].
  exact (header_without_bracket "goroutine 5 is here" H1 H2 H3).
Defined.

Lemma minutes_not_locked (q : string) :
  HasSuffix (Trim q " ") "minutes" = true -> isLocked q = false.
Proof.
  unfold isLocked. intros H.
  destruct (String.eqb (Trim q " ") "locked to thread") eqn:E;
    [|reflexivity].
  apply String.eqb_eq in E. rewrite E in H. discriminate.
Qed.

Lemma scan_flags (quals : list string) :
  forall (w w' : Z) (l l' : bool),
  scanQualifiers quals w l = Ret (Ok (w', l')) ->
  l' = l || existsb isLocked quals
  /\ (noMinutes quals = true -> w' = w).
Proof.
  induction quals as [|q quals IH]; intros w w' l l' H.
  - injection H as <- <-. now rewrite orb_false_r.
  - cbn [scanQualifiers] in H. cbn [existsb noMinutes forallb].
    destruct (HasSuffix (Trim q " ") "minutes") eqn:Hs.
    + rewrite (minutes_not_locked _ Hs). cbn [orb negb andb].
      destruct (slice _ _ _) as [minStr|]; cbn [bind] in H; [|discriminate].
      destruct (ParseInt minStr 10 64) as [m|]; [|discriminate].
      apply IH in H as [Hl _]. split; [exact Hl | discriminate].
    + cbn [negb andb]. unfold isLocked at 1.
      destruct (String.eqb (Trim q " ") "locked to thread").
      * apply IH in H as [Hl Hw]. split; [|exact Hw].
        rewrite Hl. cbn [orb]. now rewrite orb_true_r.
      * apply IH in H as [Hl Hw]. split; [exact Hl | exact Hw].
Qed.

(** X14: for a header of the grammar's shape that [parseHeader] accepts,
    the record has the id and the status written in the header,
    [LockedToThread] is true exactly when some qualifier is, its spaces
    trimmed, "locked to thread", and [WaitSinceMin] is 0 when no
    qualifier ends in "minutes". *)
Theorem header_fields_exact (ids status : string) (quals : list string)
  (id : Z) (r : Goroutine) :
  ParseInt ids 10 64 = inl id ->
  commaFree (status :: quals) = true ->
  parseHeader (headerText ids status quals) = Ret (Ok r) ->
  ID r = id /\ Status r = status
  /\ LockedToThread r = existsb isLocked quals
  /\ (noMinutes quals = true -> WaitSinceMin r = 0)
  /\ StackTrace r = [] /\ CratedBy r = None.
Proof.
  intros Hid Hc. rewrite (parseHeader_text _ _ _ _ Hid Hc).
  destruct (scanQualifiers quals 0 false) as [[[w l]|e]|] eqn:Hs;
    cbn [bind]; try discriminate.
  intros [= <-]. cbn [ID Status LockedToThread WaitSinceMin StackTrace
                      CratedBy].
  destruct (scan_flags _ _ _ _ _ Hs) as [Hl Hw]. cbn [orb] in Hl.
  split; [reflexivity|]. split; [reflexivity|]. split; [exact Hl|].
  split; [exact Hw|]. split; reflexivity.
Qed.

Lemma header_fields_exact_witness :
  ParseInt "12" 10 64 = inl 12
  /\ commaFree ["semacquire"; " locked to thread"; " 4 hours"] = true
  /\ parseHeader "goroutine 12 [semacquire, locked to thread, 4 hours]:"
     = Ret (Ok (mkGoroutine 12 "semacquire" 0 [] None true))
  /\ existsb isLocked [" locked to thread"; " 4 hours"] = true
  /\ noMinutes [" locked to thread"; " 4 hours"] = true.
Proof.
  assert (ParseInt "12" 10 64 = inl 12) as H1 by reflexivity.
  assert (commaFree ["semacquire"; " locked to thread"; " 4 hours"] = true)
    as H2 by reflexivity.
  assert (parseHeader (headerText "12" "semacquire"
                         [" locked to thread"; " 4 hours"])
          = Ret (Ok (mkGoroutine 12 "semacquire" 0 [] None true))) as H3
    by reflexivity.
  destruct (header_fields_exact "12" "semacquire"
              [" locked to thread"; " 4 hours"] 12 _ H1 H2 H3)
    as [_ [_ [Hl [Hw _]]]].
  cbn [LockedToThread WaitSinceMin] in Hl, Hw.
  split; [exact H1|]. split; [exact H2|]. split; [exact H3|].
  split; [symmetry; exact Hl | reflexivity].
Defined.

Lemma scan_wait_fits (quals : list string) :
  forall (w w' : Z) (l l' : bool),
  fits 64 w ->
  scanQualifiers quals w l = Ret (Ok (w', l')) -> fits 64 w'.
Proof.
  induction quals as [|q quals IH]; intros w w' l l' Hw H.
  - now injection H as <- _.
  - cbn [scanQualifiers] in H.
    destruct (HasSuffix (Trim q " ") "minutes").
    + destruct (slice _ _ _) as [minStr|]; cbn [bind] in H; [|discriminate].
      destruct (ParseInt minStr 10 64) as [m|] eqn:Hm; [|discriminate].
      assert (1 <= 64) as H64 by lia.
      exact (IH _ _ _ _ (ParseInt_range minStr 10 64 m H64 Hm) H).
    + destruct (String.eqb _ _); exact (IH _ _ _ _ Hw H).
Qed.

(** X15: the numbers of a record that [parseHeader] returns are within
    the range of Go's [int64]: no id and no wait time wraps around. *)
Theorem header_numbers_fit_int64 (h : string) (r : Goroutine) :
  parseHeader h = Ret (Ok r) ->
  fits 64 (ID r) /\ fits 64 (WaitSinceMin r).
Proof.
  unfold parseHeader.
  destruct (_ <? 3); [discriminate|].
  destruct (negb _); [discriminate|].
  destruct (ParseInt _ 10 64) as [id|] eqn:Hid; [|discriminate].
  assert (1 <= 64) as H64 by lia.
  pose proof (ParseInt_range _ 10 64 id H64 Hid) as Hfit.
  assert (fits 64 0) as H0 by (unfold fits; cbn; lia).
  destruct (slice _ _ _) as [fullState|]; cbn [bind]; [|discriminate].
  destruct (_ =? 1); [intros [= <-]; split; assumption|].
  destruct (scanQualifiers _ _ _) as [[[w l]|e]|] eqn:Hs; cbn [bind];
    try discriminate.
  intros [= <-]. split; [exact Hfit|].
  exact (scan_wait_fits _ _ _ _ _ H0 Hs).
Qed.

Lemma header_numbers_fit_int64_witness :
  parseHeader "goroutine 9223372036854775807 [sleep, -3 minutes]:"
  = Ret (Ok (mkGoroutine 9223372036854775807 "sleep" (-3) [] None false))
  /\ fits 64 9223372036854775807 /\ fits 64 (-3).
Proof.
  assert (parseHeader "goroutine 9223372036854775807 [sleep, -3 minutes]:"
          = Ret (Ok (mkGoroutine 9223372036854775807 "sleep" (-3) [] None
                       false))) as H by (vm_compute; reflexivity).
  split; [exact H|].
  exact (header_numbers_fit_int64 _ _ H).
Defined.

(** ** More on [parseStackPos] *)

Lemma LastIndex_split (c : ascii) (s : string) :
  0 <= LastIndex s (String c "") ->
  exists a b, s = a ++ String c b /\ occurs c b = false
              /\ LastIndex s (String c "") = len a.
Proof.
  induction s as [|d s IH]; [cbn; lia|].
  cbn [LastIndex]. rewrite HasPrefix_byte.
  destruct (0 <=? LastIndex s (String c "")) eqn:E.
  - apply Z.leb_le in E. intros _.
    destruct (IH E) as [a [b [Hs [Hb Hi]]]].
    exists (String d a), b. split; [cbn; now rewrite Hs|].
    split; [exact Hb|]. rewrite len_String. lia.
  - apply Z.leb_gt in E. destruct (Ascii.eqb d c) eqn:Hd; [|lia].
    intros _. apply Ascii.eqb_eq in Hd. subst d.
    exists "", s. split; [reflexivity|]. split; [|reflexivity].
    destruct (occurs c s) eqn:Ho; [|reflexivity].
    apply LastIndex_found in Ho. lia.
Qed.

Lemma parsePos_shape (newobject : nat -> Z) (text file : string) (line : Z)
  (pos : option intptr) (k k' : nat) :
  parsePos newobject text k = Ret (Ok (file, line, pos), k') ->
  exists tail,
    text = file ++ ":" ++ tail /\ occurs ":" tail = false
    /\ (pos = None -> ParseInt tail 10 32 = inl line).
Proof.
  unfold parsePos. destruct (len text =? 0); [discriminate|].
  destruct (occurs ":" text) eqn:Hocc.
  2:{ rewrite (LastIndex_absent _ _ Hocc). cbn. discriminate. }
  apply LastIndex_found in Hocc.
  destruct (LastIndex_split _ _ Hocc) as [a [b [Hs [Hb Hi]]]].
  rewrite Hi. subst text. rewrite slice_prefix by reflexivity. cbn [bind].
  destruct (_ <=? len a + 1).
  - replace (a ++ String ":" b) with ((a ++ ":") ++ b)
      by (rewrite app_assoc_s; reflexivity).
    rewrite slice_suffix;
      [|rewrite len_app; reflexivity | rewrite len_app; reflexivity].
    cbn [bind]. destruct (ParseInt b 10 32) as [n|] eqn:Hn; [|discriminate].
    intros [= <- <- <- _]. exists b.
    split; [rewrite app_assoc_s; reflexivity|]. split; [exact Hb|].
    intros _. now rewrite (toInt32_id _ _ _ Hn).
  - destruct (slice _ _ _) as [posStr|]; cbn [bind]; [|discriminate].
    destruct (ParseInt posStr 16 64); [|discriminate].
    destruct (slice _ _ _) as [lineStr|]; cbn [bind]; [|discriminate].
    destruct (ParseInt lineStr 10 32); [|discriminate].
    intros [= <- _ <- _]. exists b.
    split; [reflexivity|]. split; [exact Hb | discriminate].
Qed.

(** X16: a position line that [parseStackPos] accepts has a colon; the
    file name returned is all that stands before the last colon of the
    trimmed line, so nothing after it contains a colon; and when no
    position is returned, what follows that colon is the line number,
    whole. *)
Theorem accepted_position_line_shape (newobject : nat -> Z)
  (raw file : string) (line : Z) (pos : option intptr)
  (rest : list string) (tok : string) (fl : option error) (k : nat)
  (st' : state) :
  parseStackPos newobject (stateOf (raw :: rest) tok fl k)
  = Ret (Ok (file, line, pos), st') ->
  exists tail,
    TrimSpace raw = file ++ ":" ++ tail /\ occurs ":" tail = false
    /\ (pos = None -> ParseInt tail 10 32 = inl line).
Proof.
  unfold parseStackPos.
  cbn [stateOf scanner Scan tokens negb Text token allocated failure buffered].
  destruct (parsePos newobject (TrimSpace raw) k) as [[res k']|] eqn:Hp;
    cbn [bind fst snd]; [|discriminate].
  intros [= -> _]. exact (parsePos_shape _ _ _ _ _ _ _ Hp).
Qed.

Lemma accepted_position_line_shape_witness :
  parseStackPos sampleAlloc
    (stateOf [tab ++ "C:/src/a b/x.go:12"] "" None O)
  = Ret (Ok ("C:/src/a b/x.go", 12, None),
         stateOf [] (tab ++ "C:/src/a b/x.go:12") None O)
  /\ exists tail,
       TrimSpace (tab ++ "C:/src/a b/x.go:12")
       = "C:/src/a b/x.go" ++ ":" ++ tail
       /\ occurs ":" tail = false
       /\ (@None intptr = None -> ParseInt tail 10 32 = inl 12).
Proof.
  assert (parseStackPos sampleAlloc
            (stateOf [tab ++ "C:/src/a b/x.go:12"] "" None O)
          = Ret (Ok ("C:/src/a b/x.go", 12, None),
                 stateOf [] (tab ++ "C:/src/a b/x.go:12") None O)) as H
    by (vm_compute; reflexivity).
  split; [exact H|].
  exact (accepted_position_line_shape sampleAlloc _ _ _ _ _ _ _ _ _ H).
Defined.







Lemma parsePos_any_prefix (newobject : nat -> Z)
  (file ln pfx hex : string) (n p : Z) (k : nat) :
  ParseInt ln 10 32 = inl n ->
  ParseInt hex 16 64 = inl p ->
  len pfx = 3 -> occurs " " pfx = false -> occurs ":" pfx = false ->
  parsePos newobject (file ++ ":" ++ ln ++ " " ++ pfx ++ hex) k
  = Ret (Ok (file, n, Some (mkPtr (newobject k) p)), S k).
Proof.
  intros Hln Hhex Hp3 Hps Hpc. unfold parsePos.
  pose proof (len_nonneg file) as Hf. pose proof (len_nonneg hex) as Hh.
  pose proof (ParseInt_nonempty _ _ _ _ Hln) as Hl.
  set (text := file ++ ":" ++ ln ++ " " ++ pfx ++ hex).
  assert (len text = len file + 1 + len ln + 4 + len hex) as Hlen.
  { unfold text. rewrite len_app. cbn [append]. rewrite len_String.
    rewrite len_app, len_String, len_app. lia. }
  destruct (len text =? 0) eqn:E; [apply Z.eqb_eq in E; lia | clear E].
  assert (LastIndex text ":" = len file) as ->.
  { unfold text. cbn [append]. apply LastIndex_last.
    rewrite occurs_app. cbn [occurs]. rewrite occurs_app.
    rewrite (no_colon _ _ _ _ Hln), (no_colon _ _ _ _ Hhex), Hpc.
    reflexivity. }
  unfold text at 1. rewrite slice_prefix by reflexivity. cbn [bind].
  assert (LastIndex text " " = len file + 1 + len ln) as ->.
  { unfold text.
    replace (file ++ ":" ++ ln ++ " " ++ pfx ++ hex)
      with ((file ++ ":" ++ ln) ++ String " " (pfx ++ hex))
      by (rewrite !app_assoc_s; reflexivity).
    rewrite LastIndex_last.
    - rewrite len_app. cbn [append]. rewrite len_String. lia.
    - rewrite occurs_app, Hps, (no_space _ _ _ _ Hhex). reflexivity. }
  destruct (len file + 1 + len ln <=? len file + 1) eqn:E;
    [apply Z.leb_le in E; lia | clear E].
  assert (slice text (len file + 1 + len ln + 4) (len text) = Ret hex) as ->.
  { unfold text at 1.
    replace (file ++ ":" ++ ln ++ " " ++ pfx ++ hex)
      with ((file ++ ":" ++ ln ++ " " ++ pfx) ++ hex)
      by (rewrite !app_assoc_s; reflexivity).
    apply slice_suffix.
    - rewrite len_app. cbn [append]. rewrite len_String, len_app, len_String.
      lia.
    - rewrite Hlen, len_app. cbn [append].
      rewrite len_String, len_app, len_String. lia. }
  cbn [bind]. rewrite Hhex.
  assert (slice text (len file + 1) (len file + 1 + len ln) = Ret ln) as ->.
  { unfold text.
    replace (file ++ ":" ++ ln ++ " " ++ pfx ++ hex)
      with ((file ++ ":") ++ ln ++ " " ++ pfx ++ hex)
      by (rewrite !app_assoc_s; reflexivity).
    apply slice_middle; rewrite len_app; reflexivity. }
  cbn [bind]. rewrite Hln, (toInt32_id _ _ _ Hln), (toInt_id _ _ _ Hhex).
  reflexivity.
Qed.

(** X18: [parseStackPos] does not look at the three bytes after the last
    space: the position is read from the fourth byte after it, so any
    three bytes without space or colon serve in place of "+0x". *)
Theorem offset_marker_unchecked (newobject : nat -> Z)
  (raw file ln pfx hex : string) (n p : Z)
  (rest : list string) (tok : string) (fl : option error) (k : nat) :
  ParseInt ln 10 32 = inl n ->
  ParseInt hex 16 64 = inl p ->
  len pfx = 3 -> occurs " " pfx = false -> occurs ":" pfx = false ->
  TrimSpace raw = file ++ ":" ++ ln ++ " " ++ pfx ++ hex ->
  parseStackPos newobject (stateOf (raw :: rest) tok fl k)
  = Ret (Ok (file, n, Some (mkPtr (newobject k) p)),
         stateOf rest raw fl (S k)).
Proof.
  intros Hln Hhex Hp3 Hps Hpc Hraw. unfold parseStackPos.
  cbn [stateOf scanner Scan tokens negb Text token allocated failure buffered].
  rewrite Hraw.
  rewrite (parsePos_any_prefix newobject _ _ _ _ _ _ _ Hln Hhex Hp3 Hps Hpc).
  reflexivity.
Qed.

Lemma offset_marker_unchecked_witness :
  ParseInt "10" 10 32 = inl 10
  /\ ParseInt "ff" 16 64 = inl 255
  /\ len "abc" = 3 /\ occurs " " "abc" = false /\ occurs ":" "abc" = false
  /\ TrimSpace (tab ++ "/a/b.go:10 abcff")
     = "/a/b.go" ++ ":" ++ "10" ++ " " ++ "abc" ++ "ff"
  /\ parseStackPos sampleAlloc
       (stateOf [tab ++ "/a/b.go:10 abcff"] "" None O)
     = Ret (Ok ("/a/b.go", 10, Some (mkPtr (sampleAlloc 0) 255)),
            stateOf [] (tab ++ "/a/b.go:10 abcff") None 1).
Proof.
  assert (ParseInt "10" 10 32 = inl 10) as H1 by reflexivity.
  assert (ParseInt "ff" 16 64 = inl 255) as H2 by reflexivity.
  assert (len "abc" = 3) as H3 by reflexivity.
  assert (occurs " " "abc" = false) as H4 by reflexivity.
  assert (occurs ":" "abc" = false) as H5 by reflexivity.
  assert (TrimSpace (tab ++ "/a/b.go:10 abcff")
          = "/a/b.go" ++ ":" ++ "10" ++ " " ++ "abc" ++ "ff") as H6
    by (vm_compute; reflexivity).
  split; [exact H1|]. split; [exact H2|]. split; [exact H3|].
  split; [exact H4|]. split; [exact H5|]. split; [exact H6|].
  exact (offset_marker_unchecked sampleAlloc (tab ++ "/a/b.go:10 abcff")
           "/a/b.go" "10" "abc" "ff" 10 255 [] "" None O
           H1 H2 H3 H4 H5 H6).
Defined.

(** ** Line ends *)

Lemma dropCR_CR (l : string) : dropCR (l ++ String (byte 13) "") = l.
Proof.
  induction l as [|c l IH]; [reflexivity|].
  destruct l as [|d l]; [reflexivity|].
  cbn [append dropCR] in *. now rewrite IH.
Qed.

Lemma lines_CRLF (ls : list string) :
  forallb plainLine ls = true ->
  lines (unlinesCRLF ls) = map (fun l => l ++ String (byte 13) "") ls.
Proof.
  induction ls as [|l ls IH]; [reflexivity|]. cbn [forallb unlinesCRLF map].
  intros H. apply andb_true_iff in H as [Hl H].
  unfold plainLine in Hl. apply andb_true_iff in Hl as [Hl _].
  apply andb_true_iff in Hl as [Hl _]. apply negb_true_iff in Hl.
  replace (l ++ String (byte 13) nl ++ unlinesCRLF ls)
    with ((l ++ String (byte 13) "") ++ nl ++ unlinesCRLF ls)
    by (rewrite app_assoc_s; reflexivity).
  rewrite lines_line, (IH H); [reflexivity|].
  rewrite occurs_app, Hl. reflexivity.
Qed.

Lemma scanTokens_CRLF (ls : list string) (fl : option error) :
  forallb (fun l => len l + 1 <? MaxScanTokenSize) ls = true ->
  scanTokens (map (fun l => l ++ String (byte 13) "") ls) fl
  = (ls, fl, None).
Proof.
  induction ls as [|l ls IH]; [reflexivity|]. cbn [forallb map scanTokens].
  intros H. apply andb_true_iff in H as [Hl H]. apply Z.ltb_lt in Hl.
  rewrite len_app. change (len (String (byte 13) "")) with 1.
  destruct (MaxScanTokenSize <=? len l + 1) eqn:E;
    [apply Z.leb_le in E; lia|].
  rewrite (IH H), dropCR_CR. reflexivity.
Qed.

(** X19: a dump whose lines end in CR LF gives the same result as the
    dump with the same lines ended by LF: the records never hold the
    carriage returns. *)
Theorem crlf_line_ends (newobject : nat -> Z) (ls : list string)
  (fl : option error) :
  forallb plainLine ls = true ->
  forallb (fun l => len l + 1 <? MaxScanTokenSize) ls = true ->
  ParseStackFrame newobject (mkReader (unlinesCRLF ls) fl)
  = ParseStackFrame newobject (mkReader (unlines ls) fl).
Proof.
  intros Hplain Hshort. rewrite (ParseStackFrame_unlines _ _ _ Hplain).
  unfold ParseStackFrame, NewScanner. cbn [content stop].
  rewrite (lines_CRLF _ Hplain), (scanTokens_CRLF _ _ Hshort). reflexivity.
Qed.

Lemma crlf_line_ends_witness :
  forallb plainLine (blockLines blockSleep) = true
  /\ forallb (fun l => len l + 1 <? MaxScanTokenSize) (blockLines blockSleep)
     = true
  /\ ParseStackFrame sampleAlloc
       (mkReader (unlinesCRLF (blockLines blockSleep)) None)
     = ParseStackFrame sampleAlloc
         (mkReader (unlines (blockLines blockSleep)) None).
Proof.
  assert (forallb plainLine (blockLines blockSleep) = true) as H1
    by (vm_compute; reflexivity).
  assert (forallb (fun l => len l + 1 <? MaxScanTokenSize)
            (blockLines blockSleep) = true) as H2
    by (vm_compute; reflexivity).
  split; [exact H1|]. split; [exact H2|].
  exact (crlf_line_ends sampleAlloc (blockLines blockSleep) None H1 H2).
Defined.

(** ** Position lines rejected with an error *)

(** X20: for every block in which exactly one position line is
    rejected by [parseStackPos] with an error (as it is when its line
    number is no integer, see [bad_line_number_rejected]),
    [ParseStackFrame] still returns the block's record; its header fields
    are those of the header, and its trace is the one denoted by every
    other entry of the block, in their order; the records of the blocks
    before and after are those these blocks denote, no frame gained or
    lost. *)
Theorem bad_position_line_skipped (newobject : nat -> Z)
  (before after : list block) (hdr : string) (r0 : Goroutine)
  (pre post : list entry) (fn bad : string) (fl : option error) :
  forallb plainLine
    (dumpLines before
     ++ blockLines (mkBlock hdr (pre ++ (fn, bad) :: post))
     ++ dumpLines after) = true ->
  forallb wellFormed before = true ->
  forallb wellFormed after = true ->
  parseHeader hdr = Ret (Ok r0) ->
  forallb accepted (pre ++ post) = true ->
  (len fn =? 0) = false ->
  posRejected (TrimSpace bad) = true ->
  exists rs1 r rs2,
    ParseStackFrame newobject
      (mkReader
         (unlines (dumpLines before
                   ++ blockLines (mkBlock hdr (pre ++ (fn, bad) :: post))
                   ++ dumpLines after)) fl)
    = Some (Ret ((rs1 ++ r :: rs2)%list, fl))
    /\ sameHeader r0 r
    /\ traceView r = entriesView (pre ++ post) [] None
    /\ viewsOf rs1 = map blockView before
    /\ viewsOf rs2 = map blockView after.
Proof.
  intros Hplain Hb Ha Hh Hes Hfn Hbad.
  rewrite (ParseStackFrame_unlines _ _ _ Hplain). clear Hplain.
  set (b := mkBlock hdr (pre ++ (fn, bad) :: post)).
  pose proof (posRejected_None _ Hbad) as Hnone.
  assert (wellFormed b = true) as Hwf.
  { unfold wellFormed, b. cbn [header entries]. rewrite Hh.
    apply scannable_accepted in Hes. rewrite forallb_app in *.
    apply andb_true_iff in Hes as [H1 H2]. rewrite H1. cbn [forallb andb].
    rewrite H2, andb_true_r. unfold scannable. cbn [fst snd].
    now rewrite Hfn, Hnone, Hbad. }
  destruct (parse_dump newobject (before ++ [b]) after [] EmptyString fl)
    as [rs [Hrun Hv]]; [|reflexivity|exact Ha|].
  { rewrite forallb_app, Hb. cbn [forallb]. now rewrite Hwf. }
  rewrite dumpLines_app in Hrun. unfold dumpLines at 2 in Hrun.
  cbn [flat_map List.app] in Hrun.
  rewrite app_nil_r, <- app_assoc in Hrun.
  symmetry in Hv. unfold viewsOf in Hv.
  rewrite !map_app in Hv. cbn [map] in Hv. rewrite <- app_assoc in Hv.
  apply map_eq_app in Hv as [rs1 [rs' [-> [Hv1 Hv]]]].
  cbn [List.app] in Hv.
  apply map_eq_cons in Hv as [r [rs2 [-> [Hr Hv2]]]].
  exists rs1, r, rs2. split; [exact Hrun|].
  symmetry in Hr. unfold b in Hr.
  destruct (blockView_fields _ _ _ _ Hh Hr) as [Hsame Htrace].
  split; [exact Hsame|]. split; [|split; assumption].
  rewrite Htrace. now apply entriesView_skip.
Qed.

Lemma bad_position_line_skipped_witness :
  forallb plainLine
    (dumpLines [blockMain]
     ++ blockLines
          (mkBlock "goroutine 2 [select]:"
             ([entryA] ++ ("main.b()", tab ++ "/a/b.go:x7") :: [entryC]))
     ++ dumpLines [blockSleep]) = true
  /\ forallb wellFormed [blockMain] = true
  /\ forallb wellFormed [blockSleep] = true
  /\ parseHeader "goroutine 2 [select]:"
     = Ret (Ok (mkGoroutine 2 "select" 0 [] None false))
  /\ forallb accepted ([entryA] ++ [entryC]) = true
  /\ (len "main.b()" =? 0) = false
  /\ posRejected (TrimSpace (tab ++ "/a/b.go:x7")) = true
  /\ exists rs1 r rs2,
       ParseStackFrame sampleAlloc
         (mkReader
            (unlines
               (dumpLines [blockMain]
                ++ blockLines
                     (mkBlock "goroutine 2 [select]:"
                        ([entryA] ++ ("main.b()", tab ++ "/a/b.go:x7")
                                     :: [entryC]))
                ++ dumpLines [blockSleep])) None)
       = Some (Ret ((rs1 ++ r :: rs2)%list, None))
       /\ sameHeader (mkGoroutine 2 "select" 0 [] None false) r
       /\ traceView r = entriesView ([entryA] ++ [entryC]) [] None
       /\ viewsOf rs1 = map blockView [blockMain]
       /\ viewsOf rs2 = map blockView [blockSleep].
Proof.
  assert (forallb plainLine
            (dumpLines [blockMain]
             ++ blockLines
                  (mkBlock "goroutine 2 [select]:"
                     ([entryA] ++ ("main.b()", tab ++ "/a/b.go:x7")
                                  :: [entryC]))
             ++ dumpLines [blockSleep]) = true) as H0
    by (vm_compute; reflexivity).
  assert (forallb wellFormed [blockMain] = true) as H1
    by (vm_compute; reflexivity).
  assert (forallb wellFormed [blockSleep] = true) as H2
    by (vm_compute; reflexivity).
  assert (parseHeader "goroutine 2 [select]:"
          = Ret (Ok (mkGoroutine 2 "select" 0 [] None false))) as H3
    by (vm_compute; reflexivity).
  assert (forallb accepted ([entryA] ++ [entryC]) = true) as H4
    by (vm_compute; reflexivity).
  assert ((len "main.b()" =? 0) = false) as H5 by (vm_compute; reflexivity).
  assert (posRejected (TrimSpace (tab ++ "/a/b.go:x7")) = true) as H6
    by (vm_compute; reflexivity).
  split; [exact H0|].
  split; [exact H1|]. split; [exact H2|]. split; [exact H3|].
  split; [exact H4|]. split; [exact H5|]. split; [exact H6|].
  exact (bad_position_line_skipped sampleAlloc [blockMain] [blockSleep]
           "goroutine 2 [select]:" _ [entryA] [entryC] "main.b()"
           (tab ++ "/a/b.go:x7") None H0 H1 H2 H3 H4 H5 H6).
Defined.

(** ** A line too long for the scanner's buffer *)











